(** * cv_plot.gui: pointer interaction and window lifecycle

    A shallow embedding of [cv_plot/gui/mouse_event.py],
    [cv_plot/gui/mouse_adapter.py], [cv_plot/gui/window.py] and
    [cv_plot/gui/show.py], and the properties of the interaction controller,
    the window registry and the wait loop that are stated about them.

    Conventions of the embedding.
    - Python [int] is [Z]; [&] is [Z.land], [//] is [Z.div] (both agree with
      Python on negative numbers); a pixel position is a pair of [Z].
    - A Python float produced by [math.pow] is kept as the exact term
      [Pow b e] (base and exponent as rationals); [float_value] gives the real
      number it stands for, which the double approximates.  Rounding is not
      part of the model; the upper end of the range of doubles is: a
      conversion or a power that leaves it raises [OverflowError], as in
      CPython.
    - A call that can raise answers an [outcome]: [Ret] with its result or
      [Raise] with the exception.
    - The collaborators that are not part of these files (the [Axes] object of
      [cv_plot.core], the user's handler, OpenCV's highgui) are observed
      through the chronological list of calls made on them ([Effect]).
    - [Window] objects live in a heap and are named by references; the
      registry [_WINDOW_MAP] is a [gmap] from window names to references.
      An object is finalised ([__del__]) at the moment its last reference
      goes, as CPython's reference counting has it; its references are the
      registry's and those held outside the registry ([roots]). *)

From Stdlib Require Import ZArith QArith Reals Lra Lia List Bool.
From stdpp Require Import gmap strings.
Import ListNotations.

Local Open Scope Z_scope.

(** ** OpenCV constants used by the source *)

Module cv2.

(** Event kinds, [cv::MouseEventTypes]. *)
Definition EVENT_MOUSEMOVE : Z := 0.
Definition EVENT_LBUTTONDOWN : Z := 1.
Definition EVENT_RBUTTONDOWN : Z := 2.
Definition EVENT_MBUTTONDOWN : Z := 3.
Definition EVENT_LBUTTONUP : Z := 4.
Definition EVENT_RBUTTONUP : Z := 5.
Definition EVENT_MBUTTONUP : Z := 6.
Definition EVENT_LBUTTONDBLCLK : Z := 7.
Definition EVENT_RBUTTONDBLCLK : Z := 8.
Definition EVENT_MBUTTONDBLCLK : Z := 9.
Definition EVENT_MOUSEWHEEL : Z := 10.
Definition EVENT_MOUSEHWHEEL : Z := 11.

(** Button bits of the flags word, [cv::MouseEventFlags]. *)
Definition EVENT_FLAG_LBUTTON : Z := 1.
Definition EVENT_FLAG_RBUTTON : Z := 2.
Definition EVENT_FLAG_MBUTTON : Z := 4.

(** [cv::getMouseWheelDelta]: highgui keeps the wheel delta of a wheel
    event in the upper 16 bits of the flags word, as a signed short
    ([(short)((flags >> 16) & 0xffff)]); one notch is a delta of 120. *)
Definition getMouseWheelDelta (flags : Z) : Z :=
  let u := Z.land (Z.shiftr flags 16) 65535 in
  if u <? 32768 then u else u - 65536.

(** The flags word highgui builds for a wheel event: the delta in the upper
    half, the button bits below. *)
Definition wheel_flags (delta buttons : Z) : Z :=
  Z.lor (Z.shiftl delta 16) buttons.

End cv2.

(** ** Values shared by the modules *)

Definition Point : Type := (Z * Z)%type.
Definition Size : Type := (Z * Z)%type.

(** Identity of an [Axes] object (the plot surface); the object itself
    belongs to [cv_plot.core]. *)
Definition AxesRef : Type := nat.

(** Exceptions a call can raise. *)
Inductive exn : Type :=
| Cv2Error
| OverflowError
| OtherException.

Inductive outcome (A : Type) : Type :=
| Ret (a : A)
| Raise (e : exn).

Arguments Ret {A} a.
Arguments Raise {A} e.

(** Sequencing, [x ← m; k]: the first exception raised ends the
    computation. *)
#[global] Instance outcome_bind : MBind outcome :=
  fun (A B : Type) (k : A -> outcome B) (m : outcome A) =>
    match m with
    | Ret a => k a
    | Raise e => Raise e
    end.

(** The float returned by [math.pow(base, exponent)]. *)
Inductive pyfloat : Type :=
| Pow (base exponent : Q).

Definition float_value (f : pyfloat) : R :=
  match f with
  | Pow b e => Rpower (Q2R b) (Q2R e)
  end.

(** The least magnitude of an [int] that has no double: from 2^1024 - 2^970
    on, rounding to 53 bits reaches 2^1024. *)
Definition float_max_int : Z := 2 ^ 1024 - 2 ^ 970.

(** [n / d] for an [int] [n] and a float [d] (here a whole number): the
    [int] is converted to a float first, which raises
    [OverflowError: int too large to convert to float] from [float_max_int]
    on. *)
Definition truediv (n : Z) (d : positive) : outcome Q :=
  if float_max_int <=? Z.abs n then Raise OverflowError
  else Ret (Qmake n d).

(** [math.pow(2., y)]: [OverflowError: math range error] when 2^y is 2^1024
    or more, that is from y = 1024 on; a result below the range of doubles
    is returned (as 0.0), not raised. *)
Definition math_pow_2 (y : Q) : outcome pyfloat :=
  if Qle_bool 1024 y then Raise OverflowError
  else Ret (Pow 2 y).

(** The least whole exponent from which 1.2^n is 2^1024 or more. *)
Definition pow_1_2_overflow : Z := 3894.

(** [math.pow(1.2, n)] for an [int] [n]: the [int] is converted to a float,
    then [OverflowError: math range error] when 1.2^n is 2^1024 or more, that
    is from n = 3894 on. *)
Definition math_pow_1_2 (n : Z) : outcome pyfloat :=
  if float_max_int <=? Z.abs n then Raise OverflowError
  else if pow_1_2_overflow <=? n then Raise OverflowError
  else Ret (Pow (12 # 10) (inject_Z n)).

(** Truth value of a Python [int] in a condition. *)
Definition truthy (n : Z) : bool := negb (n =? 0).

(** ** mouse_event.py *)

Module MouseEvent.

Record t : Type := mk {
  _axes : AxesRef;
  _renderSize : Size;
  _event : Z;
  _x : Z;
  _y : Z;
  _flags : Z
}.

Definition axes (self : t) : AxesRef := _axes self.
Definition renderSize (self : t) : Size := _renderSize self.
Definition event (self : t) : Z := _event self.
Definition x (self : t) : Z := _x self.
Definition y (self : t) : Z := _y self.
Definition flags (self : t) : Z := _flags self.

Definition outerPoint (self : t) : Point := (_x self, _y self).

(** [innerPoint], given the rectangle [projection().innerRect()] answers. *)
Definition innerPoint (self : t) (innerRect : Z * Z * Z * Z) : Point :=
  let '(outer_x, outer_y) := outerPoint self in
  let '(inner_rect_x, inner_rect_y, _, _) := innerRect in
  (outer_x - inner_rect_x, outer_y - inner_rect_y).

End MouseEvent.

(** The user's handler, [Callable[[MouseEvent], bool]]. *)
Definition MouseEventHandler : Type := MouseEvent.t -> bool.

(** An image returned by [Axes.render]: its [shape] is (rows, cols, 3). *)
Record Mat : Type := mkMat {
  mat_rows : Z;
  mat_cols : Z
}.

Definition mat_size (m : Mat) : Z := mat_rows m * mat_cols m * 3.

(** ** Calls on the collaborators, in the order they are made *)

Inductive Effect : Type :=
| AxesPan (ax : AxesRef) (renderSize : Size) (delta : Point)
| AxesZoom (ax : AxesRef) (renderSize : Size) (anchor : Point)
           (scale_x scale_y : pyfloat)
| AxesSetXLimAuto (ax : AxesRef)
| AxesSetYLimAuto (ax : AxesRef)
| AxesRender (ax : AxesRef) (cols rows : Z)
| UserHandlerCall (ev : MouseEvent.t)
| RegistryDel (name : string)
| RegistrySet (name : string) (w : nat)
| DestroyWindow (name : string)
| NamedWindow (name : string)
| ResizeWindow (name : string) (cols rows : Z)
| Imshow (name : string) (img : Mat)
| SetMouseCallback (name : string) (param : string).

(** ** mouse_adapter.py *)

Module MouseAdapter.

Record t : Type := mk {
  _pressPosPix : Point;
  _lastPosPix : Point;
  _mouseEventHandler : option MouseEventHandler;
  _axes : AxesRef
}.

(** [MouseAdapter.__init__]. *)
Definition __init__ (axes : AxesRef) : t :=
  {| _pressPosPix := (0, 0);
     _lastPosPix := (0, 0);
     _mouseEventHandler := None;
     _axes := axes |}.

Definition getAxes (self : t) : AxesRef := _axes self.

Definition setMouseEventHandler (self : t) (h : MouseEventHandler) : t :=
  {| _pressPosPix := _pressPosPix self;
     _lastPosPix := _lastPosPix self;
     _mouseEventHandler := Some h;
     _axes := _axes self |}.

Definition set_press_last (self : t) (p : Point) : t :=
  {| _pressPosPix := p;
     _lastPosPix := p;
     _mouseEventHandler := _mouseEventHandler self;
     _axes := _axes self |}.

Definition set_last (self : t) (p : Point) : t :=
  {| _pressPosPix := _pressPosPix self;
     _lastPosPix := p;
     _mouseEventHandler := _mouseEventHandler self;
     _axes := _axes self |}.

(** [MouseAdapter._handle_event]: the result, the adapter afterwards and the
    calls made on the axes; or the exception [math.pow] raises, which comes
    before the branch has called the axes or assigned to the adapter. *)
Definition _handle_event (self : t) (mouseEvent : MouseEvent.t)
  : outcome (bool * t * list Effect) :=
  let event := MouseEvent.event mouseEvent in
  let flags := MouseEvent.flags mouseEvent in
  let outer_point := MouseEvent.outerPoint mouseEvent in
  let render_size := MouseEvent.renderSize mouseEvent in
  if (event =? cv2.EVENT_MBUTTONDOWN) || (event =? cv2.EVENT_RBUTTONDOWN) then
    Ret (true, set_press_last self outer_point, [])
  else if event =? cv2.EVENT_MOUSEMOVE then
    let delta_pix := (fst outer_point - fst (_lastPosPix self),
                      snd outer_point - snd (_lastPosPix self)) in
    if truthy (Z.land flags cv2.EVENT_FLAG_MBUTTON) then
      Ret (true, set_last self outer_point,
           [AxesPan (_axes self) render_size delta_pix])
    else if truthy (Z.land flags cv2.EVENT_FLAG_RBUTTON) then
      exponent_x ← truediv (- fst delta_pix) 100;
      scale_x ← math_pow_2 exponent_x;
      exponent_y ← truediv (snd delta_pix) 100;
      scale_y ← math_pow_2 exponent_y;
      Ret (true, set_last self outer_point,
           [AxesZoom (_axes self) render_size (_pressPosPix self) scale_x scale_y])
    else
      Ret (false, self, [])
  else if event =? cv2.EVENT_RBUTTONDBLCLK then
    Ret (true, self, [AxesSetXLimAuto (_axes self); AxesSetYLimAuto (_axes self)])
  else if event =? cv2.EVENT_MOUSEWHEEL then
    let delta := flags / 120 in
    scale ← math_pow_1_2 (- delta);
    Ret (true, self, [AxesZoom (_axes self) render_size outer_point scale scale])
  else
    Ret (false, self, []).

(** [MouseAdapter.mouseEvent], the public dispatcher: an exception of the
    built-in handler passes through, and the user's handler is not reached. *)
Definition mouseEvent (self : t) (mouseEvent : MouseEvent.t)
  : outcome (bool * t * list Effect) :=
  '(update_builtin, self1, calls) ← _handle_event self mouseEvent;
  match _mouseEventHandler self1 with
  | Some handler =>
      let update_user := handler mouseEvent in
      Ret (update_builtin || update_user, self1,
           calls ++ [UserHandlerCall mouseEvent])
  | None =>
      Ret (update_builtin || false, self1, calls)
  end.

End MouseAdapter.

(** ** The host toolkit (OpenCV highgui) as the source uses it *)

Module highgui.

Definition WINDOW_NORMAL : Z := 0.
Definition WINDOW_AUTOSIZE : Z := 1.
Definition WINDOW_FREERATIO : Z := 256.

(** A window of the host: the flags it was created with, the size of its
    client rectangle, the image it shows and the [param] of its mouse
    callback. *)
Record HostWindow : Type := mkHostWindow {
  hw_flags : Z;
  hw_cols : Z;
  hw_rows : Z;
  hw_image : option Mat;
  hw_callback : option string
}.

(** What the user does with the host's windows between two key polls. *)
Inductive HostInput : Type :=
| Pointer (window : string) (event x y flags : Z)
| UserClose (window : string)
| UserResize (window : string) (cols rows : Z).

(** One call of [cv2.waitKey(1)]: the inputs the host pumps, the key it
    answers (-1 for none) and the time the call takes, in seconds. *)
Record Poll : Type := mkPoll {
  poll_inputs : list HostInput;
  poll_key : Z;
  poll_elapsed : Q
}.

Definition idle_poll : Poll :=
  {| poll_inputs := []; poll_key := -1; poll_elapsed := 1 # 1000 |}.

(** The host: its windows by name, whether its backend reports an unknown
    window by raising [cv2.error] or by answering -1, the size a new window
    gets, the wall clock and the polls to come. *)
Record Host : Type := mkHost {
  windows : gmap string HostWindow;
  missing_raises : bool;
  default_size : Size;
  clock : Q;
  script : list Poll
}.

Definition set_windows (h : Host) (ws : gmap string HostWindow) : Host :=
  {| windows := ws;
     missing_raises := missing_raises h;
     default_size := default_size h;
     clock := clock h;
     script := script h |}.

(** [cv2.getWindowProperty(name, cv2.WND_PROP_AUTOSIZE)]. *)
Definition getWindowProperty (h : Host) (name : string) : outcome Q :=
  match windows h !! name with
  | Some hw => Ret (inject_Z (Z.land (hw_flags hw) WINDOW_AUTOSIZE))
  | None => if missing_raises h then Raise Cv2Error else Ret (inject_Z (-1))
  end.

(** [cv2.getWindowImageRect(name)], the width and height of the answer. *)
Definition getWindowImageRect (h : Host) (name : string) : option Size :=
  match windows h !! name with
  | Some hw => Some (hw_cols hw, hw_rows hw)
  | None => None
  end.

Definition destroyWindow (h : Host) (name : string) : Host :=
  set_windows h (delete name (windows h)).

Definition namedWindow (h : Host) (name : string) (flags : Z) : Host :=
  match windows h !! name with
  | Some _ => h
  | None =>
      set_windows h
        (<[name := {| hw_flags := flags;
                      hw_cols := fst (default_size h);
                      hw_rows := snd (default_size h);
                      hw_image := None;
                      hw_callback := None |}]> (windows h))
  end.

Definition resizeWindow (h : Host) (name : string) (cols rows : Z) : Host :=
  match windows h !! name with
  | Some hw =>
      set_windows h
        (<[name := {| hw_flags := hw_flags hw;
                      hw_cols := cols;
                      hw_rows := rows;
                      hw_image := hw_image hw;
                      hw_callback := hw_callback hw |}]> (windows h))
  | None => h
  end.

Definition imshow (h : Host) (name : string) (img : Mat) : Host :=
  match windows h !! name with
  | Some hw =>
      set_windows h
        (<[name := {| hw_flags := hw_flags hw;
                      hw_cols := hw_cols hw;
                      hw_rows := hw_rows hw;
                      hw_image := Some img;
                      hw_callback := hw_callback hw |}]> (windows h))
  | None =>
      set_windows h
        (<[name := {| hw_flags := WINDOW_AUTOSIZE;
                      hw_cols := mat_cols img;
                      hw_rows := mat_rows img;
                      hw_image := Some img;
                      hw_callback := None |}]> (windows h))
  end.

Definition setMouseCallback (h : Host) (name param : string) : Host :=
  match windows h !! name with
  | Some hw =>
      set_windows h
        (<[name := {| hw_flags := hw_flags hw;
                      hw_cols := hw_cols hw;
                      hw_rows := hw_rows hw;
                      hw_image := hw_image hw;
                      hw_callback := Some param |}]> (windows h))
  | None => h
  end.

(** The next poll of the script, and the host once it is taken and its time
    has passed. *)
Definition next_poll (h : Host) : Poll * Host :=
  match script h with
  | [] =>
      (idle_poll,
       {| windows := windows h;
          missing_raises := missing_raises h;
          default_size := default_size h;
          clock := Qred (clock h + poll_elapsed idle_poll);
          script := [] |})
  | p :: rest =>
      (p,
       {| windows := windows h;
          missing_raises := missing_raises h;
          default_size := default_size h;
          clock := Qred (clock h + poll_elapsed p);
          script := rest |})
  end.

End highgui.

(** Modelled from the spec: [Axes.render] of [cv_plot.core] is not part of
    these files; the spec has it render the surface into an image of the
    requested size. *)
Definition Axes_render (cols rows : Z) : Mat :=
  {| mat_rows := rows; mat_cols := cols |}.

(** ** window.py *)

Module Window.

Record t : Type := mk {
  _windowName : string;
  _rows : Z;
  _cols : Z;
  _mouseAdapter : MouseAdapter.t;
  _mat : Mat
}.

Definition set_mat (self : t) (m : Mat) : t :=
  {| _windowName := _windowName self;
     _rows := _rows self;
     _cols := _cols self;
     _mouseAdapter := _mouseAdapter self;
     _mat := m |}.

Definition set_mouseAdapter (self : t) (a : MouseAdapter.t) : t :=
  {| _windowName := _windowName self;
     _rows := _rows self;
     _cols := _cols self;
     _mouseAdapter := a;
     _mat := _mat self |}.

Definition getAxes (self : t) : AxesRef :=
  MouseAdapter.getAxes (_mouseAdapter self).

(** The process: the [Window] objects that exist, the registry
    [_WINDOW_MAP], the references held outside the registry (variables of
    the caller and of running frames), the host, and the calls made so far. *)
Record State : Type := mkState {
  heap : gmap nat t;
  registry : gmap string nat;
  roots : gset nat;
  host : highgui.Host;
  trace : list Effect
}.

Definition set_heap (st : State) (h : gmap nat t) : State :=
  {| heap := h; registry := registry st; roots := roots st;
     host := host st; trace := trace st |}.

Definition set_registry (st : State) (m : gmap string nat) : State :=
  {| heap := heap st; registry := m; roots := roots st;
     host := host st; trace := trace st |}.

Definition set_roots (st : State) (rs : gset nat) : State :=
  {| heap := heap st; registry := registry st; roots := rs;
     host := host st; trace := trace st |}.

Definition set_host (st : State) (h : highgui.Host) : State :=
  {| heap := heap st; registry := registry st; roots := roots st;
     host := h; trace := trace st |}.

Definition emit (st : State) (es : list Effect) : State :=
  {| heap := heap st; registry := registry st; roots := roots st;
     host := host st; trace := trace st ++ es |}.

(** [Window.valid], on the answer of the host's liveness query: the [try]
    returns the comparison, [except cv2.error] returns [False], any other
    exception passes through. *)
Definition valid_of (answer : outcome Q) : outcome bool :=
  match answer with
  | Ret v => Ret (Qle_bool 0 v)
  | Raise Cv2Error => Ret false
  | Raise e => Raise e
  end.

Definition valid_name (h : highgui.Host) (name : string) : outcome bool :=
  valid_of (highgui.getWindowProperty h name).

Definition valid (h : highgui.Host) (self : t) : outcome bool :=
  valid_name h (_windowName self).

(** [valid] as the condition of an [if]; the host query fails by
    [cv2.error] only, so [valid] always returns and the second branch is
    never taken. *)
Definition is_valid_name (h : highgui.Host) (name : string) : bool :=
  match valid_name h name with
  | Ret b => b
  | Raise _ => false
  end.

Definition is_valid (h : highgui.Host) (self : t) : bool :=
  is_valid_name h (_windowName self).

(** [Window.update]. *)
Definition update (st : State) (r : nat) : State :=
  match heap st !! r with
  | None => st
  | Some self =>
      if negb (is_valid (host st) self) then st
      else
        match highgui.getWindowImageRect (host st) (_windowName self) with
        | None => st
        | Some (cols, rows) =>
            let m := Axes_render cols rows in
            let st1 := emit (set_heap st (<[r := set_mat self m]> (heap st)))
                            [AxesRender (getAxes self) cols rows] in
            if 0 <? mat_size m then
              emit (set_host st1 (highgui.imshow (host st1) (_windowName self) m))
                   [Imshow (_windowName self) m]
            else st1
        end
  end.

(** [Window._update_size]. *)
Definition _update_size (st : State) (r : nat) : State :=
  match heap st !! r with
  | None => st
  | Some self =>
      if negb (is_valid (host st) self) then st
      else
        match highgui.getWindowImageRect (host st) (_windowName self) with
        | None => st
        | Some (cols, rows) =>
            let current_size := (mat_cols (_mat self), mat_rows (_mat self)) in
            if negb (cols =? fst current_size) || negb (rows =? snd current_size)
            then update st r
            else st
        end
  end.

(** [Window.setMouseEventHandler]. *)
Definition setMouseEventHandler (st : State) (r : nat) (h : MouseEventHandler)
  : State :=
  match heap st !! r with
  | None => st
  | Some self =>
      set_heap st
        (<[r := set_mouseAdapter self
                  (MouseAdapter.setMouseEventHandler (_mouseAdapter self) h)]>
           (heap st))
  end.

(** [_cvplot_mouse_callback(event, x, y, flags, param)]: the process
    afterwards and how the call ended.  An exception of the dispatcher
    leaves the callback after the size check, before the adapter or the
    image has changed. *)
Definition _cvplot_mouse_callback (st : State) (event x y flags : Z)
    (param : string) : State * outcome unit :=
  let window_name := param in
  match registry st !! window_name with
  | None => (st, Ret tt)
  | Some r =>
      let st1 := _update_size st r in
      match heap st1 !! r with
      | None => (st1, Ret tt)
      | Some window =>
          let mat_size := (mat_cols (_mat window), mat_rows (_mat window)) in
          let mouse_event :=
            MouseEvent.mk (MouseAdapter.getAxes (_mouseAdapter window))
                          mat_size event x y flags in
          match MouseAdapter.mouseEvent (_mouseAdapter window) mouse_event with
          | Raise e => (st1, Raise e)
          | Ret (upd, adapter, calls) =>
              let st2 :=
                emit (set_heap st1 (<[r := set_mouseAdapter window adapter]> (heap st1)))
                     calls in
              (if upd then update st2 r else st2, Ret tt)
          end
      end
  end.

(** The first statement of [Window.__del__]: the entry under the window's
    name leaves the registry.  [drop] is what the run time does with the
    window that entry referred to once the registry no longer refers to
    it. *)
Definition del_unregister (drop : State -> nat -> State) (st : State)
    (r : nat) (self : t) : State :=
  match registry st !! _windowName self with
  | None => st
  | Some victim =>
      let st1 := emit (set_registry st (delete (_windowName self) (registry st)))
                      [RegistryDel (_windowName self)] in
      if decide (victim = r) then st1
      else if decide (victim ∈ roots st1) then st1
      else drop st1 victim
  end.

(** The second statement of [Window.__del__]: the host window goes if the
    liveness query finds one. *)
Definition del_destroy (st : State) (self : t) : State :=
  if is_valid (host st) self then
    emit (set_host st (highgui.destroyWindow (host st) (_windowName self)))
         [DestroyWindow (_windowName self)]
  else st.

(** [Window.__del__], run when the last reference to the object [r] is
    gone, after which the object no longer exists.  A window that loses its
    last reference through the removal of the entry is finalised in turn;
    [depth] bounds that nesting. *)
Fixpoint finalize (depth : nat) (st : State) (r : nat) : State :=
  match depth with
  | O => st
  | S d =>
      match heap st !! r with
      | None => st
      | Some self =>
          let st1 := del_unregister (finalize d) st r self in
          let st2 := del_destroy st1 self in
          set_heap st2 (delete r (heap st2))
      end
  end.

(** Each nested finalisation removes an entry of the registry first, so
    the depth allowed here is never exhausted. *)
Definition __del__ (st : State) (r : nat) : State :=
  finalize (S (size (registry st))) st r.

(** [_WINDOW_MAP[name] = r]: the entry is replaced, and the window it
    referred to before is finalised if nothing else refers to it. *)
Definition registry_set (st : State) (name : string) (r : nat) : State :=
  let old := registry st !! name in
  let st1 := emit (set_registry st (<[name := r]> (registry st)))
                  [RegistrySet name r] in
  match old with
  | None => st1
  | Some o =>
      if decide (o = r) then st1
      else if decide (o ∈ roots st1) then st1
      else __del__ st1 o
  end.

(** [Window(windowName, axes, cols, rows)]: a new object, referred to by
    the running constructor and then by its caller, and [Window.__init__]
    on it. *)
Definition __init__ (st : State) (windowName : string) (axes : AxesRef)
    (cols rows : Z) : nat * State :=
  let r := fresh (dom (heap st) ∪ roots st) in
  let adapter := MouseAdapter.__init__ axes in
  let st1 :=
    if is_valid_name (host st) windowName then
      emit (set_host st (highgui.destroyWindow (host st) windowName))
           [DestroyWindow windowName]
    else st in
  let st2 :=
    emit (set_host st1
            (highgui.namedWindow (host st1) windowName
               (Z.lor highgui.WINDOW_NORMAL highgui.WINDOW_FREERATIO)))
         [NamedWindow windowName] in
  let st3 :=
    emit (set_host st2 (highgui.resizeWindow (host st2) windowName cols rows))
         [ResizeWindow windowName cols rows] in
  let m := Axes_render cols rows in
  let self := mk windowName rows cols adapter m in
  let st4 :=
    emit (set_roots (set_heap st3 (<[r := self]> (heap st3)))
                    ({[r]} ∪ roots st3))
         [AxesRender axes cols rows] in
  let st5 :=
    emit (set_host st4 (highgui.imshow (host st4) windowName m))
         [Imshow windowName m] in
  let st6 :=
    emit (set_host st5 (highgui.setMouseCallback (host st5) windowName windowName))
         [SetMouseCallback windowName windowName] in
  (r, registry_set st6 windowName r).

(** The caller gives up its references to [r]; the object is finalised
    unless the registry still refers to it. *)
Definition release (st : State) (r : nat) : State :=
  let st1 := set_roots st (roots st ∖ {[r]}) in
  match heap st1 !! r with
  | None => st1
  | Some self =>
      if decide (registry st1 !! _windowName self = Some r) then st1
      else __del__ st1 r
  end.

(** What one input of the user does: a pointer event reaches the callback
    registered for its window, closing and resizing change the host's
    window.  An exception that leaves the callback is printed by the cv2
    binding, which then goes on. *)
Definition deliver (st : State) (i : highgui.HostInput) : State :=
  match i with
  | highgui.Pointer w event x y flags =>
      match highgui.windows (host st) !! w with
      | Some hw =>
          match highgui.hw_callback hw with
          | Some param => fst (_cvplot_mouse_callback st event x y flags param)
          | None => st
          end
      | None => st
      end
  | highgui.UserClose w =>
      set_host st (highgui.destroyWindow (host st) w)
  | highgui.UserResize w cols rows =>
      set_host st (highgui.resizeWindow (host st) w cols rows)
  end.

(** [cv2.waitKey(1)]: the host pumps its pending inputs, then answers. *)
Definition cv2_waitKey (st : State) : Z * State :=
  let '(p, h) := highgui.next_poll (host st) in
  (highgui.poll_key p,
   fold_left deliver (highgui.poll_inputs p) (set_host st h)).

Definition valid_ref (st : State) (r : nat) : bool :=
  match heap st !! r with
  | Some self => is_valid (host st) self
  | None => false
  end.

(** The loop of [Window.waitKey_static]; [None] when [fuel] iterations did
    not reach a [return]. *)
Fixpoint waitKey_loop (fuel : nat) (windows : list nat) (delay : Z)
    (end_time : Q) (st : State) : option (Z * State) :=
  match fuel with
  | O => None
  | S fuel' =>
      let '(key, st1) := cv2_waitKey st in
      if negb (key =? -1) then Some (key, st1)
      else if (0 <? delay) && Qle_bool end_time (highgui.clock (host st1))
      then Some (-1, st1)
      else if forallb (fun w => negb (valid_ref st1 w)) windows
      then Some (-1, st1)
      else waitKey_loop fuel' windows delay end_time
             (fold_left _update_size windows st1)
  end.

(** [Window.waitKey_static(windows, delay)]. *)
Definition waitKey_static (fuel : nat) (windows : list nat) (delay : Z)
    (st : State) : option (Z * State) :=
  let end_time := (highgui.clock (host st) + Qmake delay 1000)%Q in
  waitKey_loop fuel windows delay end_time st.

(** [Window.waitKey(delay)]. *)
Definition waitKey (fuel : nat) (r : nat) (delay : Z) (st : State)
  : option (Z * State) :=
  waitKey_static fuel [r] delay st.

End Window.

(** ** show.py *)

(** [show(windowName, axes, cols, rows)]: the window is built, the wait loop
    runs, and the local variable is given up on return. *)
Definition show (fuel : nat) (st : Window.State) (windowName : string)
    (axes : AxesRef) (cols rows : Z) : option Window.State :=
  let '(window, st1) := Window.__init__ st windowName axes cols rows in
  match Window.waitKey fuel window 0 st1 with
  | None => None
  | Some (_, st2) => Some (Window.release st2 window)
  end.

(** The process before any window exists. *)
Definition start (h : highgui.Host) : Window.State :=
  {| Window.heap := ∅; Window.registry := ∅; Window.roots := ∅;
     Window.host := h; Window.trace := [] |}.

(** A host without windows, with the polls [polls] to come. *)
Definition scripted_host (raises : bool) (polls : list highgui.Poll) : highgui.Host :=
  {| highgui.windows := ∅; highgui.missing_raises := raises;
     highgui.default_size := (100, 100); highgui.clock := 0;
     highgui.script := polls |}.

Definition quiet_host (raises : bool) : highgui.Host := scripted_host raises [].

(** [showPlot(x, y, lineSpec)] and [showImage(mat)]: [axes] is the [Axes]
    object that [plot] and [plotImage] of [cv_plot.core] hand back; both show
    it under the name "CvPlot" with the default size of [show]. *)
Definition showPlot (fuel : nat) (st : Window.State) (axes : AxesRef)
  : option Window.State :=
  show fuel st "CvPlot" axes 640 480.

Definition showImage (fuel : nat) (st : Window.State) (axes : AxesRef)
  : option Window.State :=
  show fuel st "CvPlot" axes 640 480.

(** * Vocabulary of the properties *)

(** The entry of the call list that a set user handler leaves. *)
Definition user_calls (self : MouseAdapter.t) (ev : MouseEvent.t) : list Effect :=
  match MouseAdapter._mouseEventHandler self with
  | Some _ => [UserHandlerCall ev]
  | None => []
  end.

Definition is_move (ev : MouseEvent.t) : Prop :=
  MouseEvent.event ev = cv2.EVENT_MOUSEMOVE.

Definition is_wheel (ev : MouseEvent.t) : Prop :=
  MouseEvent.event ev = cv2.EVENT_MOUSEWHEEL.

(** The condition [flags & button] of the source. *)
Definition button_down (ev : MouseEvent.t) (button : Z) : bool :=
  truthy (Z.land (MouseEvent.flags ev) button).

(** [outerPoint - lastPositionPixels], the [delta_pix] of a move. *)
Definition delta_pix (self : MouseAdapter.t) (ev : MouseEvent.t) : Point :=
  (MouseEvent.x ev - fst (MouseAdapter._lastPosPix self),
   MouseEvent.y ev - snd (MouseAdapter._lastPosPix self)).

(** The adapter after a dispatch, whether the call returned or raised (an
    exception comes before any assignment to the adapter). *)
Definition after_dispatch (self : MouseAdapter.t) (ev : MouseEvent.t)
  : MouseAdapter.t :=
  match MouseAdapter.mouseEvent self ev with
  | Ret (_, self1, _) => self1
  | Raise _ => self
  end.

(** The calls made by a dispatch, none when it raised. *)
Definition calls_of (o : outcome (bool * MouseAdapter.t * list Effect))
  : list Effect :=
  match o with
  | Ret (_, _, calls) => calls
  | Raise _ => []
  end.

(** The distances of a right-button move for which neither the conversion
    of the distance nor [math.pow] leaves the range of doubles. *)
Definition zoom_in_range (self : MouseAdapter.t) (ev : MouseEvent.t) : Prop :=
  - 102400 < fst (delta_pix self ev) < float_max_int
  /\ - float_max_int < snd (delta_pix self ev) < 102400.

(** The flags words of a wheel event for which neither the conversion of
    [-(flags // 120)] nor [math.pow] leaves the range of doubles. *)
Definition wheel_in_range (ev : MouseEvent.t) : Prop :=
  - 467160 <= MouseEvent.flags ev < 120 * float_max_int.

(** Every entry of the registry refers to a [Window] object that exists and
    carries the entry's name. *)
Definition registry_sound (st : Window.State) : Prop :=
  forall (name : string) (r : nat),
    Window.registry st !! name = Some r ->
    exists self : Window.t,
      Window.heap st !! r = Some self /\ Window._windowName self = name.

(** The states a program reaches with the operations of the module. *)
Inductive reachable : Window.State -> Prop :=
| reach_start (h : highgui.Host) :
    reachable (start h)
| reach_init (st : Window.State) (name : string) (axes : AxesRef) (cols rows : Z) :
    reachable st ->
    reachable (snd (Window.__init__ st name axes cols rows))
| reach_release (st : Window.State) (r : nat) :
    reachable st ->
    reachable (Window.release st r)
| reach_update (st : Window.State) (r : nat) :
    reachable st ->
    reachable (Window.update st r)
| reach_handler (st : Window.State) (r : nat) (h : MouseEventHandler) :
    reachable st ->
    reachable (Window.setMouseEventHandler st r h)
| reach_poll (st : Window.State) :
    reachable st ->
    reachable (snd (Window.cv2_waitKey st))
| reach_waitKey (st st' : Window.State) (fuel : nat) (windows : list nat)
    (delay key : Z) :
    reachable st ->
    Window.waitKey_static fuel windows delay st = Some (key, st') ->
    reachable st'.

(** Two windows built under the name "W", the caller keeping the first. *)
Definition first_W : nat * Window.State :=
  Window.__init__ (start (quiet_host false)) "W" 0%nat 640 480.

Definition second_W : nat * Window.State :=
  Window.__init__ (snd first_W) "W" 0%nat 640 480.

(** The same, the caller having given up the first before the second is
    built, as two calls of [show] under one name do. *)
Definition second_W_unreferenced : nat * Window.State :=
  Window.__init__ (Window.release (snd first_W) (fst first_W)) "W" 0%nat 640 480.

(** A host whose first key poll answers the escape key. *)
Definition key_host : highgui.Host :=
  scripted_host false
    [ {| highgui.poll_inputs := [];
         highgui.poll_key := 27;
         highgui.poll_elapsed := 1 # 1000 |} ].

(** One window, closed by the user during the next key poll. *)
Definition closed_by_user : Window.State :=
  let h := scripted_host false
             [ {| highgui.poll_inputs := [highgui.UserClose "W"];
                  highgui.poll_key := -1;
                  highgui.poll_elapsed := 1 # 1000 |} ] in
  snd (Window.cv2_waitKey (snd (Window.__init__ (start h) "W" 0%nat 640 480))).

(** The state [closed_by_user] comes from: one window "W", the user about to
    close it. *)
Definition about_to_close : Window.State :=
  snd (Window.__init__
         (start (scripted_host false
                   [ {| highgui.poll_inputs := [highgui.UserClose "W"];
                        highgui.poll_key := -1;
                        highgui.poll_elapsed := 1 # 1000 |} ]))
         "W" 0%nat 640 480).

(** [st'] has no entry and no object that [st] lacks, and the same outside
    references. *)
Definition shrinks (st st' : Window.State) : Prop :=
  Window.registry st' ⊆ Window.registry st
  /\ Window.heap st' ⊆ Window.heap st
  /\ Window.roots st' = Window.roots st.

(** [st'] has the registry of [st], and every object of [st] is still there
    under its name. *)
Definition keeps_names (st st' : Window.State) : Prop :=
  Window.registry st' = Window.registry st
  /\ forall (r : nat) (w : Window.t),
       Window.heap st !! r = Some w ->
       exists w' : Window.t,
         Window.heap st' !! r = Some w'
         /\ Window._windowName w' = Window._windowName w.

(** The events that move the controller's positions: a press of the middle
    or the right button, and a move with one of them down. *)
Definition moves_positions (ev : MouseEvent.t) : bool :=
  (MouseEvent.event ev =? cv2.EVENT_MBUTTONDOWN)
  || (MouseEvent.event ev =? cv2.EVENT_RBUTTONDOWN)
  || ((MouseEvent.event ev =? cv2.EVENT_MOUSEMOVE)
      && (button_down ev cv2.EVENT_FLAG_MBUTTON
          || button_down ev cv2.EVENT_FLAG_RBUTTON)).

(** The event kinds the built-in handler has a branch for. *)
Definition builtin_kind (ev : MouseEvent.t) : bool :=
  (MouseEvent.event ev =? cv2.EVENT_MBUTTONDOWN)
  || (MouseEvent.event ev =? cv2.EVENT_RBUTTONDOWN)
  || (MouseEvent.event ev =? cv2.EVENT_MOUSEMOVE)
  || (MouseEvent.event ev =? cv2.EVENT_RBUTTONDBLCLK)
  || (MouseEvent.event ev =? cv2.EVENT_MOUSEWHEEL).

(** The answer of the user's handler, [False] when none is set. *)
Definition user_answer (self : MouseAdapter.t) (ev : MouseEvent.t) : bool :=
  match MouseAdapter._mouseEventHandler self with
  | Some handler => handler ev
  | None => false
  end.

(** A stream of events dispatched one after the other, by a caller that
    goes on with the next event when a dispatch raises (as the cv2 binding
    does with its callback): the adapter at the end and all calls made, in
    order. *)
Fixpoint dispatch_all (self : MouseAdapter.t) (evs : list MouseEvent.t)
  : MouseAdapter.t * list Effect :=
  match evs with
  | [] => (self, [])
  | ev :: rest =>
      let '(self2, calls2) := dispatch_all (after_dispatch self ev) rest in
      (self2, calls_of (MouseAdapter.mouseEvent self ev) ++ calls2)
  end.

(** The axes object a call is made on. *)
Definition axes_target (e : Effect) : option AxesRef :=
  match e with
  | AxesPan ax _ _ | AxesZoom ax _ _ _ _ | AxesSetXLimAuto ax
  | AxesSetYLimAuto ax | AxesRender ax _ _ => Some ax
  | _ => None
  end.

(** The sum of the distances of the [pan] calls of a call list. *)
Fixpoint pan_total (calls : list Effect) : Point :=
  match calls with
  | [] => (0, 0)
  | AxesPan _ _ delta :: rest =>
      (fst delta + fst (pan_total rest), snd delta + snd (pan_total rest))
  | _ :: rest => pan_total rest
  end.

(** The anchors of the [zoom] calls of a call list. *)
Fixpoint zoom_anchors (calls : list Effect) : list Point :=
  match calls with
  | [] => []
  | AxesZoom _ _ anchor _ _ :: rest => anchor :: zoom_anchors rest
  | _ :: rest => zoom_anchors rest
  end.

(** The products of the horizontal and of the vertical scales of the [zoom]
    calls of a call list. *)
Fixpoint zoom_total (calls : list Effect) : R * R :=
  match calls with
  | [] => (1%R, 1%R)
  | AxesZoom _ _ _ sx sy :: rest =>
      ((float_value sx * fst (zoom_total rest))%R,
       (float_value sy * snd (zoom_total rest))%R)
  | _ :: rest => zoom_total rest
  end.

Definition is_middle_drag (ev : MouseEvent.t) : Prop :=
  is_move ev /\ button_down ev cv2.EVENT_FLAG_MBUTTON = true.

Definition is_right_drag (ev : MouseEvent.t) : Prop :=
  is_move ev
  /\ button_down ev cv2.EVENT_FLAG_MBUTTON = false
  /\ button_down ev cv2.EVENT_FLAG_RBUTTON = true.

(** The events on which the built-in handler computes no zoom factor out
    of range: every event but a right-button move or a wheel event out of
    range. *)
Definition pow_in_range (self : MouseAdapter.t) (ev : MouseEvent.t) : Prop :=
  (is_right_drag ev -> zoom_in_range self ev)
  /\ (is_wheel ev -> wheel_in_range ev).

(** Moves of less than 102400 pixels each, horizontally and vertically,
    starting at [from]. *)
Fixpoint short_steps (from : Point) (evs : list MouseEvent.t) : Prop :=
  match evs with
  | [] => True
  | ev :: rest =>
      (- 102400 < MouseEvent.x ev - fst from < 102400
       /\ - 102400 < MouseEvent.y ev - snd from < 102400)
      /\ short_steps (MouseEvent.outerPoint ev) rest
  end.

(** [st'] has the registry, the outside references and the objects of [st],
    and its host has the same windows, clock and pending polls. *)
Definition callback_frame (st st' : Window.State) : Prop :=
  Window.registry st' = Window.registry st
  /\ Window.roots st' = Window.roots st
  /\ dom (Window.heap st') = dom (Window.heap st)
  /\ dom (highgui.windows (Window.host st')) = dom (highgui.windows (Window.host st))
  /\ highgui.missing_raises (Window.host st') = highgui.missing_raises (Window.host st)
  /\ highgui.clock (Window.host st') = highgui.clock (Window.host st)
  /\ highgui.script (Window.host st') = highgui.script (Window.host st).

(** [st'] has the registry, the outside references and the objects of [st],
    and its host has no window that the host of [st] lacks. *)
Definition poll_frame (st st' : Window.State) : Prop :=
  Window.registry st' = Window.registry st
  /\ Window.roots st' = Window.roots st
  /\ dom (Window.heap st') = dom (Window.heap st)
  /\ dom (highgui.windows (Window.host st')) ⊆ dom (highgui.windows (Window.host st))
  /\ highgui.missing_raises (Window.host st') = highgui.missing_raises (Window.host st).

(** The cached image of the object [r] has the size of the host's window. *)
Definition image_in_sync (st : Window.State) (r : nat) : Prop :=
  exists (self : Window.t) (hw : highgui.HostWindow),
    Window.heap st !! r = Some self
    /\ highgui.windows (Window.host st) !! Window._windowName self = Some hw
    /\ mat_cols (Window._mat self) = highgui.hw_cols hw
    /\ mat_rows (Window._mat self) = highgui.hw_rows hw.

(** The events the built-in handler answers [False] to: kinds it has no
    branch for, and moves with neither the middle nor the right button
    down. *)
Definition unhandled (ev : MouseEvent.t) : Prop :=
  builtin_kind ev = false
  \/ (is_move ev
      /\ button_down ev cv2.EVENT_FLAG_MBUTTON = false
      /\ button_down ev cv2.EVENT_FLAG_RBUTTON = false).

(** The calls of [st'] are those of [st] followed by further ones. *)
Definition extends (st st' : Window.State) : Prop :=
  exists es : list Effect, Window.trace st' = Window.trace st ++ es.

(** * The interaction controller *)

Section Controller.

Lemma truthy_land_bit (flags : Z) (n : Z) :
  0 <= n -> truthy (Z.land flags (2 ^ n)) = Z.testbit flags n.
Proof.
  intros Hn. unfold truthy.
  destruct (Z.testbit flags n) eqn:Hbit.
  - apply negb_true_iff, Z.eqb_neq. intros H0.
    assert (Hl : Z.testbit (Z.land flags (2 ^ n)) n = true).
    { rewrite Z.land_spec, Hbit, Z.pow2_bits_true by lia. reflexivity. }
    rewrite H0, Z.bits_0 in Hl. discriminate.
  - apply negb_false_iff, Z.eqb_eq. apply Z.bits_inj'. intros m Hm.
    rewrite Z.land_spec, Z.bits_0.
    destruct (Z.eq_dec n m) as [->|Hne].
    + rewrite Hbit. reflexivity.
    + rewrite Z.pow2_bits_false by lia. apply andb_false_r.
Qed.

(** [flags & EVENT_FLAG_MBUTTON] reads bit 2 of the flags word and
    [flags & EVENT_FLAG_RBUTTON] bit 1. *)
Lemma middle_button_bit (ev : MouseEvent.t) :
  button_down ev cv2.EVENT_FLAG_MBUTTON = Z.testbit (MouseEvent.flags ev) 2.
Proof. apply (truthy_land_bit _ 2). lia. Qed.

Lemma right_button_bit (ev : MouseEvent.t) :
  button_down ev cv2.EVENT_FLAG_RBUTTON = Z.testbit (MouseEvent.flags ev) 1.
Proof. apply (truthy_land_bit _ 1). lia. Qed.

(** ** The range of doubles in [math.pow] and in the conversion of ints *)

Lemma float_max_int_large : 102400 < float_max_int.
Proof. vm_compute. reflexivity. Qed.

(** 3894 is the least whole exponent that takes 1.2 to 2^1024 or beyond:
    1.2^3893 is below 2^1024 - 2^970, from where on a value rounds out of
    the doubles, and 1.2^3894 is above 2^1024. *)
Lemma pow_1_2_overflow_least :
  12 ^ (pow_1_2_overflow - 1) < float_max_int * 10 ^ (pow_1_2_overflow - 1)
  /\ 2 ^ 1024 * 10 ^ pow_1_2_overflow <= 12 ^ pow_1_2_overflow.
Proof. split; vm_compute; [reflexivity | discriminate]. Qed.

Lemma truediv_returns (n : Z) (d : positive) :
  - float_max_int < n < float_max_int -> truediv n d = Ret (Qmake n d).
Proof.
  intros Hn. unfold truediv.
  destruct (Z.leb_spec float_max_int (Z.abs n)); [lia | reflexivity].
Qed.

Lemma truediv_raises (n : Z) (d : positive) :
  n <= - float_max_int \/ float_max_int <= n -> truediv n d = Raise OverflowError.
Proof.
  intros Hn. unfold truediv.
  destruct (Z.leb_spec float_max_int (Z.abs n)); [reflexivity | lia].
Qed.

Lemma math_pow_2_returns (n : Z) :
  n < 102400 -> math_pow_2 (Qmake n 100) = Ret (Pow 2 (Qmake n 100)).
Proof.
  intros Hn. unfold math_pow_2.
  destruct (Qle_bool 1024 (Qmake n 100)) eqn:Hle; [|reflexivity].
  apply Qle_bool_iff in Hle. unfold Qle in Hle. simpl in Hle. lia.
Qed.

Lemma math_pow_2_raises (n : Z) :
  102400 <= n -> math_pow_2 (Qmake n 100) = Raise OverflowError.
Proof.
  intros Hn. unfold math_pow_2.
  replace (Qle_bool 1024 (Qmake n 100)) with true; [reflexivity|].
  symmetry. apply Qle_bool_iff. unfold Qle. simpl. lia.
Qed.

Lemma math_pow_1_2_returns (n : Z) :
  - float_max_int < n < pow_1_2_overflow ->
  math_pow_1_2 n = Ret (Pow (12 # 10) (inject_Z n)).
Proof.
  intros Hn. pose proof float_max_int_large as Hl.
  unfold math_pow_1_2, pow_1_2_overflow in *.
  destruct (Z.leb_spec float_max_int (Z.abs n)); [lia|].
  destruct (Z.leb_spec 3894 n); [lia | reflexivity].
Qed.

Lemma math_pow_1_2_raises (n : Z) :
  n <= - float_max_int \/ pow_1_2_overflow <= n ->
  math_pow_1_2 n = Raise OverflowError.
Proof.
  intros Hn. unfold math_pow_1_2, pow_1_2_overflow in *.
  destruct (Z.leb_spec float_max_int (Z.abs n)); [reflexivity|].
  destruct (Z.leb_spec 3894 n); [reflexivity | lia].
Qed.

(** ** The branches of the built-in handler *)

Lemma handle_event_move_middle (self : MouseAdapter.t) (ev : MouseEvent.t) :
  is_move ev ->
  button_down ev cv2.EVENT_FLAG_MBUTTON = true ->
  MouseAdapter._handle_event self ev =
    Ret (true, MouseAdapter.set_last self (MouseEvent.outerPoint ev),
         [AxesPan (MouseAdapter._axes self) (MouseEvent.renderSize ev)
                  (delta_pix self ev)]).
Proof.
  unfold is_move, button_down, MouseAdapter._handle_event.
  intros -> ->. reflexivity.
Qed.

(** The right-button branch, as the four steps of the source. *)
Lemma handle_event_move_right_steps (self : MouseAdapter.t) (ev : MouseEvent.t) :
  is_move ev ->
  button_down ev cv2.EVENT_FLAG_MBUTTON = false ->
  button_down ev cv2.EVENT_FLAG_RBUTTON = true ->
  MouseAdapter._handle_event self ev =
    (exponent_x ← truediv (- fst (delta_pix self ev)) 100;
     scale_x ← math_pow_2 exponent_x;
     exponent_y ← truediv (snd (delta_pix self ev)) 100;
     scale_y ← math_pow_2 exponent_y;
     Ret (true, MouseAdapter.set_last self (MouseEvent.outerPoint ev),
          [AxesZoom (MouseAdapter._axes self) (MouseEvent.renderSize ev)
                    (MouseAdapter._pressPosPix self) scale_x scale_y])).
Proof.
  unfold is_move, button_down, MouseAdapter._handle_event.
  intros -> -> ->. reflexivity.
Qed.

Lemma handle_event_move_right (self : MouseAdapter.t) (ev : MouseEvent.t) :
  is_move ev ->
  button_down ev cv2.EVENT_FLAG_MBUTTON = false ->
  button_down ev cv2.EVENT_FLAG_RBUTTON = true ->
  zoom_in_range self ev ->
  MouseAdapter._handle_event self ev =
    Ret (true, MouseAdapter.set_last self (MouseEvent.outerPoint ev),
         [AxesZoom (MouseAdapter._axes self) (MouseEvent.renderSize ev)
                   (MouseAdapter._pressPosPix self)
                   (Pow 2 (Qmake (- fst (delta_pix self ev)) 100))
                   (Pow 2 (Qmake (snd (delta_pix self ev)) 100))]).
Proof.
  intros Hmove Hmid Hright [Hx Hy]. pose proof float_max_int_large as Hl.
  rewrite (handle_event_move_right_steps self ev Hmove Hmid Hright).
  rewrite (truediv_returns (- fst (delta_pix self ev))) by lia.
  cbn [mbind outcome_bind].
  rewrite (math_pow_2_returns (- fst (delta_pix self ev))) by lia.
  cbn [mbind outcome_bind].
  rewrite (truediv_returns (snd (delta_pix self ev))) by lia.
  cbn [mbind outcome_bind].
  rewrite (math_pow_2_returns (snd (delta_pix self ev))) by lia. reflexivity.
Qed.

(** Out of range the right-button branch raises at one of its four
    steps, each time [OverflowError], before [zoom] is called and before
    the last position is assigned. *)
Lemma handle_event_move_right_overflow (self : MouseAdapter.t) (ev : MouseEvent.t) :
  is_move ev ->
  button_down ev cv2.EVENT_FLAG_MBUTTON = false ->
  button_down ev cv2.EVENT_FLAG_RBUTTON = true ->
  ~ zoom_in_range self ev ->
  MouseAdapter._handle_event self ev = Raise OverflowError.
Proof.
  intros Hmove Hmid Hright Hout. pose proof float_max_int_large as Hl.
  rewrite (handle_event_move_right_steps self ev Hmove Hmid Hright).
  unfold zoom_in_range in Hout.
  set (dx := fst (delta_pix self ev)) in *.
  set (dy := snd (delta_pix self ev)) in *.
  destruct (Z_lt_le_dec (- float_max_int) (- dx)) as [Hx1|Hx1];
    [|rewrite (truediv_raises (- dx)) by lia; reflexivity].
  destruct (Z_lt_le_dec (- dx) float_max_int) as [Hx2|Hx2];
    [|rewrite (truediv_raises (- dx)) by lia; reflexivity].
  rewrite (truediv_returns (- dx)) by lia. cbn [mbind outcome_bind].
  destruct (Z_lt_le_dec (- dx) 102400) as [Hx3|Hx3];
    [|rewrite (math_pow_2_raises (- dx)) by lia; reflexivity].
  rewrite (math_pow_2_returns (- dx)) by lia. cbn [mbind outcome_bind].
  destruct (Z_lt_le_dec (- float_max_int) dy) as [Hy1|Hy1];
    [|rewrite (truediv_raises dy) by lia; reflexivity].
  destruct (Z_lt_le_dec dy float_max_int) as [Hy2|Hy2];
    [|rewrite (truediv_raises dy) by lia; reflexivity].
  rewrite (truediv_returns dy) by lia. cbn [mbind outcome_bind].
  rewrite (math_pow_2_raises dy) by lia. reflexivity.
Qed.

Lemma handle_event_move_idle (self : MouseAdapter.t) (ev : MouseEvent.t) :
  is_move ev ->
  button_down ev cv2.EVENT_FLAG_MBUTTON = false ->
  button_down ev cv2.EVENT_FLAG_RBUTTON = false ->
  MouseAdapter._handle_event self ev = Ret (false, self, []).
Proof.
  unfold is_move, button_down, MouseAdapter._handle_event.
  intros -> -> ->. reflexivity.
Qed.

Lemma handle_event_wheel_steps (self : MouseAdapter.t) (ev : MouseEvent.t) :
  is_wheel ev ->
  MouseAdapter._handle_event self ev =
    (scale ← math_pow_1_2 (- (MouseEvent.flags ev / 120));
     Ret (true, self,
          [AxesZoom (MouseAdapter._axes self) (MouseEvent.renderSize ev)
                    (MouseEvent.outerPoint ev) scale scale])).
Proof.
  unfold is_wheel, MouseAdapter._handle_event. intros ->. reflexivity.
Qed.

Lemma wheel_in_range_exponent (flags : Z) :
  - 467160 <= flags < 120 * float_max_int <->
  - float_max_int < - (flags / 120) < pow_1_2_overflow.
Proof.
  pose proof float_max_int_large as Hl. unfold pow_1_2_overflow.
  pose proof (Z.div_mod flags 120 ltac:(lia)) as Hdm.
  pose proof (Z.mod_pos_bound flags 120 ltac:(lia)) as Hmod.
  lia.
Qed.

(** What the source does with a wheel event in range: one [zoom] at the
    pointer, both scales [math.pow(1.2, -(flags // 120))]. *)
Lemma handle_event_wheel (self : MouseAdapter.t) (ev : MouseEvent.t) :
  is_wheel ev ->
  wheel_in_range ev ->
  MouseAdapter._handle_event self ev =
    Ret (true, self,
         [AxesZoom (MouseAdapter._axes self) (MouseEvent.renderSize ev)
                   (MouseEvent.outerPoint ev)
                   (Pow (12 # 10) (inject_Z (- (MouseEvent.flags ev / 120))))
                   (Pow (12 # 10) (inject_Z (- (MouseEvent.flags ev / 120))))]).
Proof.
  intros Hw Hin. rewrite (handle_event_wheel_steps self ev Hw).
  rewrite math_pow_1_2_returns by (apply wheel_in_range_exponent, Hin).
  reflexivity.
Qed.

Lemma handle_event_wheel_overflow (self : MouseAdapter.t) (ev : MouseEvent.t) :
  is_wheel ev ->
  ~ wheel_in_range ev ->
  MouseAdapter._handle_event self ev = Raise OverflowError.
Proof.
  intros Hw Hout. rewrite (handle_event_wheel_steps self ev Hw).
  rewrite math_pow_1_2_raises; [reflexivity|].
  unfold wheel_in_range in Hout.
  pose proof (wheel_in_range_exponent (MouseEvent.flags ev)) as Hiff. lia.
Qed.

Lemma handle_event_button_down (self : MouseAdapter.t) (ev : MouseEvent.t) :
  MouseEvent.event ev = cv2.EVENT_MBUTTONDOWN
  \/ MouseEvent.event ev = cv2.EVENT_RBUTTONDOWN ->
  MouseAdapter._handle_event self ev =
    Ret (true, MouseAdapter.set_press_last self (MouseEvent.outerPoint ev), []).
Proof.
  unfold MouseAdapter._handle_event. intros [-> | ->]; reflexivity.
Qed.

Lemma handle_event_double_click (self : MouseAdapter.t) (ev : MouseEvent.t) :
  MouseEvent.event ev = cv2.EVENT_RBUTTONDBLCLK ->
  MouseAdapter._handle_event self ev =
    Ret (true, self,
         [AxesSetXLimAuto (MouseAdapter._axes self);
          AxesSetYLimAuto (MouseAdapter._axes self)]).
Proof.
  unfold MouseAdapter._handle_event. intros ->. reflexivity.
Qed.

Lemma handle_event_other_kind (self : MouseAdapter.t) (ev : MouseEvent.t) :
  builtin_kind ev = false ->
  MouseAdapter._handle_event self ev = Ret (false, self, []).
Proof.
  unfold builtin_kind, MouseAdapter._handle_event. intros H.
  repeat (apply orb_false_elim in H as [H ?]).
  unfold MouseEvent.event in *.
  repeat match goal with
         | Hc : ?c = false |- context [?c] => rewrite Hc
         end.
  reflexivity.
Qed.

(** The full case analysis of the built-in handler. *)
Lemma handle_event_cases (self : MouseAdapter.t) (ev : MouseEvent.t) :
  (MouseEvent.event ev = cv2.EVENT_MBUTTONDOWN
   \/ MouseEvent.event ev = cv2.EVENT_RBUTTONDOWN)
  \/ is_middle_drag ev
  \/ is_right_drag ev
  \/ (is_move ev
      /\ button_down ev cv2.EVENT_FLAG_MBUTTON = false
      /\ button_down ev cv2.EVENT_FLAG_RBUTTON = false)
  \/ MouseEvent.event ev = cv2.EVENT_RBUTTONDBLCLK
  \/ is_wheel ev
  \/ builtin_kind ev = false.
Proof.
  unfold is_middle_drag, is_right_drag, is_move, is_wheel, builtin_kind.
  destruct (MouseEvent.event ev =? cv2.EVENT_MBUTTONDOWN) eqn:E1;
    [apply Z.eqb_eq in E1; tauto|].
  destruct (MouseEvent.event ev =? cv2.EVENT_RBUTTONDOWN) eqn:E2;
    [apply Z.eqb_eq in E2; tauto|].
  destruct (MouseEvent.event ev =? cv2.EVENT_MOUSEMOVE) eqn:E3.
  { apply Z.eqb_eq in E3.
    destruct (button_down ev cv2.EVENT_FLAG_MBUTTON); [tauto|].
    destruct (button_down ev cv2.EVENT_FLAG_RBUTTON); tauto. }
  destruct (MouseEvent.event ev =? cv2.EVENT_RBUTTONDBLCLK) eqn:E4;
    [apply Z.eqb_eq in E4; tauto|].
  destruct (MouseEvent.event ev =? cv2.EVENT_MOUSEWHEEL) eqn:E5;
    [apply Z.eqb_eq in E5; tauto|].
  repeat right. reflexivity.
Qed.

Lemma zoom_in_range_dec (self : MouseAdapter.t) (ev : MouseEvent.t) :
  zoom_in_range self ev \/ ~ zoom_in_range self ev.
Proof. unfold zoom_in_range. lia. Qed.

Lemma wheel_in_range_dec (ev : MouseEvent.t) :
  wheel_in_range ev \/ ~ wheel_in_range ev.
Proof. unfold wheel_in_range. lia. Qed.

(** The built-in handler raises nothing but [OverflowError], and only
    in its two zoom branches. *)
Lemma handle_event_outcome (self : MouseAdapter.t) (ev : MouseEvent.t) :
  (exists (b : bool) (self1 : MouseAdapter.t) (calls : list Effect),
     MouseAdapter._handle_event self ev = Ret (b, self1, calls)
     /\ MouseAdapter._mouseEventHandler self1 = MouseAdapter._mouseEventHandler self
     /\ MouseAdapter._axes self1 = MouseAdapter._axes self
     /\ Forall (fun e => axes_target e = Some (MouseAdapter._axes self)) calls)
  \/ (MouseAdapter._handle_event self ev = Raise OverflowError
      /\ ~ pow_in_range self ev).
Proof.
  destruct (handle_event_cases self ev)
    as [Hk | [[Hm Hmid] | [(Hm & Hmid & Hr) | [(Hm & Hmid & Hr) | [Hk | [Hk | Hk]]]]]].
  - left. rewrite (handle_event_button_down self ev Hk).
    eexists _, _, _. repeat split. constructor.
  - left. rewrite (handle_event_move_middle self ev Hm Hmid).
    eexists _, _, _. repeat split. repeat constructor.
  - destruct (zoom_in_range_dec self ev) as [Hin|Hout].
    + left. rewrite (handle_event_move_right self ev Hm Hmid Hr Hin).
      eexists _, _, _. repeat split. repeat constructor.
    + right. split; [exact (handle_event_move_right_overflow self ev Hm Hmid Hr Hout)|].
      intros [Hz _]. apply Hout, Hz. repeat split; assumption.
  - left. rewrite (handle_event_move_idle self ev Hm Hmid Hr).
    eexists _, _, _. repeat split. constructor.
  - left. rewrite (handle_event_double_click self ev Hk).
    eexists _, _, _. repeat split. repeat constructor.
  - destruct (wheel_in_range_dec ev) as [Hin|Hout].
    + left. rewrite (handle_event_wheel self ev Hk Hin).
      eexists _, _, _. repeat split. repeat constructor.
    + right. split; [exact (handle_event_wheel_overflow self ev Hk Hout)|].
      intros [_ Hw]. apply Hout, Hw, Hk.
  - left. rewrite (handle_event_other_kind self ev Hk).
    eexists _, _, _. repeat split. constructor.
Qed.

Lemma handle_event_in_range (self : MouseAdapter.t) (ev : MouseEvent.t) :
  pow_in_range self ev ->
  exists (b : bool) (self1 : MouseAdapter.t) (calls : list Effect),
    MouseAdapter._handle_event self ev = Ret (b, self1, calls).
Proof.
  intros Hin.
  destruct (handle_event_outcome self ev)
    as [(b & self1 & calls & H & _) | [_ Hout]]; [eauto | contradiction].
Qed.

(** The dispatcher in terms of the built-in handler. *)
Lemma mouseEvent_parts (self : MouseAdapter.t) (ev : MouseEvent.t)
    (b : bool) (self1 : MouseAdapter.t) (calls : list Effect) :
  MouseAdapter._handle_event self ev = Ret (b, self1, calls) ->
  MouseAdapter.mouseEvent self ev =
    Ret (b || user_answer self ev, self1, calls ++ user_calls self ev).
Proof.
  intros H. unfold MouseAdapter.mouseEvent, user_answer, user_calls.
  destruct (handle_event_outcome self ev)
    as [(b' & self1' & calls' & H' & Hh & _) | [H' _]]; [|congruence].
  rewrite H in H'. injection H' as <- <- <-.
  rewrite H. cbn [mbind outcome_bind]. rewrite Hh.
  destruct (MouseAdapter._mouseEventHandler self); [reflexivity|].
  rewrite app_nil_r. reflexivity.
Qed.

Lemma mouseEvent_raises (self : MouseAdapter.t) (ev : MouseEvent.t) (e : exn) :
  MouseAdapter._handle_event self ev = Raise e ->
  MouseAdapter.mouseEvent self ev = Raise e.
Proof.
  intros H. unfold MouseAdapter.mouseEvent. rewrite H. reflexivity.
Qed.

(** The real number a [math.pow(2., n / 100.0)] stands for. *)
Lemma float_value_pow2 (n : Z) :
  float_value (Pow 2 (Qmake n 100)) = Rpower 2 (IZR n / 100).
Proof.
  unfold float_value, Q2R. simpl. f_equal.
  rewrite Rinv_1. apply Rmult_1_r.
Qed.

Lemma float_value_pow12 (k : Z) :
  float_value (Pow (12 # 10) (inject_Z k)) = Rpower (12 / 10) (IZR k).
Proof.
  unfold float_value, Q2R. simpl. f_equal.
  rewrite Rinv_1. apply Rmult_1_r.
Qed.

(** C1, as stated, fails: an event on which the built-in handler raises
    reaches a controller with a user handler; the dispatcher raises with
    it, and the user handler is not called.  So for a right-button move
    102400 pixels to the left of the last position, and so for one notch
    of the wheel backward. *)
Lemma raising_event_skips_user_handler :
  let self := MouseAdapter.setMouseEventHandler (MouseAdapter.__init__ 0%nat)
                (fun _ => true) in
  let drag := MouseEvent.mk 0%nat (640, 480) cv2.EVENT_MOUSEMOVE (-102400) 0
                cv2.EVENT_FLAG_RBUTTON in
  let backward := MouseEvent.mk 0%nat (640, 480) cv2.EVENT_MOUSEWHEEL 320 240
                    (cv2.wheel_flags (-120) 0) in
  is_Some (MouseAdapter._mouseEventHandler self)
  /\ (MouseAdapter._handle_event self drag = Raise OverflowError
      /\ MouseAdapter.mouseEvent self drag = Raise OverflowError
      /\ calls_of (MouseAdapter.mouseEvent self drag) = []
      /\ forall result : bool * MouseAdapter.t * list Effect,
           MouseAdapter.mouseEvent self drag <> Ret result)
  /\ (MouseEvent.flags backward = -7864320
      /\ MouseAdapter._handle_event self backward = Raise OverflowError
      /\ MouseAdapter.mouseEvent self backward = Raise OverflowError
      /\ calls_of (MouseAdapter.mouseEvent self backward) = []
      /\ forall result : bool * MouseAdapter.t * list Effect,
           MouseAdapter.mouseEvent self backward <> Ret result).
Proof.
  cbv zeta.
  assert (Hd : MouseAdapter.mouseEvent
                 (MouseAdapter.setMouseEventHandler (MouseAdapter.__init__ 0%nat)
                    (fun _ => true))
                 (MouseEvent.mk 0%nat (640, 480) cv2.EVENT_MOUSEMOVE (-102400) 0
                    cv2.EVENT_FLAG_RBUTTON) = Raise OverflowError)
    by (vm_compute; reflexivity).
  assert (Hb : MouseAdapter.mouseEvent
                 (MouseAdapter.setMouseEventHandler (MouseAdapter.__init__ 0%nat)
                    (fun _ => true))
                 (MouseEvent.mk 0%nat (640, 480) cv2.EVENT_MOUSEWHEEL 320 240
                    (cv2.wheel_flags (-120) 0)) = Raise OverflowError)
    by (vm_compute; reflexivity).
  split; [eexists; reflexivity|]. split.
  - split; [vm_compute; reflexivity|]. split; [exact Hd|].
    split; [rewrite Hd; reflexivity|].
    intros result. rewrite Hd. discriminate.
  - split; [reflexivity|]. split; [vm_compute; reflexivity|]. split; [exact Hb|].
    split; [rewrite Hb; reflexivity|].
    intros result. rewrite Hb. discriminate.
Qed.

(** C1, amended. Whenever the built-in handler returns, the dispatcher has
    run it first; with a user handler set it then runs that handler too,
    whatever the built-in handler answered, and answers the disjunction of
    the two results; with none set it answers the built-in handler's
    result.  The built-in handler returns on every event for which no zoom
    factor is out of range. *)
Theorem dispatch_builtin_then_user (self : MouseAdapter.t) (ev : MouseEvent.t) :
  (pow_in_range self ev ->
   exists (b : bool) (self1 : MouseAdapter.t) (calls : list Effect),
     MouseAdapter._handle_event self ev = Ret (b, self1, calls))
  /\ (forall (update_builtin : bool) (self1 : MouseAdapter.t) (calls : list Effect),
        MouseAdapter._handle_event self ev = Ret (update_builtin, self1, calls) ->
        MouseAdapter.mouseEvent self ev =
          Ret match MouseAdapter._mouseEventHandler self with
              | Some handler =>
                  (update_builtin || handler ev, self1,
                   calls ++ [UserHandlerCall ev])
              | None =>
                  (update_builtin, self1, calls)
              end).
Proof.
  split; [apply handle_event_in_range|].
  intros b self1 calls H.
  rewrite (mouseEvent_parts self ev b self1 calls H).
  unfold user_answer, user_calls.
  destruct (MouseAdapter._mouseEventHandler self); [reflexivity|].
  rewrite orb_false_r, app_nil_r. reflexivity.
Qed.

Lemma dispatch_builtin_then_user_witness :
  let self := MouseAdapter.setMouseEventHandler (MouseAdapter.__init__ 0%nat)
                (fun _ => false) in
  let ev := MouseEvent.mk 0%nat (640, 480) cv2.EVENT_RBUTTONDBLCLK 1 1 0 in
  (exists (b : bool) (self1 : MouseAdapter.t) (calls : list Effect),
     MouseAdapter._handle_event self ev = Ret (b, self1, calls))
  /\ MouseAdapter.mouseEvent self ev =
       Ret (true || false, self,
            [AxesSetXLimAuto 0%nat; AxesSetYLimAuto 0%nat] ++ [UserHandlerCall ev]).
Proof.
  split.
  - refine (proj1 (dispatch_builtin_then_user
                     (MouseAdapter.setMouseEventHandler (MouseAdapter.__init__ 0%nat)
                        (fun _ => false))
                     (MouseEvent.mk 0%nat (640, 480) cv2.EVENT_RBUTTONDBLCLK 1 1 0)) _).
    split.
    + intros (Hmove & _). discriminate Hmove.
    + intros Hwheel. discriminate Hwheel.
  - exact (proj2 (dispatch_builtin_then_user
                    (MouseAdapter.setMouseEventHandler (MouseAdapter.__init__ 0%nat)
                       (fun _ => false))
                    (MouseEvent.mk 0%nat (640, 480) cv2.EVENT_RBUTTONDBLCLK 1 1 0))
             true _ _ eq_refl).
Defined.

(** C3. A move with the middle button down pans by the distance from the
    last position to the event's outer point, makes the outer point the
    last position, and the dispatcher answers true. *)
Theorem middle_drag_pans (self : MouseAdapter.t) (ev : MouseEvent.t) :
  is_move ev ->
  button_down ev cv2.EVENT_FLAG_MBUTTON = true ->
  MouseAdapter.mouseEvent self ev =
    Ret (true, MouseAdapter.set_last self (MouseEvent.outerPoint ev),
         AxesPan (MouseAdapter._axes self) (MouseEvent.renderSize ev)
                 (fst (MouseEvent.outerPoint ev) - fst (MouseAdapter._lastPosPix self),
                  snd (MouseEvent.outerPoint ev) - snd (MouseAdapter._lastPosPix self))
           :: user_calls self ev)
  /\ MouseAdapter._lastPosPix (after_dispatch self ev) = MouseEvent.outerPoint ev.
Proof.
  intros Hmove Hmid. unfold after_dispatch.
  rewrite (mouseEvent_parts _ _ _ _ _ (handle_event_move_middle self ev Hmove Hmid)).
  split; reflexivity.
Qed.

Lemma middle_drag_pans_witness :
  let self := MouseAdapter.__init__ 0%nat in
  let ev := MouseEvent.mk 0%nat (640, 480) cv2.EVENT_MOUSEMOVE 30 40 cv2.EVENT_FLAG_MBUTTON in
  MouseAdapter.mouseEvent self ev =
    Ret (true, MouseAdapter.set_last self (30, 40), [AxesPan 0%nat (640, 480) (30, 40)])
  /\ MouseAdapter._lastPosPix (after_dispatch self ev) = (30, 40).
Proof.
  exact (middle_drag_pans (MouseAdapter.__init__ 0%nat)
           (MouseEvent.mk 0%nat (640, 480) cv2.EVENT_MOUSEMOVE 30 40 cv2.EVENT_FLAG_MBUTTON)
           eq_refl eq_refl).
Defined.

(** C2, as stated, fails: a right-button move 102400 pixels to the left
    of the last position asks for [math.pow(2., 1024.0)], which raises
    [OverflowError]; [zoom] is not called, the last position stays, and
    the dispatcher answers nothing. *)
Lemma long_right_drag_raises :
  let self := MouseAdapter.__init__ 0%nat in
  let ev := MouseEvent.mk 0%nat (640, 480) cv2.EVENT_MOUSEMOVE (-102400) 0
              cv2.EVENT_FLAG_RBUTTON in
  is_move ev
  /\ button_down ev cv2.EVENT_FLAG_RBUTTON = true
  /\ button_down ev cv2.EVENT_FLAG_MBUTTON = false
  /\ MouseAdapter.mouseEvent self ev = Raise OverflowError
  /\ calls_of (MouseAdapter.mouseEvent self ev) = []
  /\ MouseAdapter._lastPosPix (after_dispatch self ev) = (0, 0)
  /\ MouseAdapter._lastPosPix (after_dispatch self ev) <> MouseEvent.outerPoint ev.
Proof.
  cbv zeta. repeat split; try (vm_compute; reflexivity).
  vm_compute. discriminate.
Qed.

(** C2, amended. A move with the right button down and the middle button
    up, over a distance (dx, dy) from the last position for which the
    zoom factors are in range, zooms with scales 2^(-dx/100) and
    2^(dy/100), anchored at the position of the last press; the outer point
    becomes the last position and the dispatcher answers true.  After a
    right press at (200,150), a right drag to (150,150) has distance
    (-50,0) and scales 2^(1/2) and 1. *)
Theorem right_drag_zooms :
  (forall (self : MouseAdapter.t) (ev : MouseEvent.t),
     is_move ev ->
     button_down ev cv2.EVENT_FLAG_RBUTTON = true ->
     button_down ev cv2.EVENT_FLAG_MBUTTON = false ->
     let dx := fst (MouseEvent.outerPoint ev) - fst (MouseAdapter._lastPosPix self) in
     let dy := snd (MouseEvent.outerPoint ev) - snd (MouseAdapter._lastPosPix self) in
     - 102400 < dx < float_max_int ->
     - float_max_int < dy < 102400 ->
     exists scale_x scale_y : pyfloat,
       MouseAdapter.mouseEvent self ev =
         Ret (true, MouseAdapter.set_last self (MouseEvent.outerPoint ev),
              AxesZoom (MouseAdapter._axes self) (MouseEvent.renderSize ev)
                       (MouseAdapter._pressPosPix self) scale_x scale_y
                :: user_calls self ev)
       /\ float_value scale_x = Rpower 2 (- IZR dx / 100)
       /\ float_value scale_y = Rpower 2 (IZR dy / 100)
       /\ MouseAdapter._lastPosPix (after_dispatch self ev) = MouseEvent.outerPoint ev)
  /\ (forall (self : MouseAdapter.t) (down move : MouseEvent.t),
        MouseEvent.event down = cv2.EVENT_RBUTTONDOWN ->
        MouseEvent.outerPoint down = (200, 150) ->
        is_move move ->
        MouseEvent.outerPoint move = (150, 150) ->
        button_down move cv2.EVENT_FLAG_RBUTTON = true ->
        button_down move cv2.EVENT_FLAG_MBUTTON = false ->
        let pressed := after_dispatch self down in
        delta_pix pressed move = (-50, 0)
        /\ exists scale_x scale_y : pyfloat,
             MouseAdapter.mouseEvent pressed move =
               Ret (true, MouseAdapter.set_last pressed (150, 150),
                    AxesZoom (MouseAdapter._axes self) (MouseEvent.renderSize move)
                             (200, 150) scale_x scale_y
                      :: user_calls self move)
             /\ float_value scale_x = Rpower 2 (1 / 2)
             /\ float_value scale_y = 1%R).
Proof.
  split.
  - intros self ev Hmove Hright Hmid dx dy Hx Hy.
    exists (Pow 2 (Qmake (- dx) 100)), (Pow 2 (Qmake dy 100)).
    unfold after_dispatch.
    rewrite (mouseEvent_parts _ _ _ _ _
               (handle_event_move_right self ev Hmove Hmid Hright (conj Hx Hy))).
    repeat split.
    + rewrite float_value_pow2, opp_IZR. reflexivity.
    + apply float_value_pow2.
  - intros self down move Hdown Hat Hmove Hto Hright Hmid pressed.
    assert (Hpressed : pressed = MouseAdapter.set_press_last self (200, 150)).
    { unfold pressed, after_dispatch.
      rewrite (mouseEvent_parts _ _ _ _ _
                 (handle_event_button_down self down (or_intror Hdown))), Hat.
      reflexivity. }
    assert (Hdelta : delta_pix pressed move = (-50, 0)).
    { unfold delta_pix. unfold MouseEvent.outerPoint in Hto.
      injection Hto as Hx Hy. unfold MouseEvent.x, MouseEvent.y.
      rewrite Hx, Hy, Hpressed. reflexivity. }
    split; [exact Hdelta|].
    exists (Pow 2 (Qmake 50 100)), (Pow 2 (Qmake 0 100)).
    assert (Hin : zoom_in_range pressed move).
    { pose proof float_max_int_large. unfold zoom_in_range.
      rewrite Hdelta. simpl. lia. }
    rewrite (mouseEvent_parts _ _ _ _ _
               (handle_event_move_right pressed move Hmove Hmid Hright Hin)).
    rewrite Hdelta, Hto, Hpressed. repeat split.
    + rewrite float_value_pow2. f_equal. lra.
    + rewrite float_value_pow2. unfold Rdiv. rewrite Rmult_0_l.
      apply Rpower_O. lra.
Qed.

Lemma right_drag_zooms_witness :
  let self := MouseAdapter.__init__ 0%nat in
  let down := MouseEvent.mk 0%nat (640, 480) cv2.EVENT_RBUTTONDOWN 200 150
                cv2.EVENT_FLAG_RBUTTON in
  let move := MouseEvent.mk 0%nat (640, 480) cv2.EVENT_MOUSEMOVE 150 150
                cv2.EVENT_FLAG_RBUTTON in
  let pressed := after_dispatch self down in
  (exists scale_x scale_y : pyfloat,
     MouseAdapter.mouseEvent pressed move =
       Ret (true, MouseAdapter.set_last pressed (150, 150),
            [AxesZoom 0%nat (640, 480) (200, 150) scale_x scale_y])
     /\ float_value scale_x = Rpower 2 (- IZR (150 - 200) / 100)
     /\ float_value scale_y = Rpower 2 (IZR (150 - 150) / 100)
     /\ MouseAdapter._lastPosPix (after_dispatch pressed move) = (150, 150))
  /\ delta_pix pressed move = (-50, 0)
  /\ exists scale_x scale_y : pyfloat,
       MouseAdapter.mouseEvent pressed move =
         Ret (true, MouseAdapter.set_last pressed (150, 150),
              [AxesZoom 0%nat (640, 480) (200, 150) scale_x scale_y])
       /\ float_value scale_x = Rpower 2 (1 / 2)
       /\ float_value scale_y = 1%R.
Proof.
  split.
  - refine (proj1 right_drag_zooms
              (after_dispatch (MouseAdapter.__init__ 0%nat)
                 (MouseEvent.mk 0%nat (640, 480) cv2.EVENT_RBUTTONDOWN 200 150
                    cv2.EVENT_FLAG_RBUTTON))
              (MouseEvent.mk 0%nat (640, 480) cv2.EVENT_MOUSEMOVE 150 150
                 cv2.EVENT_FLAG_RBUTTON)
              eq_refl eq_refl eq_refl _ _).
    + split; vm_compute; reflexivity.
    + split; vm_compute; reflexivity.
  - exact (proj2 right_drag_zooms (MouseAdapter.__init__ 0%nat)
             (MouseEvent.mk 0%nat (640, 480) cv2.EVENT_RBUTTONDOWN 200 150
                cv2.EVENT_FLAG_RBUTTON)
             (MouseEvent.mk 0%nat (640, 480) cv2.EVENT_MOUSEMOVE 150 150
                cv2.EVENT_FLAG_RBUTTON)
             eq_refl eq_refl eq_refl eq_refl eq_refl eq_refl).
Defined.

(** 1.2^65536 lies beyond 2^1024, hence beyond every double. *)
Lemma pow12_beyond_double : (Rpower 2 1024 < Rpower (12 / 10) 65536)%R.
Proof.
  apply Rlt_trans with (Rpower (Rpower (12 / 10) 4) 1024).
  - apply Rlt_Rpower_l; [lra|]. split; [lra|].
    replace 4%R with (INR 4) by (simpl; lra).
    rewrite Rpower_pow by lra. simpl. lra.
  - rewrite Rpower_mult. apply Rpower_lt; lra.
Qed.

(** C4. One notch of the wheel is a wheel delta of 120 in the upper half of
    the flags word, which is what [cv::getMouseWheelDelta] of the quoted C++
    line decodes.  The source takes [flags // 120] for the notch count: a
    notch forward zooms with 1.2^(-65536) where 1.2^(-1) is due; a notch
    backward asks for 1.2^65536 where 1.2^1 is due, a value beyond 2^1024,
    so that [math.pow] raises [OverflowError] and nothing is zoomed. *)
Theorem wheel_notch_exponent :
  let forward := MouseEvent.mk 0%nat (640, 480) cv2.EVENT_MOUSEWHEEL 320 240
                   (cv2.wheel_flags 120 0) in
  let backward := MouseEvent.mk 0%nat (640, 480) cv2.EVENT_MOUSEWHEEL 320 240
                    (cv2.wheel_flags (-120) 0) in
  let self := MouseAdapter.__init__ 0%nat in
  (MouseEvent.flags forward = 7864320
   /\ cv2.getMouseWheelDelta (MouseEvent.flags forward) = 1 * 120
   /\ MouseAdapter.mouseEvent self forward =
        Ret (true, self,
             [AxesZoom 0%nat (640, 480) (320, 240)
                (Pow (12 # 10) (inject_Z (-65536))) (Pow (12 # 10) (inject_Z (-65536)))])
   /\ (float_value (Pow (12 # 10) (inject_Z (-65536))) < Rpower (12 / 10) (-1))%R)
  /\ (MouseEvent.flags backward = -7864320
      /\ cv2.getMouseWheelDelta (MouseEvent.flags backward) = -1 * 120
      /\ - (MouseEvent.flags backward / 120) = 65536
      /\ MouseAdapter.mouseEvent self backward = Raise OverflowError
      /\ calls_of (MouseAdapter.mouseEvent self backward) = []
      /\ (Rpower (12 / 10) 1 < float_value (Pow (12 # 10) (inject_Z 65536)))%R
      /\ (Rpower 2 1024 < float_value (Pow (12 # 10) (inject_Z 65536)))%R).
Proof.
  cbv zeta. repeat split; try (vm_compute; reflexivity).
  - rewrite float_value_pow12. apply Rpower_lt; lra.
  - rewrite float_value_pow12. apply Rpower_lt; lra.
  - rewrite float_value_pow12. exact pow12_beyond_double.
Qed.

(** C5, as stated, fails: a move with no button down leaves the last
    position where it was; and so does a right-button move over a distance
    for which [math.pow] raises. *)
Lemma idle_move_keeps_last_position :
  let self := MouseAdapter.__init__ 0%nat in
  let ev := MouseEvent.mk 0%nat (640, 480) cv2.EVENT_MOUSEMOVE 5 7 0 in
  let far := MouseEvent.mk 0%nat (640, 480) cv2.EVENT_MOUSEMOVE 0 102400
               cv2.EVENT_FLAG_RBUTTON in
  (is_move ev
   /\ MouseAdapter._lastPosPix (after_dispatch self ev) = (0, 0)
   /\ MouseAdapter._lastPosPix (after_dispatch self ev) <> MouseEvent.outerPoint ev)
  /\ (is_move far
      /\ MouseAdapter.mouseEvent self far = Raise OverflowError
      /\ MouseAdapter._lastPosPix (after_dispatch self far) = (0, 0)
      /\ MouseAdapter._lastPosPix (after_dispatch self far) <> MouseEvent.outerPoint far).
Proof.
  cbv zeta. split.
  - split; [reflexivity|]. split; [reflexivity|]. discriminate.
  - split; [reflexivity|]. split; [vm_compute; reflexivity|].
    split; [vm_compute; reflexivity|]. vm_compute. discriminate.
Qed.

(** C5, amended. After a move with the middle button down, and after a
    move with the right button down whose zoom is carried out (its zoom
    factors being in range), the last position is the event's outer point;
    a move with neither button down changes nothing in the controller. *)
Theorem last_position_after_move (self : MouseAdapter.t) (ev : MouseEvent.t) :
  is_move ev ->
  (button_down ev cv2.EVENT_FLAG_MBUTTON = true
   \/ (button_down ev cv2.EVENT_FLAG_RBUTTON = true /\ zoom_in_range self ev) ->
   MouseAdapter._lastPosPix (after_dispatch self ev) = MouseEvent.outerPoint ev)
  /\ (button_down ev cv2.EVENT_FLAG_MBUTTON || button_down ev cv2.EVENT_FLAG_RBUTTON = false ->
      after_dispatch self ev = self).
Proof.
  intros Hmove. unfold after_dispatch.
  destruct (button_down ev cv2.EVENT_FLAG_MBUTTON) eqn:Hmid.
  - rewrite (mouseEvent_parts _ _ _ _ _ (handle_event_move_middle self ev Hmove Hmid)).
    split; [reflexivity | discriminate].
  - destruct (button_down ev cv2.EVENT_FLAG_RBUTTON) eqn:Hright.
    + split; [|discriminate].
      intros [Hm | [_ Hin]]; [discriminate|].
      rewrite (mouseEvent_parts _ _ _ _ _
                 (handle_event_move_right self ev Hmove Hmid Hright Hin)).
      reflexivity.
    + rewrite (mouseEvent_parts _ _ _ _ _ (handle_event_move_idle self ev Hmove Hmid Hright)).
      split; [|reflexivity].
      intros [Hm | [Hr _]]; discriminate.
Qed.

Lemma last_position_after_move_witness :
  let self := MouseAdapter.__init__ 0%nat in
  let drag := MouseEvent.mk 0%nat (640, 480) cv2.EVENT_MOUSEMOVE 5 7
                cv2.EVENT_FLAG_RBUTTON in
  let idle := MouseEvent.mk 0%nat (640, 480) cv2.EVENT_MOUSEMOVE 5 7 0 in
  MouseAdapter._lastPosPix (after_dispatch self drag) = (5, 7)
  /\ after_dispatch self idle = self.
Proof.
  split.
  - refine (proj1 (last_position_after_move (MouseAdapter.__init__ 0%nat)
                     (MouseEvent.mk 0%nat (640, 480) cv2.EVENT_MOUSEMOVE 5 7
                        cv2.EVENT_FLAG_RBUTTON) eq_refl) _).
    right. split; [reflexivity|].
    split; split; vm_compute; reflexivity.
  - exact (proj2 (last_position_after_move (MouseAdapter.__init__ 0%nat)
                    (MouseEvent.mk 0%nat (640, 480) cv2.EVENT_MOUSEMOVE 5 7 0)
                    eq_refl) eq_refl).
Defined.

(** C10. A new controller has both positions at (0,0) and no user handler;
    a middle drag dispatched to it before any press pans by the event's raw
    outer coordinates. *)
Theorem fresh_controller_pans_by_raw_position :
  (forall axes : AxesRef,
     MouseAdapter._pressPosPix (MouseAdapter.__init__ axes) = (0, 0)
     /\ MouseAdapter._lastPosPix (MouseAdapter.__init__ axes) = (0, 0)
     /\ MouseAdapter._mouseEventHandler (MouseAdapter.__init__ axes) = None)
  /\ (forall (axes : AxesRef) (ev : MouseEvent.t),
        is_move ev ->
        button_down ev cv2.EVENT_FLAG_MBUTTON = true ->
        MouseAdapter.mouseEvent (MouseAdapter.__init__ axes) ev =
          Ret (true,
               MouseAdapter.set_last (MouseAdapter.__init__ axes) (MouseEvent.outerPoint ev),
               [AxesPan axes (MouseEvent.renderSize ev)
                        (MouseEvent.x ev, MouseEvent.y ev)])).
Proof.
  split.
  - intros axes. repeat split.
  - intros axes ev Hmove Hmid.
    rewrite (mouseEvent_parts _ _ _ _ _
               (handle_event_move_middle (MouseAdapter.__init__ axes) ev Hmove Hmid)).
    unfold delta_pix, user_calls, user_answer. simpl. rewrite !Z.sub_0_r. reflexivity.
Qed.

Lemma fresh_controller_pans_by_raw_position_witness :
  MouseAdapter.mouseEvent (MouseAdapter.__init__ 3%nat)
    (MouseEvent.mk 3%nat (640, 480) cv2.EVENT_MOUSEMOVE 30 40 cv2.EVENT_FLAG_MBUTTON) =
    Ret (true, MouseAdapter.set_last (MouseAdapter.__init__ 3%nat) (30, 40),
         [AxesPan 3%nat (640, 480) (30, 40)]).
Proof.
  exact (proj2 fresh_controller_pans_by_raw_position 3%nat
           (MouseEvent.mk 3%nat (640, 480) cv2.EVENT_MOUSEMOVE 30 40
              cv2.EVENT_FLAG_MBUTTON)
           eq_refl eq_refl).
Defined.

End Controller.

(** * The window, the registry and the wait loop *)

Section Liveness.

Lemma valid_name_live (h : highgui.Host) (name : string) (hw : highgui.HostWindow) :
  highgui.windows h !! name = Some hw ->
  Window.valid_name h name = Ret true.
Proof.
  intros Hw. unfold Window.valid_name, highgui.getWindowProperty.
  rewrite Hw. simpl. f_equal.
  unfold Qle_bool. simpl. apply Z.leb_le.
  assert (Hbit : 0 <= Z.land (highgui.hw_flags hw) highgui.WINDOW_AUTOSIZE).
  { apply Z.land_nonneg. right. unfold highgui.WINDOW_AUTOSIZE. lia. }
  lia.
Qed.

Lemma valid_name_missing (h : highgui.Host) (name : string) :
  highgui.windows h !! name = None ->
  Window.valid_name h name = Ret false.
Proof.
  intros Hw. unfold Window.valid_name, highgui.getWindowProperty.
  rewrite Hw. destruct (highgui.missing_raises h); reflexivity.
Qed.

Lemma is_valid_name_live (h : highgui.Host) (name : string) (hw : highgui.HostWindow) :
  highgui.windows h !! name = Some hw ->
  Window.is_valid_name h name = true.
Proof.
  intros Hw. unfold Window.is_valid_name.
  rewrite (valid_name_live h name hw Hw). reflexivity.
Qed.

Lemma is_valid_name_missing (h : highgui.Host) (name : string) :
  highgui.windows h !! name = None ->
  Window.is_valid_name h name = false.
Proof.
  intros Hw. unfold Window.is_valid_name.
  rewrite (valid_name_missing h name Hw). reflexivity.
Qed.

(** The host's liveness query fails by [cv2.error] only. *)
Lemma getWindowProperty_raises (h : highgui.Host) (name : string) (e : exn) :
  highgui.getWindowProperty h name = Raise e -> e = Cv2Error.
Proof.
  unfold highgui.getWindowProperty.
  destruct (highgui.windows h !! name); [discriminate|].
  destruct (highgui.missing_raises h); [|discriminate].
  intros [= <-]. reflexivity.
Qed.

(** C9. [valid] never passes a fault on: when the host's liveness query
    raises, it answers false; when the query answers a value, it answers
    whether that value is non-negative; it answers in every case. *)
Theorem valid_never_raises (h : highgui.Host) (self : Window.t) :
  (forall e : exn,
     highgui.getWindowProperty h (Window._windowName self) = Raise e ->
     Window.valid h self = Ret false)
  /\ (forall v : Q,
        highgui.getWindowProperty h (Window._windowName self) = Ret v ->
        exists b : bool,
          Window.valid h self = Ret b /\ (b = true <-> (0 <= v)%Q))
  /\ (exists b : bool, Window.valid h self = Ret b).
Proof.
  unfold Window.valid, Window.valid_name. repeat split.
  - intros e He. rewrite He, (getWindowProperty_raises _ _ _ He). reflexivity.
  - intros v Hv. rewrite Hv. exists (Qle_bool 0 v). split; [reflexivity|].
    apply Qle_bool_iff.
  - destruct (highgui.getWindowProperty h (Window._windowName self)) as [v|e] eqn:Hq.
    + eexists. reflexivity.
    + rewrite (getWindowProperty_raises _ _ _ Hq). eexists. reflexivity.
Qed.

Lemma valid_never_raises_witness :
  let self := Window.mk "W" 480 640 (MouseAdapter.__init__ 0%nat) (Axes_render 640 480) in
  Window.valid (quiet_host true) self = Ret false
  /\ (exists b : bool,
        Window.valid (Window.host (snd first_W)) self = Ret b
        /\ (b = true <-> (0 <= 0)%Q)).
Proof.
  split.
  - exact (proj1 (valid_never_raises (quiet_host true)
                    (Window.mk "W" 480 640 (MouseAdapter.__init__ 0%nat)
                       (Axes_render 640 480)))
             Cv2Error eq_refl).
  - exact (proj1 (proj2 (valid_never_raises (Window.host (snd first_W))
                           (Window.mk "W" 480 640 (MouseAdapter.__init__ 0%nat)
                              (Axes_render 640 480))))
             0%Q eq_refl).
Defined.

(** C8. With no windows and a zero delay, [waitKey_static] answers -1 in
    its first iteration when the host's key poll reports no key. *)
Theorem waitKey_no_windows_returns (fuel : nat) (st : Window.State) :
  fst (Window.cv2_waitKey st) = -1 ->
  Window.waitKey_static (S fuel) [] 0 st = Some (-1, snd (Window.cv2_waitKey st)).
Proof.
  intros Hkey. unfold Window.waitKey_static. simpl.
  destruct (Window.cv2_waitKey st) as [key st1]. simpl in *. subst key.
  reflexivity.
Qed.

Lemma waitKey_no_windows_returns_witness :
  Window.waitKey_static 1 [] 0 (start (quiet_host false)) =
    Some (-1, snd (Window.cv2_waitKey (start (quiet_host false)))).
Proof.
  exact (waitKey_no_windows_returns 0 (start (quiet_host false)) eq_refl).
Defined.

End Liveness.

(** ** Finalisation *)

Section Finalisation.

Lemma shrinks_refl (st : Window.State) : shrinks st st.
Proof. unfold shrinks. done. Qed.

Lemma shrinks_trans (st1 st2 st3 : Window.State) :
  shrinks st1 st2 -> shrinks st2 st3 -> shrinks st1 st3.
Proof.
  unfold shrinks. intros (Hr1 & Hh1 & Ho1) (Hr2 & Hh2 & Ho2).
  repeat split; [by etrans | by etrans | congruence].
Qed.

Lemma del_destroy_fields (st : Window.State) (self : Window.t) :
  Window.registry (Window.del_destroy st self) = Window.registry st
  /\ Window.heap (Window.del_destroy st self) = Window.heap st
  /\ Window.roots (Window.del_destroy st self) = Window.roots st.
Proof.
  unfold Window.del_destroy.
  destruct (Window.is_valid (Window.host st) self); done.
Qed.

Lemma del_unregister_shrinks (drop : Window.State -> nat -> Window.State)
    (st : Window.State) (r : nat) (self : Window.t) :
  (forall s v, shrinks s (drop s v)) ->
  shrinks st (Window.del_unregister drop st r self).
Proof.
  intros Hdrop. unfold Window.del_unregister.
  destruct (Window.registry st !! Window._windowName self) as [victim|] eqn:Hreg;
    [|apply shrinks_refl].
  set (st1 := Window.emit _ _).
  assert (H1 : shrinks st st1).
  { unfold shrinks, st1. simpl. split; [apply delete_subseteq | done]. }
  repeat case_decide; try exact H1.
  eapply shrinks_trans; [exact H1 | apply Hdrop].
Qed.

Lemma del_unregister_removes (drop : Window.State -> nat -> Window.State)
    (st : Window.State) (r : nat) (self : Window.t) :
  (forall s v, shrinks s (drop s v)) ->
  Window.registry (Window.del_unregister drop st r self)
    !! Window._windowName self = None.
Proof.
  intros Hdrop. unfold Window.del_unregister.
  destruct (Window.registry st !! Window._windowName self) as [victim|] eqn:Hreg;
    [|exact Hreg].
  set (st1 := Window.emit _ _).
  assert (H1 : Window.registry st1 !! Window._windowName self = None).
  { unfold st1. simpl. apply lookup_delete_eq. }
  repeat case_decide; try exact H1.
  destruct (Hdrop st1 victim) as (Hsub & _ & _).
  eapply lookup_weaken_None; [exact H1 | exact Hsub].
Qed.

Lemma finalize_shrinks (depth : nat) :
  forall (st : Window.State) (r : nat), shrinks st (Window.finalize depth st r).
Proof.
  induction depth as [|d IH]; intros st r; simpl; [apply shrinks_refl|].
  destruct (Window.heap st !! r) as [self|] eqn:Hr; [|apply shrinks_refl].
  pose proof (del_unregister_shrinks (Window.finalize d) st r self IH) as H1.
  set (st1 := Window.del_unregister _ _ _ _) in *.
  destruct (del_destroy_fields st1 self) as (Hreg & Hheap & Hroots).
  destruct H1 as (H1r & H1h & H1o).
  unfold shrinks. simpl. rewrite Hreg, Hheap, Hroots.
  repeat split; [done | | done].
  etrans; [apply delete_subseteq | done].
Qed.

(** No entry under the window's name is left when [__del__] is through. *)
Lemma finalize_unregisters (depth : nat) (st : Window.State) (r : nat)
    (self : Window.t) :
  Window.heap st !! r = Some self ->
  Window.registry (Window.finalize (S depth) st r) !! Window._windowName self = None.
Proof.
  intros Hr. simpl. rewrite Hr. simpl.
  destruct (del_destroy_fields
              (Window.del_unregister (Window.finalize depth) st r self) self)
    as (-> & _ & _).
  apply del_unregister_removes, finalize_shrinks.
Qed.

(** The object is gone when [__del__] is through. *)
Lemma finalize_frees (depth : nat) (st : Window.State) (r : nat) :
  Window.heap (Window.finalize (S depth) st r) !! r = None.
Proof.
  simpl. destruct (Window.heap st !! r) as [self|] eqn:Hr; [|exact Hr].
  simpl. apply lookup_delete_eq.
Qed.

Lemma del_unregister_sound (drop : Window.State -> nat -> Window.State)
    (st : Window.State) (r : nat) (self : Window.t) :
  (forall s v, registry_sound s -> registry_sound (drop s v)) ->
  registry_sound st ->
  registry_sound (Window.del_unregister drop st r self).
Proof.
  intros Hdrop Hst. unfold Window.del_unregister.
  destruct (Window.registry st !! Window._windowName self) as [victim|] eqn:Hreg;
    [|exact Hst].
  set (st1 := Window.emit _ _).
  assert (H1 : registry_sound st1).
  { intros n x Hn. unfold st1 in Hn. simpl in Hn.
    apply lookup_delete_Some in Hn as [_ Hn]. exact (Hst n x Hn). }
  repeat case_decide; try exact H1. apply Hdrop, H1.
Qed.

Lemma finalize_sound (depth : nat) :
  forall (st : Window.State) (r : nat),
    registry_sound st -> registry_sound (Window.finalize depth st r).
Proof.
  induction depth as [|d IH]; intros st r Hst; simpl; [exact Hst|].
  destruct (Window.heap st !! r) as [self|] eqn:Hr; [|exact Hst].
  pose proof (del_unregister_sound (Window.finalize d) st r self IH Hst) as H1.
  pose proof (del_unregister_removes (Window.finalize d) st r self
                (finalize_shrinks d)) as Hgone.
  pose proof (del_unregister_shrinks (Window.finalize d) st r self
                (finalize_shrinks d)) as (_ & Hsub & _).
  set (st1 := Window.del_unregister _ _ _ _) in *.
  destruct (del_destroy_fields st1 self) as (Hreg & Hheap & _).
  intros n x Hn. simpl in *. rewrite Hreg in Hn. rewrite Hheap.
  destruct (H1 n x Hn) as (w & Hw & Hname).
  exists w. split; [|exact Hname].
  rewrite lookup_delete_ne; [exact Hw|].
  intros ->.
  pose proof (lookup_weaken _ _ _ _ Hw Hsub) as Hw'.
  rewrite Hr in Hw'. injection Hw' as <-.
  rewrite Hname in Hgone. congruence.
Qed.

Lemma extends_refl (st : Window.State) : extends st st.
Proof. exists []. symmetry. apply app_nil_r. Qed.


Lemma state_eta (st : Window.State) :
  {| Window.heap := Window.heap st; Window.registry := Window.registry st;
     Window.roots := Window.roots st; Window.host := Window.host st;
     Window.trace := Window.trace st |} = st.
Proof. destruct st. reflexivity. Qed.

Lemma state_ext (st st' : Window.State) :
  Window.heap st = Window.heap st' ->
  Window.registry st = Window.registry st' ->
  Window.roots st = Window.roots st' ->
  Window.host st = Window.host st' ->
  Window.trace st = Window.trace st' ->
  st = st'.
Proof. destruct st, st'. simpl. intros -> -> -> -> ->. reflexivity. Qed.





(** Once [__del__] has passed its first statement, no entry refers to
    the window that is being torn down. *)
Lemma del_unregister_forgets (drop : Window.State -> nat -> Window.State)
    (st : Window.State) (r : nat) (self : Window.t) :
  (forall s v, shrinks s (drop s v)) ->
  registry_sound st ->
  Window.heap st !! r = Some self ->
  forall n : string,
    Window.registry (Window.del_unregister drop st r self) !! n <> Some r.
Proof.
  intros Hdrop Hsound Hr n Hn.
  destruct (del_unregister_shrinks drop st r self Hdrop) as (Hsub & _).
  pose proof (lookup_weaken _ _ _ _ Hn Hsub) as Hn0.
  destruct (Hsound n r Hn0) as (w & Hw & Hname).
  rewrite Hr in Hw. injection Hw as <-.
  pose proof (del_unregister_removes drop st r self Hdrop) as Hgone.
  rewrite Hname in Hgone. congruence.
Qed.

(** The depth [__del__] allows is never used up: any larger one gives
    the same state. *)
Lemma finalize_depth (depth : nat) :
  forall (st : Window.State) (r : nat) (more : nat),
    (size (Window.registry st) < depth)%nat ->
    Window.finalize (depth + more) st r = Window.finalize depth st r.
Proof.
  induction depth as [|d IH]; intros st r more Hsize; [lia|].
  simpl. destruct (Window.heap st !! r) as [self|] eqn:Hr; [|reflexivity].
  assert (Hsame : Window.del_unregister (Window.finalize (d + more)) st r self
                  = Window.del_unregister (Window.finalize d) st r self).
  { unfold Window.del_unregister.
    destruct (Window.registry st !! Window._windowName self) as [victim|] eqn:Hreg;
      [|reflexivity].
    repeat case_decide; try reflexivity.
    apply IH. simpl.
    rewrite map_size_delete_Some by (rewrite Hreg; eauto).
    assert (size (Window.registry st) <> 0%nat)
      by (apply (map_size_ne_0_lookup_2 _ (Window._windowName self));
          rewrite Hreg; eauto).
    lia. }
  rewrite Hsame. reflexivity.
Qed.

Lemma Window_del_depth (st : Window.State) (r : nat) (more : nat) :
  Window.finalize (S (size (Window.registry st)) + more) st r = Window.__del__ st r.
Proof. unfold Window.__del__. apply finalize_depth. lia. Qed.

End Finalisation.

(** ** The registry refers to existing objects only *)

Section Soundness.

Lemma keeps_names_refl (st : Window.State) : keeps_names st st.
Proof. split; [reflexivity|]. intros r w Hw. exists w. done. Qed.

Lemma keeps_names_trans (st1 st2 st3 : Window.State) :
  keeps_names st1 st2 -> keeps_names st2 st3 -> keeps_names st1 st3.
Proof.
  intros [Hr1 Hh1] [Hr2 Hh2]. split; [congruence|].
  intros r w Hw. destruct (Hh1 r w Hw) as (w1 & Hw1 & Hn1).
  destruct (Hh2 r w1 Hw1) as (w2 & Hw2 & Hn2).
  exists w2. split; [exact Hw2 | congruence].
Qed.

Lemma keeps_names_sound (st st' : Window.State) :
  keeps_names st st' -> registry_sound st -> registry_sound st'.
Proof.
  intros [Hreg Hheap] Hst n r Hn. rewrite Hreg in Hn.
  destruct (Hst n r Hn) as (w & Hw & Hname).
  destruct (Hheap r w Hw) as (w' & Hw' & Hname').
  exists w'. split; [exact Hw' | congruence].
Qed.

(** Replacing an object by one of the same name. *)
Lemma keeps_names_store (st : Window.State) (r : nat) (w w' : Window.t) :
  Window.heap st !! r = Some w ->
  Window._windowName w' = Window._windowName w ->
  keeps_names st (Window.set_heap st (<[r := w']> (Window.heap st))).
Proof.
  intros Hw Hname. split; [reflexivity|].
  intros r0 w0 Hw0. simpl.
  destruct (decide (r = r0)) as [<-|Hne].
  - exists w'. rewrite lookup_insert_eq. split; [done | congruence].
  - exists w0. rewrite lookup_insert_ne by done. done.
Qed.

Lemma keeps_names_emit (st : Window.State) (es : list Effect) :
  keeps_names st (Window.emit st es).
Proof. split; [reflexivity|]. intros r w Hw. exists w. done. Qed.

Lemma keeps_names_host (st : Window.State) (h : highgui.Host) :
  keeps_names st (Window.set_host st h).
Proof. split; [reflexivity|]. intros r w Hw. exists w. done. Qed.

Lemma update_keeps_names (st : Window.State) (r : nat) :
  keeps_names st (Window.update st r).
Proof.
  unfold Window.update.
  destruct (Window.heap st !! r) as [self|] eqn:Hr; [|apply keeps_names_refl].
  destruct (negb _); [apply keeps_names_refl|].
  destruct (highgui.getWindowImageRect _ _) as [[cols rows]|];
    [|apply keeps_names_refl].
  cbv zeta.
  assert (H1 : keeps_names st
                 (Window.emit
                    (Window.set_heap st
                       (<[r := Window.set_mat self (Axes_render cols rows)]>
                          (Window.heap st)))
                    [AxesRender (Window.getAxes self) cols rows])).
  { eapply keeps_names_trans; [|apply keeps_names_emit].
    apply (keeps_names_store st r self); done. }
  destruct (0 <? mat_size _); [|exact H1].
  eapply keeps_names_trans; [exact H1|].
  eapply keeps_names_trans; [apply keeps_names_host | apply keeps_names_emit].
Qed.

Lemma update_size_keeps_names (st : Window.State) (r : nat) :
  keeps_names st (Window._update_size st r).
Proof.
  unfold Window._update_size.
  destruct (Window.heap st !! r) as [self|]; [|apply keeps_names_refl].
  destruct (negb _); [apply keeps_names_refl|].
  destruct (highgui.getWindowImageRect _ _) as [[cols rows]|];
    [|apply keeps_names_refl].
  cbv zeta. destruct (_ || _); [apply update_keeps_names | apply keeps_names_refl].
Qed.

Lemma setMouseEventHandler_keeps_names (st : Window.State) (r : nat)
    (h : MouseEventHandler) :
  keeps_names st (Window.setMouseEventHandler st r h).
Proof.
  unfold Window.setMouseEventHandler.
  destruct (Window.heap st !! r) as [self|] eqn:Hr; [|apply keeps_names_refl].
  apply (keeps_names_store st r self); done.
Qed.

Lemma callback_keeps_names (st : Window.State) (event x y flags : Z)
    (param : string) :
  keeps_names st (fst (Window._cvplot_mouse_callback st event x y flags param)).
Proof.
  unfold Window._cvplot_mouse_callback. cbv zeta.
  destruct (Window.registry st !! param) as [r|]; [|apply keeps_names_refl].
  pose proof (update_size_keeps_names st r) as H1.
  set (st1 := Window._update_size st r) in *.
  destruct (Window.heap st1 !! r) as [window|] eqn:Hr; [|exact H1].
  destruct (MouseAdapter.mouseEvent _ _) as [[[upd adapter] calls]|e];
    [|exact H1].
  cbn [fst].
  set (st2 := Window.emit _ calls).
  assert (H2 : keeps_names st st2).
  { eapply keeps_names_trans; [exact H1|].
    eapply keeps_names_trans; [|apply keeps_names_emit].
    apply (keeps_names_store st1 r window); done. }
  destruct upd; [|exact H2].
  eapply keeps_names_trans; [exact H2 | apply update_keeps_names].
Qed.

Lemma deliver_keeps_names (st : Window.State) (i : highgui.HostInput) :
  keeps_names st (Window.deliver st i).
Proof.
  destruct i as [w event x y flags | w | w cols rows]; simpl;
    try apply keeps_names_host.
  destruct (highgui.windows (Window.host st) !! w) as [hw|];
    [|apply keeps_names_refl].
  destruct (highgui.hw_callback hw); [|apply keeps_names_refl].
  apply callback_keeps_names.
Qed.

Lemma fold_keeps_names {A : Type} (f : Window.State -> A -> Window.State)
    (l : list A) :
  (forall st a, keeps_names st (f st a)) ->
  forall st, keeps_names st (fold_left f l st).
Proof.
  intros Hf. induction l as [|a l IH]; intros st; simpl;
    [apply keeps_names_refl|].
  eapply keeps_names_trans; [apply Hf | apply IH].
Qed.

Lemma cv2_waitKey_keeps_names (st : Window.State) :
  keeps_names st (snd (Window.cv2_waitKey st)).
Proof.
  unfold Window.cv2_waitKey.
  destruct (highgui.next_poll (Window.host st)) as [p h]. simpl.
  eapply keeps_names_trans; [apply (keeps_names_host st h)|].
  apply fold_keeps_names, deliver_keeps_names.
Qed.

Lemma waitKey_loop_keeps_names (fuel : nat) (windows : list nat) (delay : Z)
    (end_time : Q) :
  forall (st st' : Window.State) (key : Z),
    Window.waitKey_loop fuel windows delay end_time st = Some (key, st') ->
    keeps_names st st'.
Proof.
  induction fuel as [|fuel IH]; intros st st' key; simpl; [discriminate|].
  pose proof (cv2_waitKey_keeps_names st) as H1.
  destruct (Window.cv2_waitKey st) as [k st1]. simpl in H1.
  destruct (negb (k =? -1)); [intros [= _ <-]; exact H1|].
  destruct (_ && _); [intros [= _ <-]; exact H1|].
  destruct (forallb _ _); [intros [= _ <-]; exact H1|].
  intros Hloop. eapply keeps_names_trans; [exact H1|].
  eapply keeps_names_trans; [|exact (IH _ _ _ Hloop)].
  apply fold_keeps_names, update_size_keeps_names.
Qed.

Lemma registry_set_sound (st : Window.State) (name : string) (r : nat)
    (self : Window.t) :
  Window.heap st !! r = Some self ->
  Window._windowName self = name ->
  registry_sound st ->
  registry_sound (Window.registry_set st name r).
Proof.
  intros Hr Hname Hst. unfold Window.registry_set. cbv zeta.
  set (st1 := Window.emit _ _).
  assert (H1 : registry_sound st1).
  { intros n x Hn. unfold st1 in *. simpl in *.
    apply lookup_insert_Some in Hn as [[<- <-] | [_ Hn]].
    - exists self. done.
    - exact (Hst n x Hn). }
  destruct (Window.registry st !! name) as [o|]; [|exact H1].
  repeat case_decide; try exact H1.
  apply finalize_sound, H1.
Qed.

Lemma init_sound (st : Window.State) (name : string) (axes : AxesRef)
    (cols rows : Z) :
  registry_sound st ->
  registry_sound (snd (Window.__init__ st name axes cols rows)).
Proof.
  intros Hst. unfold Window.__init__. cbv zeta. simpl.
  set (r := fresh _).
  assert (Hfresh : Window.heap st !! r = None).
  { apply not_elem_of_dom. pose proof (is_fresh (dom (Window.heap st) ∪ Window.roots st)).
    fold r in H. set_solver. }
  eapply registry_set_sound.
  - simpl. apply lookup_insert_eq.
  - reflexivity.
  - intros n x Hn. simpl in *.
    assert (Hreg : Window.registry st !! n = Some x).
    { destruct (Window.is_valid_name (Window.host st) name); exact Hn. }
    destruct (Hst n x Hreg) as (w & Hw & Hnm).
    exists w. split; [|exact Hnm].
    assert (x <> r) by congruence.
    rewrite lookup_insert_ne by done.
    destruct (Window.is_valid_name (Window.host st) name); exact Hw.
Qed.

Lemma release_sound (st : Window.State) (r : nat) :
  registry_sound st -> registry_sound (Window.release st r).
Proof.
  intros Hst. unfold Window.release. cbv zeta. simpl.
  destruct (Window.heap st !! r) as [self|]; [|exact Hst].
  case_decide; [exact Hst|].
  apply finalize_sound. exact Hst.
Qed.

(** In every reachable state an entry of the registry refers to an object
    that exists, under the object's own name. *)
Lemma reachable_sound (st : Window.State) :
  reachable st -> registry_sound st.
Proof.
  induction 1 as [h | st name axes cols rows _ IH | st r _ IH | st r _ IH
                 | st r h _ IH | st _ IH | st st' fuel windows delay key _ IH Hwait].
  - intros n r Hn. simpl in Hn. rewrite lookup_empty in Hn. discriminate.
  - apply init_sound, IH.
  - apply release_sound, IH.
  - exact (keeps_names_sound _ _ (update_keeps_names st r) IH).
  - exact (keeps_names_sound _ _ (setMouseEventHandler_keeps_names st r h) IH).
  - exact (keeps_names_sound _ _ (cv2_waitKey_keeps_names st) IH).
  - exact (keeps_names_sound _ _ (waitKey_loop_keeps_names _ _ _ _ _ _ _ Hwait) IH).
Qed.

End Soundness.

(** ** Construction under a name in use *)

Section Replacement.






(** What happens when the caller has given up the first window before the
    second is built: the assignment to the registry drops the last
    reference to the first, whose [__del__] then removes the entry of the
    second and destroys the second's host window. *)
Remark unreferenced_first_takes_second_down :
  let r2 := fst second_W_unreferenced in
  let st := snd second_W_unreferenced in
  Window.registry st !! "W"%string = None
  /\ highgui.windows (Window.host st) !! "W"%string = None
  /\ Window.valid_ref st r2 = false
  /\ Window.trace st =
       Window.trace (snd first_W) ++
         [DestroyWindow "W"; NamedWindow "W"; ResizeWindow "W" 640 480;
          AxesRender 0%nat 640 480; Imshow "W" (Axes_render 640 480);
          SetMouseCallback "W" "W"; RegistrySet "W" r2;
          RegistryDel "W"; DestroyWindow "W"].
Proof.
  cbv zeta. repeat split; vm_compute; reflexivity.
Qed.

(** Two calls of [show] under one name: the first returns on a key press,
    the second builds its window, loses it to the [__del__] of the first,
    and its wait loop returns at once with nothing on the screen. *)
Remark second_show_shows_nothing :
  exists st1 st2 : Window.State,
    show 1 (start key_host) "CvPlot" 0%nat 640 480 = Some st1
    /\ Window.registry st1 !! "CvPlot"%string = Some 0%nat
    /\ is_Some (highgui.windows (Window.host st1) !! "CvPlot"%string)
    /\ show 1 st1 "CvPlot" 0%nat 640 480 = Some st2
    /\ Window.registry st2 = ∅
    /\ highgui.windows (Window.host st2) = ∅
    /\ Window.trace st2 =
         Window.trace st1 ++
           [DestroyWindow "CvPlot"; NamedWindow "CvPlot";
            ResizeWindow "CvPlot" 640 480; AxesRender 0%nat 640 480;
            Imshow "CvPlot" (Axes_render 640 480);
            SetMouseCallback "CvPlot" "CvPlot"; RegistrySet "CvPlot" 1;
            RegistryDel "CvPlot"; DestroyWindow "CvPlot"].
Proof.
  eexists _, _.
  split; [vm_compute; reflexivity|].
  split; [vm_compute; reflexivity|].
  split; [vm_compute; eauto|].
  split; [vm_compute; reflexivity|].
  repeat split; vm_compute; reflexivity.
Qed.

End Replacement.

(** ** Teardown *)

Section Teardown.

Lemma callback_unregistered (st : Window.State) (event x y flags : Z)
    (param : string) :
  Window.registry st !! param = None ->
  Window._cvplot_mouse_callback st event x y flags param = (st, Ret tt).
Proof.
  intros Hnone. unfold Window._cvplot_mouse_callback. cbv zeta.
  rewrite Hnone. reflexivity.
Qed.

(** C7, amended. [__del__] removes the window's entry before it asks the
    host to destroy the window: in the state in which the host call is
    made, and afterwards, no entry of the registry refers to the window
    being torn down, so the pointer callback resolves no name to it; if
    the entry under its name was its own, that entry is what the first
    statement removed, and the callback for that name does nothing.  In
    every reachable state an entry of the registry refers to an object
    that exists and carries the entry's name. *)
Theorem teardown_unregisters_before_destroy :
  (forall (st : Window.State) (r : nat) (self : Window.t),
     registry_sound st ->
     Window.heap st !! r = Some self ->
     let name := Window._windowName self in
     let st1 := Window.del_unregister
                  (Window.finalize (size (Window.registry st))) st r self in
     let st2 := Window.del_destroy st1 self in
     Window.__del__ st r = Window.set_heap st2 (delete r (Window.heap st2))
     /\ Window.trace (Window.__del__ st r) =
          Window.trace st1 ++
            (if Window.is_valid (Window.host st1) self
             then [DestroyWindow name] else [])
     /\ (forall n : string, Window.registry st1 !! n <> Some r)
     /\ (forall n : string, Window.registry (Window.__del__ st r) !! n <> Some r)
     /\ Window.heap (Window.__del__ st r) !! r = None
     /\ (Window.registry st !! name = Some r ->
         st1 = Window.emit
                 (Window.set_registry st (delete name (Window.registry st)))
                 [RegistryDel name]
         /\ Window.registry st1 !! name = None
         /\ forall event x y flags : Z,
              Window._cvplot_mouse_callback st1 event x y flags name
              = (st1, Ret tt)))
  /\ (forall st : Window.State,
        reachable st ->
        forall (name : string) (r : nat),
          Window.registry st !! name = Some r ->
          exists self : Window.t,
            Window.heap st !! r = Some self /\ Window._windowName self = name).
Proof.
  split.
  - intros st r self Hsound Hr name st1 st2.
    assert (Hforget : forall n : string, Window.registry st1 !! n <> Some r)
      by (apply del_unregister_forgets;
          [apply finalize_shrinks | exact Hsound | exact Hr]).
    assert (Hdel : Window.__del__ st r
                   = Window.set_heap st2 (delete r (Window.heap st2))).
    { unfold Window.__del__. simpl. rewrite Hr. reflexivity. }
    split; [exact Hdel|].
    split.
    { rewrite Hdel. unfold st2, Window.del_destroy.
      destruct (Window.is_valid (Window.host st1) self); simpl;
        [reflexivity | symmetry; apply app_nil_r]. }
    split; [exact Hforget|].
    split.
    { intros n. rewrite Hdel.
      destruct (del_destroy_fields st1 self) as (Hreg & _ & _).
      change (Window.registry (Window.set_heap st2 (delete r (Window.heap st2))))
        with (Window.registry (Window.del_destroy st1 self)).
      rewrite Hreg. apply Hforget. }
    split; [apply finalize_frees|].
    intros Hown.
    assert (Hst1 : st1 = Window.emit
                           (Window.set_registry st (delete name (Window.registry st)))
                           [RegistryDel name]).
    { unfold st1, Window.del_unregister. fold name. rewrite Hown.
      rewrite decide_True by reflexivity. reflexivity. }
    assert (Hgone : Window.registry st1 !! name = None)
      by (rewrite Hst1; simpl; apply lookup_delete_eq).
    split; [exact Hst1|]. split; [exact Hgone|].
    intros. apply callback_unregistered, Hgone.
  - intros st Hst. exact (reachable_sound st Hst).
Qed.

Lemma teardown_unregisters_before_destroy_witness :
  let st := snd first_W in
  let self := Window.mk "W" 480 640 (MouseAdapter.__init__ 0%nat) (Axes_render 640 480) in
  Window.trace (Window.__del__ st 0%nat) =
    Window.trace st ++ [RegistryDel "W"; DestroyWindow "W"]
  /\ (forall n : string, Window.registry (Window.__del__ st 0%nat) !! n <> Some 0%nat)
  /\ exists w : Window.t,
       Window.heap st !! 0%nat = Some w /\ Window._windowName w = "W"%string.
Proof.
  pose proof (proj2 teardown_unregisters_before_destroy (snd first_W)
                (reach_init _ "W" 0%nat 640 480 (reach_start (quiet_host false))))
    as Hsound.
  pose proof (proj1 teardown_unregisters_before_destroy (snd first_W) 0%nat
                (Window.mk "W" 480 640 (MouseAdapter.__init__ 0%nat) (Axes_render 640 480))
                Hsound eq_refl) as (_ & Htrace & _ & Hgone & _).
  split; [|split].
  - rewrite Htrace. reflexivity.
  - exact Hgone.
  - exact (Hsound "W"%string 0%nat eq_refl).
Defined.

(** C7, as stated, fails in its second half.  After a second construction
    under the same name the first object is alive and has no entry; and
    when the user closes the host window the entry stays although [valid]
    answers false. *)
Lemma registry_entry_not_exactly_while_alive :
  let first := Window.mk "W" 480 640 (MouseAdapter.__init__ 0%nat) (Axes_render 640 480) in
  (reachable (snd second_W)
   /\ Window.heap (snd second_W) !! fst first_W = Some first
   /\ Window.registry (snd second_W) !! Window._windowName first
        <> Some (fst first_W))
  /\ (reachable closed_by_user
      /\ Window.heap closed_by_user !! 0%nat = Some first
      /\ Window.registry closed_by_user !! Window._windowName first = Some 0%nat
      /\ Window.valid (Window.host closed_by_user) first = Ret false).
Proof.
  cbv zeta. split.
  - split; [|split].
    + apply reach_init, reach_init, reach_start.
    + vm_compute. reflexivity.
    + vm_compute. discriminate.
  - split; [|repeat split; vm_compute; reflexivity].
    apply reach_poll, reach_init, reach_start.
Qed.

End Teardown.

(** * More on the interaction controller *)

Section ControllerMore.

(** A double click of the right button. *)
Theorem double_click_autoscales (self : MouseAdapter.t) (ev : MouseEvent.t) :
  MouseEvent.event ev = cv2.EVENT_RBUTTONDBLCLK ->
  MouseAdapter.mouseEvent self ev =
    Ret (true, self,
         AxesSetXLimAuto (MouseAdapter._axes self)
           :: AxesSetYLimAuto (MouseAdapter._axes self)
           :: user_calls self ev).
Proof.
  intros Hk.
  rewrite (mouseEvent_parts _ _ _ _ _ (handle_event_double_click self ev Hk)).
  reflexivity.
Qed.

Lemma double_click_autoscales_witness :
  MouseAdapter.mouseEvent
    (MouseAdapter.set_press_last (MouseAdapter.__init__ 2%nat) (10, 20))
    (MouseEvent.mk 9%nat (640, 480) cv2.EVENT_RBUTTONDBLCLK 1 1 0) =
    Ret (true, MouseAdapter.set_press_last (MouseAdapter.__init__ 2%nat) (10, 20),
         [AxesSetXLimAuto 2%nat; AxesSetYLimAuto 2%nat]).
Proof.
  exact (double_click_autoscales
           (MouseAdapter.set_press_last (MouseAdapter.__init__ 2%nat) (10, 20))
           (MouseEvent.mk 9%nat (640, 480) cv2.EVENT_RBUTTONDBLCLK 1 1 0)
           eq_refl).
Defined.

(** A press of the middle or of the right button. *)
Theorem press_records_both_positions (self : MouseAdapter.t) (ev : MouseEvent.t) :
  MouseEvent.event ev = cv2.EVENT_MBUTTONDOWN
  \/ MouseEvent.event ev = cv2.EVENT_RBUTTONDOWN ->
  MouseAdapter.mouseEvent self ev =
    Ret (true, MouseAdapter.set_press_last self (MouseEvent.outerPoint ev),
         user_calls self ev)
  /\ MouseAdapter._pressPosPix (after_dispatch self ev) = MouseEvent.outerPoint ev
  /\ MouseAdapter._lastPosPix (after_dispatch self ev) = MouseEvent.outerPoint ev.
Proof.
  intros Hk. unfold after_dispatch.
  rewrite (mouseEvent_parts _ _ _ _ _ (handle_event_button_down self ev Hk)).
  repeat split.
Qed.

Lemma press_records_both_positions_witness :
  MouseAdapter._pressPosPix
    (after_dispatch (MouseAdapter.__init__ 0%nat)
       (MouseEvent.mk 0%nat (640, 480) cv2.EVENT_MBUTTONDOWN 12 34 0)) = (12, 34).
Proof.
  exact (proj1 (proj2 (press_records_both_positions (MouseAdapter.__init__ 0%nat)
                         (MouseEvent.mk 0%nat (640, 480) cv2.EVENT_MBUTTONDOWN 12 34 0)
                         (or_introl eq_refl)))).
Defined.

(** With both buttons down a move pans and does not zoom. *)
Theorem middle_button_wins_over_right (self : MouseAdapter.t) (ev : MouseEvent.t) :
  is_move ev ->
  button_down ev cv2.EVENT_FLAG_MBUTTON = true ->
  button_down ev cv2.EVENT_FLAG_RBUTTON = true ->
  calls_of (MouseAdapter._handle_event self ev) =
    [AxesPan (MouseAdapter._axes self) (MouseEvent.renderSize ev) (delta_pix self ev)]
  /\ zoom_anchors (calls_of (MouseAdapter.mouseEvent self ev)) = [].
Proof.
  intros Hmove Hmid _.
  rewrite (mouseEvent_parts _ _ _ _ _ (handle_event_move_middle self ev Hmove Hmid)).
  rewrite (handle_event_move_middle self ev Hmove Hmid).
  split; [reflexivity|]. unfold user_calls. simpl.
  destruct (MouseAdapter._mouseEventHandler self); reflexivity.
Qed.

Lemma middle_button_wins_over_right_witness :
  calls_of (MouseAdapter._handle_event (MouseAdapter.__init__ 0%nat)
              (MouseEvent.mk 0%nat (640, 480) cv2.EVENT_MOUSEMOVE 3 4 6)) =
    [AxesPan 0%nat (640, 480) (3, 4)].
Proof.
  exact (proj1 (middle_button_wins_over_right (MouseAdapter.__init__ 0%nat)
                  (MouseEvent.mk 0%nat (640, 480) cv2.EVENT_MOUSEMOVE 3 4 6)
                  eq_refl eq_refl eq_refl)).
Defined.

(** Events of a kind the built-in handler has no branch for. *)
Theorem other_kinds_reach_user_handler_only (self : MouseAdapter.t)
    (ev : MouseEvent.t) :
  builtin_kind ev = false ->
  MouseAdapter.mouseEvent self ev =
    Ret (user_answer self ev, self, user_calls self ev).
Proof.
  intros Hk.
  rewrite (mouseEvent_parts _ _ _ _ _ (handle_event_other_kind self ev Hk)).
  reflexivity.
Qed.

Lemma other_kinds_reach_user_handler_only_witness :
  MouseAdapter.mouseEvent (MouseAdapter.__init__ 0%nat)
    (MouseEvent.mk 0%nat (640, 480) cv2.EVENT_LBUTTONDOWN 3 4 1) =
    Ret (false, MouseAdapter.__init__ 0%nat, []).
Proof.
  exact (other_kinds_reach_user_handler_only (MouseAdapter.__init__ 0%nat)
           (MouseEvent.mk 0%nat (640, 480) cv2.EVENT_LBUTTONDOWN 3 4 1) eq_refl).
Defined.

(** The controller's state changes on presses and drags only: every other
    event, wheel and double click included, leaves it as it was, and so
    does every event on which the built-in handler raises; a press, and a
    drag whose zoom factors are in range, make the event's outer point the
    last position. *)
Theorem state_changes_on_press_and_drag_only (self : MouseAdapter.t)
    (ev : MouseEvent.t) :
  (moves_positions ev = false -> after_dispatch self ev = self)
  /\ (moves_positions ev = true ->
      pow_in_range self ev ->
      MouseAdapter._lastPosPix (after_dispatch self ev) = MouseEvent.outerPoint ev)
  /\ (~ pow_in_range self ev ->
      MouseAdapter.mouseEvent self ev = Raise OverflowError
      /\ after_dispatch self ev = self).
Proof.
  assert (Hraise : ~ pow_in_range self ev ->
                   MouseAdapter.mouseEvent self ev = Raise OverflowError
                   /\ after_dispatch self ev = self).
  { intros Hout. unfold after_dispatch.
    destruct (handle_event_outcome self ev)
      as [(b & self1 & calls & H & _) | [H _]].
    - exfalso. apply Hout. split.
      + intros (Hm & Hmid & Hr).
        destruct (zoom_in_range_dec self ev) as [Hin|Hno]; [exact Hin|].
        rewrite (handle_event_move_right_overflow self ev Hm Hmid Hr Hno) in H.
        discriminate.
      + intros Hw.
        destruct (wheel_in_range_dec ev) as [Hin|Hno]; [exact Hin|].
        rewrite (handle_event_wheel_overflow self ev Hw Hno) in H.
        discriminate.
    - rewrite (mouseEvent_raises self ev _ H). split; reflexivity. }
  split; [|split; [|exact Hraise]].
  - intros Hstay. unfold after_dispatch.
    destruct (handle_event_outcome self ev)
      as [(b & self1 & calls & H & _) | [H _]];
      [|rewrite (mouseEvent_raises self ev _ H); reflexivity].
    rewrite (mouseEvent_parts self ev b self1 calls H).
    unfold moves_positions in Hstay.
    destruct (handle_event_cases self ev)
      as [Hk | [[Hm Hmid] | [(Hm & Hmid & Hr) | [(Hm & Hmid & Hr) | [Hk | [Hk | Hk]]]]]].
    + destruct Hk as [Hk | Hk]; rewrite Hk in Hstay; discriminate.
    + unfold is_move in Hm. rewrite Hm, Hmid in Hstay. discriminate.
    + unfold is_move in Hm. rewrite Hm, Hmid, Hr in Hstay. discriminate.
    + rewrite (handle_event_move_idle self ev Hm Hmid Hr) in H. congruence.
    + rewrite (handle_event_double_click self ev Hk) in H. congruence.
    + destruct (wheel_in_range_dec ev) as [Hin|Hno].
      * rewrite (handle_event_wheel self ev Hk Hin) in H. congruence.
      * rewrite (handle_event_wheel_overflow self ev Hk Hno) in H. discriminate.
    + rewrite (handle_event_other_kind self ev Hk) in H. congruence.
  - intros Hmoves [Hzoom _]. unfold after_dispatch.
    unfold moves_positions in Hmoves.
    destruct (handle_event_cases self ev)
      as [Hk | [[Hm Hmid] | [(Hm & Hmid & Hr) | [(Hm & Hmid & Hr) | [Hk | [Hk | Hk]]]]]].
    + rewrite (mouseEvent_parts _ _ _ _ _ (handle_event_button_down self ev Hk)).
      reflexivity.
    + rewrite (mouseEvent_parts _ _ _ _ _ (handle_event_move_middle self ev Hm Hmid)).
      reflexivity.
    + rewrite (mouseEvent_parts _ _ _ _ _
                 (handle_event_move_right self ev Hm Hmid Hr
                    (Hzoom (conj Hm (conj Hmid Hr))))).
      reflexivity.
    + unfold is_move in Hm. rewrite Hm, Hmid, Hr in Hmoves. discriminate.
    + rewrite Hk in Hmoves. discriminate.
    + unfold is_wheel in Hk. rewrite Hk in Hmoves. discriminate.
    + unfold builtin_kind in Hk.
      repeat (apply orb_false_elim in Hk as [Hk ?]).
      unfold MouseEvent.event in *.
      repeat match goal with
             | Hc : ?c = false |- _ => rewrite Hc in Hmoves
             end.
      discriminate.
Qed.

Lemma state_changes_on_press_and_drag_only_witness :
  let self := MouseAdapter.set_press_last (MouseAdapter.__init__ 0%nat) (10, 20) in
  after_dispatch self
    (MouseEvent.mk 0%nat (640, 480) cv2.EVENT_MOUSEWHEEL 300 200 7864320) = self
  /\ MouseAdapter._lastPosPix
       (after_dispatch self
          (MouseEvent.mk 0%nat (640, 480) cv2.EVENT_MOUSEMOVE 300 200 2)) = (300, 200)
  /\ MouseAdapter.mouseEvent self
       (MouseEvent.mk 0%nat (640, 480) cv2.EVENT_MOUSEWHEEL 300 200 (-7864320))
     = Raise OverflowError.
Proof.
  split; [|split].
  - exact (proj1 (state_changes_on_press_and_drag_only
                    (MouseAdapter.set_press_last (MouseAdapter.__init__ 0%nat) (10, 20))
                    (MouseEvent.mk 0%nat (640, 480) cv2.EVENT_MOUSEWHEEL 300 200 7864320))
             eq_refl).
  - refine (proj1 (proj2 (state_changes_on_press_and_drag_only
                    (MouseAdapter.set_press_last (MouseAdapter.__init__ 0%nat) (10, 20))
                    (MouseEvent.mk 0%nat (640, 480) cv2.EVENT_MOUSEMOVE 300 200 2)))
              eq_refl _).
    split.
    + intros _. split; split; vm_compute; reflexivity.
    + intros Hw. discriminate Hw.
  - refine (proj1 (proj2 (proj2 (state_changes_on_press_and_drag_only
                    (MouseAdapter.set_press_last (MouseAdapter.__init__ 0%nat) (10, 20))
                    (MouseEvent.mk 0%nat (640, 480) cv2.EVENT_MOUSEWHEEL 300 200
                       (-7864320)))) _)).
    intros [_ Hw]. destruct (Hw eq_refl) as [Hlow _].
    vm_compute in Hlow. apply Hlow. reflexivity.
Defined.

Lemma mouseEvent_outcome (self : MouseAdapter.t) (ev : MouseEvent.t) :
  (exists (b : bool) (self1 : MouseAdapter.t) (calls : list Effect),
     MouseAdapter._handle_event self ev = Ret (b, self1, calls)
     /\ MouseAdapter.mouseEvent self ev =
          Ret (b || user_answer self ev, self1, calls ++ user_calls self ev)
     /\ after_dispatch self ev = self1
     /\ MouseAdapter._mouseEventHandler self1 = MouseAdapter._mouseEventHandler self
     /\ MouseAdapter._axes self1 = MouseAdapter._axes self
     /\ Forall (fun e => axes_target e = Some (MouseAdapter._axes self)) calls)
  \/ (MouseAdapter.mouseEvent self ev = Raise OverflowError
      /\ after_dispatch self ev = self
      /\ ~ pow_in_range self ev).
Proof.
  unfold after_dispatch.
  destruct (handle_event_outcome self ev)
    as [(b & self1 & calls & H & Hh & Hax & Hcalls) | [H Hout]].
  - left. exists b, self1, calls.
    rewrite (mouseEvent_parts self ev b self1 calls H). repeat split; assumption.
  - right. rewrite (mouseEvent_raises self ev _ H). repeat split. exact Hout.
Qed.

Lemma mouseEvent_keeps_binding (self : MouseAdapter.t) (ev : MouseEvent.t) :
  MouseAdapter._axes (after_dispatch self ev) = MouseAdapter._axes self
  /\ MouseAdapter._mouseEventHandler (after_dispatch self ev)
     = MouseAdapter._mouseEventHandler self.
Proof.
  destruct (mouseEvent_outcome self ev)
    as [(b & self1 & calls & _ & _ & -> & Hh & Hax & _) | (_ & -> & _)];
    split; congruence.
Qed.

Lemma mouseEvent_targets (self : MouseAdapter.t) (ev : MouseEvent.t) :
  Forall (fun e => axes_target e = None
                   \/ axes_target e = Some (MouseAdapter._axes self))
         (calls_of (MouseAdapter.mouseEvent self ev)).
Proof.
  destruct (mouseEvent_outcome self ev)
    as [(b & self1 & calls & _ & -> & _ & _ & _ & Hcalls) | (-> & _)];
    [|constructor].
  cbn [calls_of]. apply Forall_app. split.
  - eapply Forall_impl; [exact Hcalls|]. intros e He. right. exact He.
  - unfold user_calls. destruct (MouseAdapter._mouseEventHandler self);
      repeat constructor.
Qed.

Lemma dispatch_all_cons (self : MouseAdapter.t) (ev : MouseEvent.t)
    (rest : list MouseEvent.t) :
  dispatch_all self (ev :: rest) =
    (fst (dispatch_all (after_dispatch self ev) rest),
     calls_of (MouseAdapter.mouseEvent self ev)
       ++ snd (dispatch_all (after_dispatch self ev) rest)).
Proof.
  simpl. destruct (dispatch_all (after_dispatch self ev) rest) as [self2 calls2].
  reflexivity.
Qed.

(** Whatever events arrive, the controller stays bound to its axes and
    keeps its user handler, and every call it makes on an axes object goes
    to the axes it is bound to (the event's own [axes] is not used). *)
Theorem calls_go_to_bound_axes (evs : list MouseEvent.t) :
  forall self : MouseAdapter.t,
    MouseAdapter._axes (fst (dispatch_all self evs)) = MouseAdapter._axes self
    /\ MouseAdapter._mouseEventHandler (fst (dispatch_all self evs))
       = MouseAdapter._mouseEventHandler self
    /\ Forall (fun e => axes_target e = None
                        \/ axes_target e = Some (MouseAdapter._axes self))
              (snd (dispatch_all self evs)).
Proof.
  induction evs as [|ev rest IH]; intros self.
  - simpl. repeat split. constructor.
  - rewrite dispatch_all_cons. cbn [fst snd].
    destruct (IH (after_dispatch self ev)) as (Hax & Hh & Hcalls).
    destruct (mouseEvent_keeps_binding self ev) as [Hax1 Hh1].
    split; [congruence|]. split; [congruence|].
    apply Forall_app. split.
    + apply mouseEvent_targets.
    + rewrite Hax1 in Hcalls. exact Hcalls.
Qed.

Lemma pan_total_user_calls (self : MouseAdapter.t) (ev : MouseEvent.t)
    (rest : list Effect) :
  pan_total (user_calls self ev ++ rest) = pan_total rest.
Proof.
  unfold user_calls. destruct (MouseAdapter._mouseEventHandler self); reflexivity.
Qed.

Lemma zoom_anchors_user_calls (self : MouseAdapter.t) (ev : MouseEvent.t)
    (rest : list Effect) :
  zoom_anchors (user_calls self ev ++ rest) = zoom_anchors rest.
Proof.
  unfold user_calls. destruct (MouseAdapter._mouseEventHandler self); reflexivity.
Qed.

Lemma zoom_total_user_calls (self : MouseAdapter.t) (ev : MouseEvent.t)
    (rest : list Effect) :
  zoom_total (user_calls self ev ++ rest) = zoom_total rest.
Proof.
  unfold user_calls. destruct (MouseAdapter._mouseEventHandler self); reflexivity.
Qed.

(** Over a middle drag of any number of moves the [pan] calls add up to
    the distance from the last position before the drag to the last
    position after it, which is the outer point of the last move. *)
Theorem drag_pans_add_up (evs : list MouseEvent.t) :
  forall self : MouseAdapter.t,
    Forall is_middle_drag evs ->
    let done := dispatch_all self evs in
    pan_total (snd done) =
      (fst (MouseAdapter._lastPosPix (fst done)) - fst (MouseAdapter._lastPosPix self),
       snd (MouseAdapter._lastPosPix (fst done)) - snd (MouseAdapter._lastPosPix self))
    /\ (forall ev : MouseEvent.t,
          last evs = Some ev ->
          MouseAdapter._lastPosPix (fst done) = MouseEvent.outerPoint ev).
Proof.
  induction evs as [|ev rest IH]; intros self Hall; cbv zeta.
  - simpl. split; [f_equal; lia | discriminate].
  - apply Forall_cons in Hall as [[Hm Hmid] Hrest].
    rewrite dispatch_all_cons.
    assert (Hafter : after_dispatch self ev
                     = MouseAdapter.set_last self (MouseEvent.outerPoint ev)).
    { unfold after_dispatch.
      rewrite (mouseEvent_parts _ _ _ _ _ (handle_event_move_middle self ev Hm Hmid)).
      reflexivity. }
    rewrite (mouseEvent_parts _ _ _ _ _ (handle_event_move_middle self ev Hm Hmid)).
    rewrite Hafter. cbn [fst snd calls_of].
    destruct (IH (MouseAdapter.set_last self (MouseEvent.outerPoint ev)) Hrest)
      as [Hsum Hlast].
    split.
    + cbn [app pan_total]. rewrite pan_total_user_calls, Hsum.
      generalize (MouseAdapter._lastPosPix
                    (fst (dispatch_all
                            (MouseAdapter.set_last self (MouseEvent.outerPoint ev))
                            rest))).
      intros [lx ly]. unfold delta_pix, MouseEvent.outerPoint, MouseEvent.x, MouseEvent.y.
      cbn [fst snd MouseAdapter._lastPosPix MouseAdapter.set_last].
      f_equal; lia.
    + intros ev' Hev'. destruct rest as [|ev2 rest'].
      * simpl in Hev'. injection Hev' as <-. reflexivity.
      * apply Hlast. exact Hev'.
Qed.

Lemma drag_pans_add_up_witness :
  let self := MouseAdapter.set_press_last (MouseAdapter.__init__ 0%nat) (100, 100) in
  let evs := [MouseEvent.mk 0%nat (640, 480) cv2.EVENT_MOUSEMOVE 110 90 4;
              MouseEvent.mk 0%nat (640, 480) cv2.EVENT_MOUSEMOVE 150 60 4;
              MouseEvent.mk 0%nat (640, 480) cv2.EVENT_MOUSEMOVE 130 130 4] in
  pan_total (snd (dispatch_all self evs)) = (130 - 100, 130 - 100).
Proof.
  refine (proj1 (drag_pans_add_up
                   [MouseEvent.mk 0%nat (640, 480) cv2.EVENT_MOUSEMOVE 110 90 4;
                    MouseEvent.mk 0%nat (640, 480) cv2.EVENT_MOUSEMOVE 150 60 4;
                    MouseEvent.mk 0%nat (640, 480) cv2.EVENT_MOUSEMOVE 130 130 4]
                   (MouseAdapter.set_press_last (MouseAdapter.__init__ 0%nat) (100, 100))
                   _)).
  repeat (constructor; [split; reflexivity|]). constructor.
Defined.

(** Moves never change the press position, so every [zoom] of a drag, however
    long, is anchored where the button went down. *)
Theorem drag_zooms_keep_press_anchor (evs : list MouseEvent.t) :
  forall self : MouseAdapter.t,
    Forall is_move evs ->
    MouseAdapter._pressPosPix (fst (dispatch_all self evs))
    = MouseAdapter._pressPosPix self
    /\ Forall (fun anchor => anchor = MouseAdapter._pressPosPix self)
              (zoom_anchors (snd (dispatch_all self evs))).
Proof.
  induction evs as [|ev rest IH]; intros self Hall.
  - simpl. split; [reflexivity | constructor].
  - apply Forall_cons in Hall as [Hm Hrest].
    rewrite dispatch_all_cons. cbn [fst snd].
    destruct (IH (after_dispatch self ev) Hrest) as [Hpress Hanchors].
    assert (Hstep :
      MouseAdapter._pressPosPix (after_dispatch self ev) = MouseAdapter._pressPosPix self
      /\ forall tail,
           zoom_anchors (calls_of (MouseAdapter.mouseEvent self ev) ++ tail)
           = zoom_anchors tail
           \/ zoom_anchors (calls_of (MouseAdapter.mouseEvent self ev) ++ tail)
              = MouseAdapter._pressPosPix self :: zoom_anchors tail).
    { unfold after_dispatch.
      destruct (button_down ev cv2.EVENT_FLAG_MBUTTON) eqn:Hmid;
        [|destruct (button_down ev cv2.EVENT_FLAG_RBUTTON) eqn:Hr;
          [destruct (zoom_in_range_dec self ev) as [Hin|Hout]|]].
      - rewrite (mouseEvent_parts _ _ _ _ _ (handle_event_move_middle self ev Hm Hmid)).
        split; [reflexivity|]. intros tail. left.
        cbn [calls_of app zoom_anchors]. apply zoom_anchors_user_calls.
      - rewrite (mouseEvent_parts _ _ _ _ _
                   (handle_event_move_right self ev Hm Hmid Hr Hin)).
        split; [reflexivity|]. intros tail. right.
        cbn [calls_of app zoom_anchors]. rewrite zoom_anchors_user_calls. reflexivity.
      - rewrite (mouseEvent_raises _ _ _
                   (handle_event_move_right_overflow self ev Hm Hmid Hr Hout)).
        split; [reflexivity|]. intros tail. left. reflexivity.
      - rewrite (mouseEvent_parts _ _ _ _ _ (handle_event_move_idle self ev Hm Hmid Hr)).
        split; [reflexivity|]. intros tail. left.
        cbn [calls_of app]. apply zoom_anchors_user_calls. }
    destruct Hstep as [Hpress1 Hcalls].
    rewrite Hpress1 in Hpress, Hanchors.
    split; [exact Hpress|].
    destruct (Hcalls (snd (dispatch_all (after_dispatch self ev) rest))) as [-> | ->].
    + exact Hanchors.
    + constructor; [reflexivity | exact Hanchors].
Qed.

Lemma drag_zooms_keep_press_anchor_witness :
  let self := MouseAdapter.set_press_last (MouseAdapter.__init__ 0%nat) (200, 150) in
  let evs := [MouseEvent.mk 0%nat (640, 480) cv2.EVENT_MOUSEMOVE 150 150 2;
              MouseEvent.mk 0%nat (640, 480) cv2.EVENT_MOUSEMOVE 120 170 2] in
  Forall (fun anchor => anchor = (200, 150))
         (zoom_anchors (snd (dispatch_all self evs))).
Proof.
  refine (proj2 (drag_zooms_keep_press_anchor
                   [MouseEvent.mk 0%nat (640, 480) cv2.EVENT_MOUSEMOVE 150 150 2;
                    MouseEvent.mk 0%nat (640, 480) cv2.EVENT_MOUSEMOVE 120 170 2]
                   (MouseAdapter.set_press_last (MouseAdapter.__init__ 0%nat) (200, 150))
                   _)).
  repeat (constructor; [reflexivity|]). constructor.
Defined.

(** Over a right drag of any number of moves, each of less than 102400
    pixels horizontally and vertically, every move is zoomed and the exact
    values of the scales of the [zoom] calls multiply to 2^(-dx/100) and
    2^(dy/100), (dx, dy) being the distance from the last position before
    the drag to the one after it: the path of the drag does not matter. *)
Theorem drag_zooms_multiply (evs : list MouseEvent.t) :
  forall self : MouseAdapter.t,
    Forall is_right_drag evs ->
    short_steps (MouseAdapter._lastPosPix self) evs ->
    let done := dispatch_all self evs in
    let dx := fst (MouseAdapter._lastPosPix (fst done))
              - fst (MouseAdapter._lastPosPix self) in
    let dy := snd (MouseAdapter._lastPosPix (fst done))
              - snd (MouseAdapter._lastPosPix self) in
    zoom_total (snd done) = (Rpower 2 (- IZR dx / 100), Rpower 2 (IZR dy / 100))
    /\ length (zoom_anchors (snd done)) = length evs
    /\ (forall ev : MouseEvent.t,
          last evs = Some ev ->
          MouseAdapter._lastPosPix (fst done) = MouseEvent.outerPoint ev).
Proof.
  induction evs as [|ev rest IH]; intros self Hall Hshort; cbv zeta.
  - simpl. rewrite !Z.sub_diag. split; [|split; [reflexivity | discriminate]].
    f_equal; symmetry.
    + replace (- 0 / 100)%R with 0%R by lra. apply Rpower_O. lra.
    + replace (0 / 100)%R with 0%R by lra. apply Rpower_O. lra.
  - apply Forall_cons in Hall as [(Hm & Hmid & Hr) Hrest].
    destruct Hshort as [[Hx Hy] Hshort].
    assert (Hin : zoom_in_range self ev).
    { pose proof float_max_int_large. unfold zoom_in_range, delta_pix.
      cbn [fst snd]. lia. }
    rewrite dispatch_all_cons.
    assert (Hafter : after_dispatch self ev
                     = MouseAdapter.set_last self (MouseEvent.outerPoint ev)).
    { unfold after_dispatch.
      rewrite (mouseEvent_parts _ _ _ _ _
                 (handle_event_move_right self ev Hm Hmid Hr Hin)).
      reflexivity. }
    rewrite (mouseEvent_parts _ _ _ _ _
               (handle_event_move_right self ev Hm Hmid Hr Hin)).
    rewrite Hafter. cbn [fst snd calls_of app zoom_total zoom_anchors].
    rewrite zoom_total_user_calls, zoom_anchors_user_calls.
    destruct (IH (MouseAdapter.set_last self (MouseEvent.outerPoint ev)) Hrest Hshort)
      as (Hprod & Hcount & Hlast).
    split; [|split].
    + rewrite Hprod.
      generalize (MouseAdapter._lastPosPix
                    (fst (dispatch_all
                            (MouseAdapter.set_last self (MouseEvent.outerPoint ev))
                            rest))).
      intros [lx ly]. rewrite !float_value_pow2.
      unfold delta_pix, MouseEvent.outerPoint, MouseEvent.x, MouseEvent.y.
      cbn [fst snd MouseAdapter._lastPosPix MouseAdapter.set_last].
      rewrite <- !Rpower_plus. f_equal; f_equal.
      * rewrite !opp_IZR, !minus_IZR. lra.
      * rewrite !minus_IZR. lra.
    + cbn [length]. rewrite Hcount. reflexivity.
    + intros ev' Hev'. destruct rest as [|ev2 rest'].
      * simpl in Hev'. injection Hev' as <-. reflexivity.
      * apply Hlast. exact Hev'.
Qed.

Lemma drag_zooms_multiply_witness :
  let self := MouseAdapter.set_press_last (MouseAdapter.__init__ 0%nat) (200, 150) in
  let evs := [MouseEvent.mk 0%nat (640, 480) cv2.EVENT_MOUSEMOVE 150 150 2;
              MouseEvent.mk 0%nat (640, 480) cv2.EVENT_MOUSEMOVE 120 170 2] in
  zoom_total (snd (dispatch_all self evs)) =
    (Rpower 2 (- IZR (120 - 200) / 100), Rpower 2 (IZR (170 - 150) / 100)).
Proof.
  refine (proj1 (drag_zooms_multiply
                   [MouseEvent.mk 0%nat (640, 480) cv2.EVENT_MOUSEMOVE 150 150 2;
                    MouseEvent.mk 0%nat (640, 480) cv2.EVENT_MOUSEMOVE 120 170 2]
                   (MouseAdapter.set_press_last (MouseAdapter.__init__ 0%nat) (200, 150))
                   _ _)).
  - repeat (constructor; [repeat split; reflexivity|]). constructor.
  - repeat split; vm_compute; reflexivity.
Defined.

(** The wheel zoom rounds the flags word down to whole multiples of 120:
    with [flags = 120 * k + r] and [0 <= r < 120] the exponent is -k.  For
    -3894 < k both scales are 1.2^(-k), so a word from 0 to 119 zooms by 1,
    while a word from -120 to -1 zooms by 1.2; for k <= -3894 the power
    is out of range, [math.pow] raises [OverflowError] and nothing is
    zoomed. *)
Theorem wheel_rounds_flags_down (self : MouseAdapter.t) (ev : MouseEvent.t)
    (k r : Z) :
  is_wheel ev ->
  MouseEvent.flags ev = 120 * k + r ->
  0 <= r < 120 ->
  (- 3894 < k < float_max_int ->
   exists scale : pyfloat,
     MouseAdapter.mouseEvent self ev =
       Ret (true, self,
            AxesZoom (MouseAdapter._axes self) (MouseEvent.renderSize ev)
                     (MouseEvent.outerPoint ev) scale scale
              :: user_calls self ev)
     /\ float_value scale = Rpower (12 / 10) (- IZR k))
  /\ (k <= - 3894 ->
      MouseAdapter.mouseEvent self ev = Raise OverflowError
      /\ after_dispatch self ev = self).
Proof.
  intros Hw Hflags Hr.
  assert (Hdiv : MouseEvent.flags ev / 120 = k).
  { rewrite Hflags. symmetry. apply (Z.div_unique_pos _ 120 k r); lia. }
  split.
  - intros Hk.
    assert (Hin : wheel_in_range ev) by (unfold wheel_in_range; lia).
    exists (Pow (12 # 10) (inject_Z (- k))).
    rewrite (mouseEvent_parts _ _ _ _ _ (handle_event_wheel self ev Hw Hin)).
    rewrite Hdiv. split; [reflexivity|].
    rewrite float_value_pow12, opp_IZR. reflexivity.
  - intros Hk.
    assert (Hout : ~ wheel_in_range ev) by (unfold wheel_in_range; lia).
    unfold after_dispatch.
    rewrite (mouseEvent_raises _ _ _ (handle_event_wheel_overflow self ev Hw Hout)).
    split; reflexivity.
Qed.

Lemma wheel_rounds_flags_down_witness :
  (exists scale : pyfloat,
     MouseAdapter.mouseEvent (MouseAdapter.__init__ 0%nat)
       (MouseEvent.mk 0%nat (640, 480) cv2.EVENT_MOUSEWHEEL 5 6 (-1)) =
       Ret (true, MouseAdapter.__init__ 0%nat,
            [AxesZoom 0%nat (640, 480) (5, 6) scale scale])
     /\ float_value scale = Rpower (12 / 10) (- IZR (-1)))
  /\ MouseAdapter.mouseEvent (MouseAdapter.__init__ 0%nat)
       (MouseEvent.mk 0%nat (640, 480) cv2.EVENT_MOUSEWHEEL 5 6 (-7864320))
     = Raise OverflowError.
Proof.
  split.
  - refine (proj1 (wheel_rounds_flags_down (MouseAdapter.__init__ 0%nat)
                     (MouseEvent.mk 0%nat (640, 480) cv2.EVENT_MOUSEWHEEL 5 6 (-1))
                     (-1) 119 eq_refl eq_refl _) _).
    + lia.
    + split; vm_compute; reflexivity.
  - refine (proj1 (proj2 (wheel_rounds_flags_down (MouseAdapter.__init__ 0%nat)
                     (MouseEvent.mk 0%nat (640, 480) cv2.EVENT_MOUSEWHEEL 5 6 (-7864320))
                     (-65536) 0 eq_refl eq_refl _) _)).
    + lia.
    + lia.
Defined.

End ControllerMore.

(** * More on the window *)

Section Frames.

Lemma callback_frame_refl (st : Window.State) : callback_frame st st.
Proof. unfold callback_frame. tauto. Qed.

Lemma callback_frame_trans (st1 st2 st3 : Window.State) :
  callback_frame st1 st2 -> callback_frame st2 st3 -> callback_frame st1 st3.
Proof.
  unfold callback_frame.
  intros (A1 & A2 & A3 & A4 & A5 & A6 & A7) (B1 & B2 & B3 & B4 & B5 & B6 & B7).
  repeat split; congruence.
Qed.

Lemma callback_frame_emit (st : Window.State) (es : list Effect) :
  callback_frame st (Window.emit st es).
Proof. unfold callback_frame. simpl. tauto. Qed.

Lemma callback_frame_store (st : Window.State) (r : nat) (w w' : Window.t) :
  Window.heap st !! r = Some w ->
  callback_frame st (Window.set_heap st (<[r := w']> (Window.heap st))).
Proof.
  intros Hw. unfold callback_frame. simpl. repeat split.
  rewrite dom_insert_L. apply subseteq_union_1_L, singleton_subseteq_l.
  eapply elem_of_dom_2. exact Hw.
Qed.

Lemma callback_frame_imshow (st : Window.State) (name : string) (m : Mat)
    (hw : highgui.HostWindow) :
  highgui.windows (Window.host st) !! name = Some hw ->
  callback_frame st (Window.set_host st (highgui.imshow (Window.host st) name m)).
Proof.
  intros Hw. unfold callback_frame, highgui.imshow. rewrite Hw. simpl.
  repeat split.
  rewrite dom_insert_L. apply subseteq_union_1_L, singleton_subseteq_l.
  eapply elem_of_dom_2. exact Hw.
Qed.

Lemma getWindowImageRect_live (h : highgui.Host) (name : string) (sz : Size) :
  highgui.getWindowImageRect h name = Some sz ->
  exists hw : highgui.HostWindow,
    highgui.windows h !! name = Some hw
    /\ sz = (highgui.hw_cols hw, highgui.hw_rows hw).
Proof.
  unfold highgui.getWindowImageRect.
  destruct (highgui.windows h !! name) as [hw|]; [|discriminate].
  intros [= <-]. eauto.
Qed.

Lemma update_frame (st : Window.State) (r : nat) :
  callback_frame st (Window.update st r).
Proof.
  unfold Window.update.
  destruct (Window.heap st !! r) as [self|] eqn:Hr; [|apply callback_frame_refl].
  destruct (negb _); [apply callback_frame_refl|].
  destruct (highgui.getWindowImageRect _ _) as [[cols rows]|] eqn:Hrect;
    [|apply callback_frame_refl].
  destruct (getWindowImageRect_live _ _ _ Hrect) as (hw & Hhw & _).
  cbv zeta.
  set (st1 := Window.emit _ [AxesRender _ _ _]).
  assert (H1 : callback_frame st st1).
  { eapply callback_frame_trans; [|apply callback_frame_emit].
    eapply callback_frame_store. exact Hr. }
  destruct (0 <? mat_size _); [|exact H1].
  eapply callback_frame_trans; [exact H1|].
  eapply callback_frame_trans; [|apply callback_frame_emit].
  eapply (callback_frame_imshow st1). exact Hhw.
Qed.

Lemma update_size_frame (st : Window.State) (r : nat) :
  callback_frame st (Window._update_size st r).
Proof.
  unfold Window._update_size.
  destruct (Window.heap st !! r) as [self|]; [|apply callback_frame_refl].
  destruct (negb _); [apply callback_frame_refl|].
  destruct (highgui.getWindowImageRect _ _) as [[cols rows]|];
    [|apply callback_frame_refl].
  cbv zeta. destruct (_ || _); [apply update_frame | apply callback_frame_refl].
Qed.

(** The pointer callback neither creates nor destroys anything: the
    registry, the references held outside it, the set of [Window] objects
    and the set of host windows are the same before and after, whatever
    the event and whatever name it carries. *)
Theorem callback_creates_and_destroys_nothing (st : Window.State)
    (event x y flags : Z) (param : string) :
  let st' := fst (Window._cvplot_mouse_callback st event x y flags param) in
  Window.registry st' = Window.registry st
  /\ Window.roots st' = Window.roots st
  /\ dom (Window.heap st') = dom (Window.heap st)
  /\ dom (highgui.windows (Window.host st')) = dom (highgui.windows (Window.host st)).
Proof.
  cbv zeta.
  assert (H : callback_frame st
                (fst (Window._cvplot_mouse_callback st event x y flags param))).
  { unfold Window._cvplot_mouse_callback. cbv zeta.
    destruct (Window.registry st !! param) as [r|]; [|apply callback_frame_refl].
    pose proof (update_size_frame st r) as H1.
    set (st1 := Window._update_size st r) in *.
    destruct (Window.heap st1 !! r) as [window|] eqn:Hr; [|exact H1].
    destruct (MouseAdapter.mouseEvent _ _) as [[[upd adapter] calls]|e];
      [|exact H1].
    cbn [fst].
    set (st2 := Window.emit _ calls).
    assert (H2 : callback_frame st st2).
    { eapply callback_frame_trans; [exact H1|].
      eapply callback_frame_trans; [|apply callback_frame_emit].
      eapply callback_frame_store. exact Hr. }
    destruct upd; [|exact H2].
    eapply callback_frame_trans; [exact H2 | apply update_frame]. }
  destruct H as (A1 & A2 & A3 & A4 & _). tauto.
Qed.

End Frames.

(** ** Rendering and the size check *)

Section Rendering.

Lemma emit_nil (st : Window.State) : Window.emit st [] = st.
Proof. unfold Window.emit. rewrite app_nil_r. apply state_eta. Qed.

(** A window whose host window is gone (closed by the user, or destroyed)
    is left alone by [update] and by [_update_size], whether the host
    reports the missing window by an error or by -1: nothing is rendered
    and the state stays as it is. *)
Theorem closed_window_is_left_alone (st : Window.State) (r : nat)
    (self : Window.t) :
  Window.heap st !! r = Some self ->
  highgui.windows (Window.host st) !! Window._windowName self = None ->
  Window.update st r = st /\ Window._update_size st r = st.
Proof.
  intros Hr Hgone.
  unfold Window.update, Window._update_size. rewrite Hr.
  unfold Window.is_valid. rewrite (is_valid_name_missing _ _ Hgone).
  split; reflexivity.
Qed.

Lemma closed_window_is_left_alone_witness :
  Window.update closed_by_user 0%nat = closed_by_user
  /\ Window._update_size closed_by_user 0%nat = closed_by_user.
Proof.
  exact (closed_window_is_left_alone closed_by_user 0%nat
           (Window.mk "W" 480 640 (MouseAdapter.__init__ 0%nat) (Axes_render 640 480))
           eq_refl eq_refl).
Defined.

(** [update] on a live window renders at the size of the host's client
    rectangle, keeps the image, and shows it unless it is empty (a zero
    width or height): an empty image is rendered but not shown. *)
Theorem update_renders_at_host_size (st : Window.State) (r : nat)
    (self : Window.t) (hw : highgui.HostWindow) :
  Window.heap st !! r = Some self ->
  highgui.windows (Window.host st) !! Window._windowName self = Some hw ->
  let cols := highgui.hw_cols hw in
  let rows := highgui.hw_rows hw in
  let m := Axes_render cols rows in
  Window.heap (Window.update st r) = <[r := Window.set_mat self m]> (Window.heap st)
  /\ Window.trace (Window.update st r) =
       Window.trace st
         ++ (AxesRender (Window.getAxes self) cols rows
             :: (if 0 <? rows * cols * 3
                 then [Imshow (Window._windowName self) m] else []))
  /\ ((0 <? rows * cols * 3) = false ->
      Window.host (Window.update st r) = Window.host st).
Proof.
  intros Hr Hlive. cbv zeta.
  unfold Window.update. rewrite Hr.
  unfold Window.is_valid. rewrite (is_valid_name_live _ _ _ Hlive). simpl.
  unfold highgui.getWindowImageRect. rewrite Hlive.
  unfold mat_size. simpl.
  destruct (0 <? highgui.hw_rows hw * highgui.hw_cols hw * 3); simpl.
  - rewrite <- app_assoc. repeat split. discriminate.
  - repeat split.
Qed.

Lemma update_renders_at_host_size_witness :
  Window.trace (Window.update (snd first_W) 0%nat) =
    Window.trace (snd first_W)
      ++ [AxesRender 0%nat 640 480; Imshow "W" (Axes_render 640 480)].
Proof.
  exact (proj1 (proj2 (update_renders_at_host_size (snd first_W) 0%nat
                         (Window.mk "W" 480 640 (MouseAdapter.__init__ 0%nat)
                            (Axes_render 640 480))
                         {| highgui.hw_flags := 256; highgui.hw_cols := 640;
                            highgui.hw_rows := 480;
                            highgui.hw_image := Some (Axes_render 640 480);
                            highgui.hw_callback := Some "W"%string |}
                         eq_refl eq_refl))).
Defined.

Lemma update_size_in_sync (st : Window.State) (r : nat) (self : Window.t)
    (hw : highgui.HostWindow) :
  Window.heap st !! r = Some self ->
  highgui.windows (Window.host st) !! Window._windowName self = Some hw ->
  mat_cols (Window._mat self) = highgui.hw_cols hw ->
  mat_rows (Window._mat self) = highgui.hw_rows hw ->
  Window._update_size st r = st.
Proof.
  intros Hr Hlive Hc Hrw.
  unfold Window._update_size. rewrite Hr.
  unfold Window.is_valid. rewrite (is_valid_name_live _ _ _ Hlive). simpl.
  unfold highgui.getWindowImageRect. rewrite Hlive. simpl.
  rewrite Hc, Hrw, !Z.eqb_refl. reflexivity.
Qed.

Lemma update_size_out_of_sync (st : Window.State) (r : nat) (self : Window.t)
    (hw : highgui.HostWindow) :
  Window.heap st !! r = Some self ->
  highgui.windows (Window.host st) !! Window._windowName self = Some hw ->
  mat_cols (Window._mat self) <> highgui.hw_cols hw
  \/ mat_rows (Window._mat self) <> highgui.hw_rows hw ->
  Window._update_size st r = Window.update st r.
Proof.
  intros Hr Hlive Hdiff.
  unfold Window._update_size. rewrite Hr.
  unfold Window.is_valid. rewrite (is_valid_name_live _ _ _ Hlive). simpl.
  unfold highgui.getWindowImageRect. rewrite Hlive. simpl.
  destruct (highgui.hw_cols hw =? mat_cols (Window._mat self)) eqn:Ec;
    destruct (highgui.hw_rows hw =? mat_rows (Window._mat self)) eqn:Er;
    try reflexivity.
  apply Z.eqb_eq in Ec, Er. destruct Hdiff; congruence.
Qed.

Lemma update_leaves_in_sync (st : Window.State) (r : nat) (self : Window.t)
    (hw : highgui.HostWindow) :
  Window.heap st !! r = Some self ->
  highgui.windows (Window.host st) !! Window._windowName self = Some hw ->
  image_in_sync (Window.update st r) r.
Proof.
  intros Hr Hlive.
  unfold Window.update. rewrite Hr.
  unfold Window.is_valid. rewrite (is_valid_name_live _ _ _ Hlive). simpl.
  unfold highgui.getWindowImageRect. rewrite Hlive.
  set (m := Axes_render (highgui.hw_cols hw) (highgui.hw_rows hw)).
  destruct (0 <? mat_size m).
  - exists (Window.set_mat self m),
      {| highgui.hw_flags := highgui.hw_flags hw;
         highgui.hw_cols := highgui.hw_cols hw;
         highgui.hw_rows := highgui.hw_rows hw;
         highgui.hw_image := Some m;
         highgui.hw_callback := highgui.hw_callback hw |}.
    simpl. unfold highgui.imshow. simpl. rewrite Hlive. simpl.
    rewrite !lookup_insert_eq. repeat split.
  - exists (Window.set_mat self m), hw. simpl.
    rewrite lookup_insert_eq. repeat split. exact Hlive.
Qed.

(** The size check: with the cached image already as large as the host's
    window, [_update_size] does nothing at all (no render); otherwise it
    re-renders; either way the cached image has the host's size afterwards,
    and a second check right after the first does nothing. *)
Theorem size_check_syncs_once (st : Window.State) (r : nat) (self : Window.t)
    (hw : highgui.HostWindow) :
  Window.heap st !! r = Some self ->
  highgui.windows (Window.host st) !! Window._windowName self = Some hw ->
  (mat_cols (Window._mat self) = highgui.hw_cols hw ->
   mat_rows (Window._mat self) = highgui.hw_rows hw ->
   Window._update_size st r = st)
  /\ image_in_sync (Window._update_size st r) r
  /\ Window._update_size (Window._update_size st r) r = Window._update_size st r.
Proof.
  intros Hr Hlive.
  assert (Hsync : image_in_sync (Window._update_size st r) r).
  { destruct (Z.eq_dec (mat_cols (Window._mat self)) (highgui.hw_cols hw)) as [Hc|Hc];
      [destruct (Z.eq_dec (mat_rows (Window._mat self)) (highgui.hw_rows hw))
         as [Hrw|Hrw]|].
    - rewrite (update_size_in_sync st r self hw Hr Hlive Hc Hrw).
      exists self, hw. tauto.
    - rewrite (update_size_out_of_sync st r self hw Hr Hlive) by tauto.
      eapply update_leaves_in_sync; eassumption.
    - rewrite (update_size_out_of_sync st r self hw Hr Hlive) by tauto.
      eapply update_leaves_in_sync; eassumption. }
  split; [apply update_size_in_sync; assumption|].
  split; [exact Hsync|].
  destruct Hsync as (self' & hw' & Hr' & Hlive' & Hc' & Hrw').
  eapply update_size_in_sync; eassumption.
Qed.

Lemma size_check_syncs_once_witness :
  Window._update_size (snd first_W) 0%nat = snd first_W.
Proof.
  exact (proj1 (size_check_syncs_once (snd first_W) 0%nat
                  (Window.mk "W" 480 640 (MouseAdapter.__init__ 0%nat)
                     (Axes_render 640 480))
                  {| highgui.hw_flags := 256; highgui.hw_cols := 640;
                     highgui.hw_rows := 480;
                     highgui.hw_image := Some (Axes_render 640 480);
                     highgui.hw_callback := Some "W"%string |}
                  eq_refl eq_refl)
           eq_refl eq_refl).
Defined.

End Rendering.

(** ** The pointer callback *)

Section Callback.

Lemma extends_elem (st st' : Window.State) (e : Effect) :
  extends st st' -> e ∈ Window.trace st -> e ∈ Window.trace st'.
Proof.
  intros [es H] He. rewrite H. apply elem_of_app. left. exact He.
Qed.

Lemma update_extends (st : Window.State) (r : nat) :
  extends st (Window.update st r).
Proof.
  unfold Window.update.
  destruct (Window.heap st !! r) as [self|]; [|apply extends_refl].
  destruct (negb _); [apply extends_refl|].
  destruct (highgui.getWindowImageRect _ _) as [[cols rows]|];
    [|apply extends_refl].
  cbv zeta. destruct (0 <? mat_size _).
  - eexists. simpl. rewrite <- app_assoc. reflexivity.
  - eexists. simpl. reflexivity.
Qed.

Lemma handle_event_unhandled (self : MouseAdapter.t) (ev : MouseEvent.t) :
  unhandled ev -> MouseAdapter._handle_event self ev = Ret (false, self, []).
Proof.
  intros [Hk | (Hm & Hmid & Hr)].
  - apply handle_event_other_kind, Hk.
  - apply handle_event_move_idle; assumption.
Qed.

Lemma set_mouseAdapter_same (self : Window.t) :
  Window.set_mouseAdapter self (Window._mouseAdapter self) = self.
Proof. destruct self. reflexivity. Qed.

(** What [_update_size] leaves of a live window: the object with its
    adapter and name, and an image of the host's size. *)
Lemma update_size_result (st : Window.State) (r : nat) (self : Window.t)
    (hw : highgui.HostWindow) :
  Window.heap st !! r = Some self ->
  highgui.windows (Window.host st) !! Window._windowName self = Some hw ->
  exists self1 : Window.t,
    Window.heap (Window._update_size st r) !! r = Some self1
    /\ Window._mouseAdapter self1 = Window._mouseAdapter self
    /\ Window._windowName self1 = Window._windowName self
    /\ mat_cols (Window._mat self1) = highgui.hw_cols hw
    /\ mat_rows (Window._mat self1) = highgui.hw_rows hw.
Proof.
  intros Hr Hlive.
  destruct (Z.eq_dec (mat_cols (Window._mat self)) (highgui.hw_cols hw)) as [Hc|Hc];
    [destruct (Z.eq_dec (mat_rows (Window._mat self)) (highgui.hw_rows hw))
       as [Hrw|Hrw]|].
  - rewrite (update_size_in_sync st r self hw Hr Hlive Hc Hrw).
    exists self. tauto.
  - rewrite (update_size_out_of_sync st r self hw Hr Hlive) by tauto.
    destruct (update_renders_at_host_size st r self hw Hr Hlive) as (Hheap & _).
    rewrite Hheap, lookup_insert_eq. eexists. split; [reflexivity|]. tauto.
  - rewrite (update_size_out_of_sync st r self hw Hr Hlive) by tauto.
    destruct (update_renders_at_host_size st r self hw Hr Hlive) as (Hheap & _).
    rewrite Hheap, lookup_insert_eq. eexists. split; [reflexivity|]. tauto.
Qed.

(** An event that the built-in handler does not handle, arriving at a
    window without user handler whose image is as large as its host
    window, changes nothing: no call on the axes, no re-render. *)
Theorem unhandled_event_changes_nothing (st : Window.State) (r : nat)
    (self : Window.t) (hw : highgui.HostWindow) (event x y flags : Z)
    (param : string) :
  Window.registry st !! param = Some r ->
  Window.heap st !! r = Some self ->
  highgui.windows (Window.host st) !! Window._windowName self = Some hw ->
  mat_cols (Window._mat self) = highgui.hw_cols hw ->
  mat_rows (Window._mat self) = highgui.hw_rows hw ->
  MouseAdapter._mouseEventHandler (Window._mouseAdapter self) = None ->
  unhandled (MouseEvent.mk (Window.getAxes self)
               (highgui.hw_cols hw, highgui.hw_rows hw) event x y flags) ->
  Window._cvplot_mouse_callback st event x y flags param = (st, Ret tt).
Proof.
  intros Hreg Hr Hlive Hc Hrw Hnone Hun.
  unfold Window._cvplot_mouse_callback. cbv zeta. rewrite Hreg.
  rewrite (update_size_in_sync st r self hw Hr Hlive Hc Hrw), Hr.
  rewrite Hc, Hrw.
  unfold Window.getAxes in Hun.
  rewrite (mouseEvent_parts _ _ _ _ _
             (handle_event_unhandled (Window._mouseAdapter self) _ Hun)).
  unfold user_answer, user_calls. rewrite Hnone. simpl.
  rewrite set_mouseAdapter_same, (insert_id _ _ _ Hr).
  unfold Window.set_heap. rewrite state_eta, emit_nil. reflexivity.
Qed.

Lemma unhandled_event_changes_nothing_witness :
  Window._cvplot_mouse_callback (snd first_W) cv2.EVENT_LBUTTONDOWN 10 20 1 "W"
  = (snd first_W, Ret tt).
Proof.
  refine (unhandled_event_changes_nothing (snd first_W) 0%nat
            (Window.mk "W" 480 640 (MouseAdapter.__init__ 0%nat) (Axes_render 640 480))
            {| highgui.hw_flags := 256; highgui.hw_cols := 640;
               highgui.hw_rows := 480;
               highgui.hw_image := Some (Axes_render 640 480);
               highgui.hw_callback := Some "W"%string |}
            cv2.EVENT_LBUTTONDOWN 10 20 1 "W"
            eq_refl eq_refl eq_refl eq_refl eq_refl eq_refl _).
  left. reflexivity.
Defined.

(** A user handler installed with [Window.setMouseEventHandler] is called
    for every pointer event of the window on which the built-in handler
    returns, of whatever kind, with an event that carries the window's
    axes, the size of the host's window at that moment (also right after a
    resize) and the raw position and flags.  When the built-in handler
    raises (a zoom factor out of range), the callback raises with it after
    its size check, and the handler is not called. *)
Theorem installed_handler_sees_every_event (st : Window.State) (r : nat)
    (self : Window.t) (hw : highgui.HostWindow) (h : MouseEventHandler)
    (event x y flags : Z) (param : string) :
  Window.registry st !! param = Some r ->
  Window.heap st !! r = Some self ->
  highgui.windows (Window.host st) !! Window._windowName self = Some hw ->
  let ev := MouseEvent.mk (Window.getAxes self)
              (highgui.hw_cols hw, highgui.hw_rows hw) event x y flags in
  let st0 := Window.setMouseEventHandler st r h in
  let done := Window._cvplot_mouse_callback st0 event x y flags param in
  (pow_in_range (Window._mouseAdapter self) ev ->
   snd done = Ret tt
   /\ exists calls more : list Effect,
        Window.trace (fst done) =
          Window.trace (Window._update_size st0 r)
            ++ calls ++ [UserHandlerCall ev] ++ more)
  /\ (~ pow_in_range (Window._mouseAdapter self) ev ->
      done = (Window._update_size st0 r, Raise OverflowError)).
Proof.
  intros Hreg Hr Hlive. cbv zeta.
  set (st0 := Window.setMouseEventHandler st r h).
  set (self0 := Window.set_mouseAdapter self
                  (MouseAdapter.setMouseEventHandler (Window._mouseAdapter self) h)).
  assert (Hr0 : Window.heap st0 !! r = Some self0).
  { unfold st0, Window.setMouseEventHandler. rewrite Hr. simpl.
    apply lookup_insert_eq. }
  assert (Hlive0 : highgui.windows (Window.host st0) !! Window._windowName self0
                   = Some hw).
  { unfold st0, Window.setMouseEventHandler. rewrite Hr. exact Hlive. }
  assert (Hreg0 : Window.registry st0 !! param = Some r).
  { unfold st0, Window.setMouseEventHandler. rewrite Hr. exact Hreg. }
  destruct (update_size_result st0 r self0 hw Hr0 Hlive0)
    as (self1 & Hr1 & Had & Hname & Hc & Hrw).
  unfold Window._cvplot_mouse_callback. cbv zeta. rewrite Hreg0, Hr1.
  rewrite Had, Hc, Hrw.
  change (MouseAdapter.getAxes (Window._mouseAdapter self0))
    with (Window.getAxes self).
  set (ev := MouseEvent.mk _ _ event x y flags).
  assert (Hrange : pow_in_range (Window._mouseAdapter self0) ev
                   <-> pow_in_range (Window._mouseAdapter self) ev)
    by reflexivity.
  destruct (handle_event_outcome (Window._mouseAdapter self0) ev)
    as [(b & adapter & calls & H & _) | [H Hout]].
  - rewrite (mouseEvent_parts _ _ _ _ _ H).
    split.
    + intros _. split.
      { destruct (b || _); reflexivity. }
      set (stored := Window.emit _ _).
      assert (Hst : Window.trace stored =
                    Window.trace (Window._update_size st0 r)
                      ++ calls ++ [UserHandlerCall ev])
        by reflexivity.
      destruct (b || _); cbn [fst].
      * destruct (update_extends stored r) as [more Hmore].
        exists calls, more. rewrite Hmore, Hst, <- !app_assoc. reflexivity.
      * exists calls, []. rewrite Hst, app_nil_r. reflexivity.
    + intros Hno. exfalso. apply Hno, Hrange.
      destruct (handle_event_outcome (Window._mouseAdapter self0) ev)
        as [_ | [H' _]]; [|congruence].
      split.
      * intros (Hm & Hmid & Hrt).
        destruct (zoom_in_range_dec (Window._mouseAdapter self0) ev) as [Hin|Hz];
          [exact Hin|].
        rewrite (handle_event_move_right_overflow _ ev Hm Hmid Hrt Hz) in H.
        discriminate.
      * intros Hw.
        destruct (wheel_in_range_dec ev) as [Hin|Hz]; [exact Hin|].
        rewrite (handle_event_wheel_overflow _ ev Hw Hz) in H.
        discriminate.
  - rewrite (mouseEvent_raises _ _ _ H).
    split; [|reflexivity].
    intros Hin. exfalso. apply Hout, Hrange, Hin.
Qed.

Lemma installed_handler_sees_every_event_witness :
  let st0 := Window.setMouseEventHandler (snd first_W) 0%nat (fun _ => false) in
  (exists calls more : list Effect,
     Window.trace (fst (Window._cvplot_mouse_callback st0 cv2.EVENT_LBUTTONUP 10 20 0 "W")) =
       Window.trace (Window._update_size st0 0%nat)
         ++ calls
         ++ [UserHandlerCall (MouseEvent.mk 0%nat (640, 480) cv2.EVENT_LBUTTONUP 10 20 0)]
         ++ more)
  /\ Window._cvplot_mouse_callback st0 cv2.EVENT_MOUSEWHEEL 10 20 (-7864320) "W"
     = (Window._update_size st0 0%nat, Raise OverflowError).
Proof.
  split.
  - refine (proj2 (proj1 (installed_handler_sees_every_event (snd first_W) 0%nat
              (Window.mk "W" 480 640 (MouseAdapter.__init__ 0%nat) (Axes_render 640 480))
              {| highgui.hw_flags := 256; highgui.hw_cols := 640;
                 highgui.hw_rows := 480;
                 highgui.hw_image := Some (Axes_render 640 480);
                 highgui.hw_callback := Some "W"%string |}
              (fun _ => false) cv2.EVENT_LBUTTONUP 10 20 0 "W"
              eq_refl eq_refl eq_refl) _)).
    split.
    + intros (Hm & _). discriminate Hm.
    + intros Hw. discriminate Hw.
  - refine (proj2 (installed_handler_sees_every_event (snd first_W) 0%nat
              (Window.mk "W" 480 640 (MouseAdapter.__init__ 0%nat) (Axes_render 640 480))
              {| highgui.hw_flags := 256; highgui.hw_cols := 640;
                 highgui.hw_rows := 480;
                 highgui.hw_image := Some (Axes_render 640 480);
                 highgui.hw_callback := Some "W"%string |}
              (fun _ => false) cv2.EVENT_MOUSEWHEEL 10 20 (-7864320) "W"
              eq_refl eq_refl eq_refl) _).
    intros [_ Hw]. destruct (Hw eq_refl) as [Hlow _].
    vm_compute in Hlow. apply Hlow. reflexivity.
Defined.

(** A middle drag arriving at a window whose image is as large as its host
    window pans by the distance from the last position, tells the user
    handler if there is one, and then re-renders once at the host's size;
    the window's controller remembers the new position. *)
Theorem drag_event_pans_then_renders (st : Window.State) (r : nat)
    (self : Window.t) (hw : highgui.HostWindow) (x y flags : Z)
    (param : string) :
  Window.registry st !! param = Some r ->
  Window.heap st !! r = Some self ->
  highgui.windows (Window.host st) !! Window._windowName self = Some hw ->
  mat_cols (Window._mat self) = highgui.hw_cols hw ->
  mat_rows (Window._mat self) = highgui.hw_rows hw ->
  truthy (Z.land flags cv2.EVENT_FLAG_MBUTTON) = true ->
  let cols := highgui.hw_cols hw in
  let rows := highgui.hw_rows hw in
  let adapter := Window._mouseAdapter self in
  let ev := MouseEvent.mk (Window.getAxes self) (cols, rows)
              cv2.EVENT_MOUSEMOVE x y flags in
  let st' := fst (Window._cvplot_mouse_callback st cv2.EVENT_MOUSEMOVE x y flags param) in
  snd (Window._cvplot_mouse_callback st cv2.EVENT_MOUSEMOVE x y flags param) = Ret tt
  /\ Window.trace st' =
    Window.trace st
      ++ (AxesPan (Window.getAxes self) (cols, rows)
            (x - fst (MouseAdapter._lastPosPix adapter),
             y - snd (MouseAdapter._lastPosPix adapter))
          :: user_calls adapter ev)
      ++ (AxesRender (Window.getAxes self) cols rows
          :: (if 0 <? rows * cols * 3
              then [Imshow (Window._windowName self) (Axes_render cols rows)]
              else []))
  /\ exists self' : Window.t,
       Window.heap st' !! r = Some self'
       /\ MouseAdapter._lastPosPix (Window._mouseAdapter self') = (x, y)
       /\ MouseAdapter._pressPosPix (Window._mouseAdapter self')
          = MouseAdapter._pressPosPix adapter.
Proof.
  intros Hreg Hr Hlive Hc Hrw Hmid. cbv zeta.
  unfold Window._cvplot_mouse_callback. cbv zeta. rewrite Hreg.
  rewrite (update_size_in_sync st r self hw Hr Hlive Hc Hrw), Hr.
  rewrite Hc, Hrw.
  set (ev := MouseEvent.mk _ _ cv2.EVENT_MOUSEMOVE x y flags).
  rewrite (mouseEvent_parts _ _ _ _ _
             (handle_event_move_middle (Window._mouseAdapter self) ev
                eq_refl Hmid)).
  cbn [orb fst snd]. split; [reflexivity|].
  set (moved := Window.set_mouseAdapter self _).
  set (st2 := Window.emit _ _).
  assert (Hr2 : Window.heap st2 !! r = Some moved)
    by (unfold st2; simpl; apply lookup_insert_eq).
  assert (Hlive2 : highgui.windows (Window.host st2) !! Window._windowName moved
                   = Some hw) by exact Hlive.
  destruct (update_renders_at_host_size st2 r moved hw Hr2 Hlive2)
    as (Hheap & Htrace & _).
  split.
  - rewrite Htrace. unfold st2. simpl. rewrite <- !app_assoc. reflexivity.
  - rewrite Hheap, lookup_insert_eq. eexists. split; [reflexivity|].
    split; reflexivity.
Qed.

Lemma drag_event_pans_then_renders_witness :
  Window.trace
    (fst (Window._cvplot_mouse_callback (snd first_W) cv2.EVENT_MOUSEMOVE 30 40 4 "W")) =
    Window.trace (snd first_W)
      ++ [AxesPan 0%nat (640, 480) (30 - 0, 40 - 0)]
      ++ [AxesRender 0%nat 640 480; Imshow "W" (Axes_render 640 480)].
Proof.
  exact (proj1 (proj2 (drag_event_pans_then_renders (snd first_W) 0%nat
                  (Window.mk "W" 480 640 (MouseAdapter.__init__ 0%nat)
                     (Axes_render 640 480))
                  {| highgui.hw_flags := 256; highgui.hw_cols := 640;
                     highgui.hw_rows := 480;
                     highgui.hw_image := Some (Axes_render 640 480);
                     highgui.hw_callback := Some "W"%string |}
                  30 40 4 "W"
                  eq_refl eq_refl eq_refl eq_refl eq_refl eq_refl))).
Defined.

End Callback.

(** ** Construction and teardown *)

Section Lifecycle.

(** The host's window under [name] once a host without such a window has
    been through the calls of [__init__]; its other windows stay. *)
Lemma host_window_built (h : highgui.Host) (name : string) (cols rows : Z)
    (m : Mat) :
  highgui.windows h !! name = None ->
  let h' :=
    highgui.setMouseCallback
      (highgui.imshow
         (highgui.resizeWindow
            (highgui.namedWindow h name
               (Z.lor highgui.WINDOW_NORMAL highgui.WINDOW_FREERATIO))
            name cols rows)
         name m)
      name name in
  highgui.windows h' !! name
  = Some {| highgui.hw_flags := 256;
            highgui.hw_cols := cols;
            highgui.hw_rows := rows;
            highgui.hw_image := Some m;
            highgui.hw_callback := Some name |}
  /\ forall other : string,
       other <> name -> highgui.windows h' !! other = highgui.windows h !! other.
Proof.
  intros Hnone. cbv zeta.
  unfold highgui.setMouseCallback, highgui.imshow, highgui.resizeWindow,
    highgui.namedWindow.
  rewrite Hnone. simpl.
  rewrite lookup_insert_eq. simpl.
  rewrite lookup_insert_eq. simpl.
  rewrite lookup_insert_eq. simpl.
  split; [apply lookup_insert_eq|].
  intros other Hne. rewrite !lookup_insert_ne by done. reflexivity.
Qed.

(** Construction under a name that the registry and the host do not know:
    no window is destroyed, the host gets a window of the requested size
    that shows the rendered image and has the pointer callback with the
    name as its token, the new object is registered under the name and is
    valid, its image is as large as the host window, and the other
    entries and host windows are untouched.  This holds whichever way the
    host reports an unknown window. *)
Theorem construction_under_new_name (st : Window.State) (name : string)
    (axes : AxesRef) (cols rows : Z) :
  Window.registry st !! name = None ->
  highgui.windows (Window.host st) !! name = None ->
  let r := fst (Window.__init__ st name axes cols rows) in
  let st' := snd (Window.__init__ st name axes cols rows) in
  let m := Axes_render cols rows in
  let self := Window.mk name rows cols (MouseAdapter.__init__ axes) m in
  Window.trace st' =
    Window.trace st ++
      [NamedWindow name; ResizeWindow name cols rows; AxesRender axes cols rows;
       Imshow name m; SetMouseCallback name name; RegistrySet name r]
  /\ Window.heap st !! r = None
  /\ Window.heap st' = <[r := self]> (Window.heap st)
  /\ Window.registry st' = <[name := r]> (Window.registry st)
  /\ Window.roots st' = {[r]} ∪ Window.roots st
  /\ highgui.windows (Window.host st') !! name =
       Some {| highgui.hw_flags := 256;
               highgui.hw_cols := cols;
               highgui.hw_rows := rows;
               highgui.hw_image := Some m;
               highgui.hw_callback := Some name |}
  /\ (forall other : string,
        other <> name ->
        highgui.windows (Window.host st') !! other
        = highgui.windows (Window.host st) !! other)
  /\ Window.valid (Window.host st') self = Ret true
  /\ image_in_sync st' r.
Proof.
  intros Hreg Hgone. cbv zeta.
  unfold Window.__init__. cbv zeta.
  rewrite (is_valid_name_missing _ _ Hgone).
  pose proof (is_fresh (dom (Window.heap st) ∪ Window.roots st)) as Hfresh.
  set (r := fresh (dom (Window.heap st) ∪ Window.roots st)) in *.
  assert (Hnew : Window.heap st !! r = None).
  { apply not_elem_of_dom. set_solver. }
  unfold Window.registry_set. cbv zeta. simpl. rewrite Hreg. simpl.
  destruct (host_window_built (Window.host st) name cols rows
              (Axes_render cols rows) Hgone) as [Hbuilt Hothers].
  rewrite <- !app_assoc. simpl.
  repeat split; try done.
  - unfold Window.valid. simpl. eapply valid_name_live. exact Hbuilt.
  - eexists _, _. simpl. rewrite lookup_insert_eq.
    split; [reflexivity|]. split; [exact Hbuilt|]. split; reflexivity.
Qed.

Lemma construction_under_new_name_witness :
  Window.registry (snd first_W) = <[ "W"%string := fst first_W ]> ∅
  /\ Window.valid (Window.host (snd first_W))
       (Window.mk "W" 480 640 (MouseAdapter.__init__ 0%nat) (Axes_render 640 480))
     = Ret true.
Proof.
  pose proof (construction_under_new_name (start (quiet_host false)) "W" 0%nat
                640 480 eq_refl eq_refl)
    as (_ & _ & _ & Hreg & _ & _ & _ & Hvalid & _).
  split; [exact Hreg | exact Hvalid].
Defined.

(** The state in which [__init__] assigns to the registry. *)
Lemma init_unfold (st : Window.State) (name : string) (axes : AxesRef)
    (cols rows : Z) :
  exists (h6 : highgui.Host) (es : list Effect),
    let r := fresh (dom (Window.heap st) ∪ Window.roots st) in
    let self := Window.mk name rows cols (MouseAdapter.__init__ axes)
                  (Axes_render cols rows) in
    Window.__init__ st name axes cols rows =
      (r, Window.registry_set
            {| Window.heap := <[r := self]> (Window.heap st);
               Window.registry := Window.registry st;
               Window.roots := {[r]} ∪ Window.roots st;
               Window.host := h6;
               Window.trace := Window.trace st ++ es |} name r)
    /\ is_Some (highgui.windows h6 !! name)
    /\ highgui.missing_raises h6 = highgui.missing_raises (Window.host st).
Proof.
  set (flags := Z.lor highgui.WINDOW_NORMAL highgui.WINDOW_FREERATIO).
  set (m := Axes_render cols rows).
  set (build := fun h : highgui.Host =>
                  highgui.setMouseCallback
                    (highgui.imshow
                       (highgui.resizeWindow (highgui.namedWindow h name flags)
                          name cols rows)
                       name m)
                    name name).
  set (tail := [NamedWindow name; ResizeWindow name cols rows;
                AxesRender axes cols rows; Imshow name m;
                SetMouseCallback name name]).
  assert (Hbuild : forall h, highgui.windows h !! name = None ->
                             is_Some (highgui.windows (build h) !! name)
                             /\ highgui.missing_raises (build h)
                                = highgui.missing_raises h).
  { intros h Hnone.
    destruct (host_window_built h name cols rows m Hnone) as [Hbuilt _].
    split; [unfold build, flags; rewrite Hbuilt; eauto|].
    unfold build, highgui.setMouseCallback, highgui.imshow, highgui.resizeWindow,
      highgui.namedWindow. rewrite Hnone. cbn.
    rewrite lookup_insert_eq. cbn. rewrite lookup_insert_eq. cbn.
    rewrite lookup_insert_eq. reflexivity. }
  destruct (highgui.windows (Window.host st) !! name) as [hw|] eqn:Hw.
  - exists (build (highgui.destroyWindow (Window.host st) name)),
      (DestroyWindow name :: tail).
    cbv zeta. split.
    + unfold Window.__init__. cbv zeta.
      rewrite (is_valid_name_live _ _ _ Hw).
      apply (f_equal (pair _)), (f_equal (fun s => Window.registry_set s name _)).
      apply state_ext;
        [reflexivity | reflexivity | reflexivity | reflexivity |].
      simpl. rewrite <- !app_assoc. reflexivity.
    + apply (Hbuild (highgui.destroyWindow (Window.host st) name)).
      unfold highgui.destroyWindow. cbn. apply lookup_delete_eq.
  - exists (build (Window.host st)), tail.
    cbv zeta. split.
    + unfold Window.__init__. cbv zeta.
      rewrite (is_valid_name_missing _ _ Hw).
      apply (f_equal (pair _)), (f_equal (fun s => Window.registry_set s name _)).
      apply state_ext;
        [reflexivity | reflexivity | reflexivity | reflexivity |].
      simpl. rewrite <- !app_assoc. reflexivity.
    + apply Hbuild. exact Hw.
Qed.

(** When nothing but the registry refers to the window registered under a
    name (its creator has let go of it, as [show] does on return),
    constructing another window under that name ends with neither
    registered and no host window: the assignment to the registry drops
    the last reference to the first window, and its [__del__] removes the
    entry just made and destroys the host window just created.  The new
    object is then not valid. *)
Theorem construction_over_unreferenced_window (st : Window.State)
    (name : string) (axes : AxesRef) (cols rows : Z) (r1 : nat)
    (first : Window.t) :
  Window.registry st !! name = Some r1 ->
  Window.heap st !! r1 = Some first ->
  Window._windowName first = name ->
  r1 ∉ Window.roots st ->
  let r2 := fst (Window.__init__ st name axes cols rows) in
  let st' := snd (Window.__init__ st name axes cols rows) in
  let self := Window.mk name rows cols (MouseAdapter.__init__ axes)
                (Axes_render cols rows) in
  Window.registry st' = delete name (Window.registry st)
  /\ highgui.windows (Window.host st') !! name = None
  /\ Window.heap st' !! r1 = None
  /\ Window.heap st' !! r2 = Some self
  /\ Window.valid (Window.host st') self = Ret false
  /\ exists before : list Effect,
       Window.trace st' =
         before ++ [RegistrySet name r2; RegistryDel name; DestroyWindow name].
Proof.
  intros Hreg Hfirst Hname Hloose. cbv zeta.
  destruct (init_unfold st name axes cols rows)
    as (h6 & es & Hinit & [hw6 Hlive] & _).
  cbv zeta in Hinit. rewrite Hinit. cbn [fst snd].
  pose proof (is_fresh (dom (Window.heap st) ∪ Window.roots st)) as Hfresh.
  set (r2 := fresh (dom (Window.heap st) ∪ Window.roots st)) in *.
  assert (Hne : r1 <> r2).
  { intros ->. apply Hfresh. apply elem_of_union. left.
    eapply elem_of_dom_2. exact Hfirst. }
  unfold Window.registry_set. cbv zeta. simpl. rewrite Hreg.
  rewrite decide_False by exact Hne.
  rewrite decide_False
    by (intros [Hin | Hin]%elem_of_union;
        [apply elem_of_singleton in Hin; exact (Hne Hin) | exact (Hloose Hin)]).
  unfold Window.__del__. simpl.
  rewrite lookup_insert_ne by done. rewrite Hfirst.
  unfold Window.del_unregister. simpl. rewrite Hname, lookup_insert_eq.
  rewrite decide_False by done.
  rewrite decide_True by set_solver.
  unfold Window.del_destroy, Window.is_valid. simpl. rewrite Hname.
  rewrite (is_valid_name_live _ _ _ Hlive). simpl.
  split; [apply delete_insert_eq|].
  split; [apply lookup_delete_eq|].
  split; [apply lookup_delete_eq|].
  split; [rewrite lookup_delete_ne by done; apply lookup_insert_eq|].
  split.
  - unfold Window.valid. simpl. apply valid_name_missing. simpl.
    apply lookup_delete_eq.
  - exists (Window.trace st ++ es). rewrite <- !app_assoc. reflexivity.
Qed.

Lemma construction_over_unreferenced_window_witness :
  Window.registry (snd second_W_unreferenced) = delete "W"%string (<[ "W"%string := 0%nat ]> ∅)
  /\ highgui.windows (Window.host (snd second_W_unreferenced)) !! "W"%string = None.
Proof.
  assert (Hloose : 0%nat ∉ Window.roots (Window.release (snd first_W) (fst first_W)))
    by (apply (bool_decide_unpack _); vm_compute; exact I).
  pose proof (construction_over_unreferenced_window
                (Window.release (snd first_W) (fst first_W)) "W" 0%nat 640 480 0%nat
                (Window.mk "W" 480 640 (MouseAdapter.__init__ 0%nat)
                   (Axes_render 640 480))
                eq_refl eq_refl eq_refl Hloose)
    as (Hreg & Hwin & _).
  split; [exact Hreg | exact Hwin].
Defined.

End Lifecycle.

(** * The wait loop *)

Section Polling.

Lemma poll_frame_refl (st : Window.State) : poll_frame st st.
Proof. unfold poll_frame. repeat split; done. Qed.

Lemma poll_frame_trans (st1 st2 st3 : Window.State) :
  poll_frame st1 st2 -> poll_frame st2 st3 -> poll_frame st1 st3.
Proof.
  unfold poll_frame.
  intros (A1 & A2 & A3 & A4 & A5) (B1 & B2 & B3 & B4 & B5).
  repeat split; try congruence. etrans; eassumption.
Qed.

Lemma callback_frame_poll (st st' : Window.State) :
  callback_frame st st' -> poll_frame st st'.
Proof.
  unfold callback_frame, poll_frame.
  intros (A1 & A2 & A3 & A4 & A5 & _). repeat split; try assumption.
  rewrite A4. done.
Qed.

Lemma callback_frame_of_callback (st : Window.State) (event x y flags : Z)
    (param : string) :
  callback_frame st (fst (Window._cvplot_mouse_callback st event x y flags param)).
Proof.
  unfold Window._cvplot_mouse_callback. cbv zeta.
  destruct (Window.registry st !! param) as [r|]; [|apply callback_frame_refl].
  pose proof (update_size_frame st r) as H1.
  set (st1 := Window._update_size st r) in *.
  destruct (Window.heap st1 !! r) as [window|] eqn:Hr; [|exact H1].
  destruct (MouseAdapter.mouseEvent _ _) as [[[upd adapter] calls]|e];
    [|exact H1].
  cbn [fst].
  set (st2 := Window.emit _ calls).
  assert (H2 : callback_frame st st2).
  { eapply callback_frame_trans; [exact H1|].
    eapply callback_frame_trans; [|apply callback_frame_emit].
    eapply callback_frame_store. exact Hr. }
  destruct upd; [|exact H2].
  eapply callback_frame_trans; [exact H2 | apply update_frame].
Qed.

Lemma deliver_poll_frame (st : Window.State) (i : highgui.HostInput) :
  poll_frame st (Window.deliver st i).
Proof.
  destruct i as [w event x y flags | w | w cols rows]; simpl.
  - destruct (highgui.windows (Window.host st) !! w) as [hw|];
      [|apply poll_frame_refl].
    destruct (highgui.hw_callback hw); [|apply poll_frame_refl].
    apply callback_frame_poll, callback_frame_of_callback.
  - unfold poll_frame. simpl. repeat split; try done.
    rewrite dom_delete_L. apply subseteq_difference_l. done.
  - unfold poll_frame, highgui.resizeWindow. simpl.
    destruct (highgui.windows (Window.host st) !! w) as [hw|] eqn:Hw;
      simpl; repeat split; try done.
    rewrite dom_insert_L.
    apply union_subseteq. split; [|done].
    apply singleton_subseteq_l. eapply elem_of_dom_2. exact Hw.
Qed.

Lemma fold_poll_frame {A : Type} (f : Window.State -> A -> Window.State)
    (l : list A) :
  (forall st a, poll_frame st (f st a)) ->
  forall st, poll_frame st (fold_left f l st).
Proof.
  intros Hf. induction l as [|a l IH]; intros st; simpl;
    [apply poll_frame_refl|].
  eapply poll_frame_trans; [apply Hf | apply IH].
Qed.

Lemma cv2_waitKey_poll_frame (st : Window.State) :
  poll_frame st (snd (Window.cv2_waitKey st)).
Proof.
  unfold Window.cv2_waitKey.
  destruct (highgui.next_poll (Window.host st)) as [p h] eqn:Hp. simpl.
  eapply poll_frame_trans; [|apply fold_poll_frame, deliver_poll_frame].
  unfold highgui.next_poll in Hp.
  destruct (highgui.script (Window.host st)); injection Hp as <- <-;
    unfold poll_frame; simpl; repeat split; done.
Qed.

Lemma update_sizes_poll_frame (windows : list nat) (st : Window.State) :
  poll_frame st (fold_left Window._update_size windows st).
Proof.
  apply fold_poll_frame. intros s r.
  apply callback_frame_poll, update_size_frame.
Qed.

Lemma waitKey_loop_poll_frame (fuel : nat) (windows : list nat) (delay : Z)
    (end_time : Q) :
  forall (st st' : Window.State) (key : Z),
    Window.waitKey_loop fuel windows delay end_time st = Some (key, st') ->
    poll_frame st st'.
Proof.
  induction fuel as [|fuel IH]; intros st st' key; simpl; [discriminate|].
  pose proof (cv2_waitKey_poll_frame st) as H1.
  destruct (Window.cv2_waitKey st) as [k st1]. simpl in H1.
  destruct (negb (k =? -1)); [intros [= _ <-]; exact H1|].
  destruct (_ && _); [intros [= _ <-]; exact H1|].
  destruct (forallb _ _); [intros [= _ <-]; exact H1|].
  intros Hloop. eapply poll_frame_trans; [exact H1|].
  eapply poll_frame_trans; [apply update_sizes_poll_frame | exact (IH _ _ _ Hloop)].
Qed.

(** The wait loop only watches: whenever [waitKey_static] returns, the
    registry, the references held outside it and the set of [Window]
    objects are as before, every object has kept its name, and the host has
    no window it did not have before. *)
Theorem wait_loop_only_watches (fuel : nat) (windows : list nat) (delay key : Z)
    (st st' : Window.State) :
  Window.waitKey_static fuel windows delay st = Some (key, st') ->
  Window.registry st' = Window.registry st
  /\ Window.roots st' = Window.roots st
  /\ dom (Window.heap st') = dom (Window.heap st)
  /\ (forall (r : nat) (w : Window.t),
        Window.heap st !! r = Some w ->
        exists w' : Window.t,
          Window.heap st' !! r = Some w'
          /\ Window._windowName w' = Window._windowName w)
  /\ dom (highgui.windows (Window.host st')) ⊆ dom (highgui.windows (Window.host st)).
Proof.
  intros Hwait.
  destruct (waitKey_loop_poll_frame _ _ _ _ _ _ _ Hwait) as (A1 & A2 & A3 & A4 & _).
  destruct (waitKey_loop_keeps_names _ _ _ _ _ _ _ Hwait) as [_ Hnames].
  repeat split; assumption.
Qed.

Lemma wait_loop_only_watches_witness :
  Window.registry closed_by_user = Window.registry about_to_close.
Proof.
  refine (proj1 (wait_loop_only_watches 1 [0%nat] 0 (-1) about_to_close
                   closed_by_user _)).
  vm_compute. reflexivity.
Defined.

Lemma forallb_invalid (st : Window.State) (windows : list nat) :
  forallb (fun w => negb (Window.valid_ref st w)) windows = true
  <-> Forall (fun w => Window.valid_ref st w = false) windows.
Proof.
  induction windows as [|w ws IH]; simpl.
  - split; [constructor | reflexivity].
  - rewrite andb_true_iff, negb_true_iff, IH, Forall_cons. reflexivity.
Qed.

Lemma waitKey_loop_reason (fuel : nat) (windows : list nat) (delay : Z)
    (end_time : Q) :
  forall (st st' : Window.State) (key : Z),
    Window.waitKey_loop fuel windows delay end_time st = Some (key, st') ->
    key <> -1
    \/ (key = -1 /\ 0 < delay
        /\ (end_time <= highgui.clock (Window.host st'))%Q)
    \/ (key = -1 /\ Forall (fun w => Window.valid_ref st' w = false) windows).
Proof.
  induction fuel as [|fuel IH]; intros st st' key; simpl; [discriminate|].
  destruct (Window.cv2_waitKey st) as [k st1].
  destruct (negb (k =? -1)) eqn:Hk.
  { intros [= <- <-]. left. apply negb_true_iff, Z.eqb_neq in Hk. exact Hk. }
  destruct ((0 <? delay) && Qle_bool end_time (highgui.clock (Window.host st1)))
    eqn:Htime.
  { intros [= <- <-]. right. left.
    apply andb_true_iff in Htime as [Hd Hq].
    apply Z.ltb_lt in Hd. apply Qle_bool_iff in Hq. tauto. }
  destruct (forallb (fun w => negb (Window.valid_ref st1 w)) windows) eqn:Hall.
  { intros [= <- <-]. right. right. split; [reflexivity|].
    apply forallb_invalid, Hall. }
  apply IH.
Qed.

(** Why the wait loop returns: when [waitKey_static] returns, either a key
    was pressed (the answer is not -1), or the answer is -1 and the delay
    was positive and has elapsed, or the answer is -1 and every window of
    the list is invalid at that moment.  With a delay of zero or less an
    answer of -1 therefore means that all the windows are gone. *)
Theorem wait_returns_for_a_reason (fuel : nat) (windows : list nat)
    (delay key : Z) (st st' : Window.State) :
  Window.waitKey_static fuel windows delay st = Some (key, st') ->
  (key <> -1
   \/ (key = -1 /\ 0 < delay
       /\ (highgui.clock (Window.host st) + Qmake delay 1000
           <= highgui.clock (Window.host st'))%Q)
   \/ (key = -1 /\ Forall (fun w => Window.valid_ref st' w = false) windows))
  /\ (delay <= 0 -> key = -1 ->
      Forall (fun w => Window.valid_ref st' w = false) windows).
Proof.
  intros Hwait. unfold Window.waitKey_static in Hwait.
  pose proof (waitKey_loop_reason _ _ _ _ _ _ _ Hwait) as Hwhy.
  split; [exact Hwhy|].
  intros Hd Hkey. destruct Hwhy as [Hne | [(_ & Hpos & _) | [_ Hall]]].
  - contradiction.
  - lia.
  - exact Hall.
Qed.

Lemma wait_returns_for_a_reason_witness :
  Forall (fun w => Window.valid_ref closed_by_user w = false) [0%nat].
Proof.
  refine (proj2 (wait_returns_for_a_reason 1 [0%nat] 0 (-1) about_to_close
                   closed_by_user _) _ _).
  - vm_compute. reflexivity.
  - lia.
  - reflexivity.
Defined.

(** The first poll of the wait loop: a pressed key is returned at once,
    before any size check and whatever the windows and the delay are; and
    with no key pressed, if every window of the list is invalid after the
    poll (all closed, or the list empty), -1 is returned at once, whatever
    the delay. *)
Theorem first_poll_decides (fuel : nat) (windows : list nat) (delay : Z)
    (st : Window.State) :
  let key := fst (Window.cv2_waitKey st) in
  let st1 := snd (Window.cv2_waitKey st) in
  (key <> -1 ->
   Window.waitKey_static (S fuel) windows delay st = Some (key, st1))
  /\ (key = -1 ->
      Forall (fun w => Window.valid_ref st1 w = false) windows ->
      Window.waitKey_static (S fuel) windows delay st = Some (-1, st1)).
Proof.
  cbv zeta. unfold Window.waitKey_static. simpl.
  destruct (Window.cv2_waitKey st) as [k st1]. simpl. split.
  - intros Hk. apply Z.eqb_neq in Hk. rewrite Hk. reflexivity.
  - intros -> Hall. simpl.
    destruct (_ && _); [reflexivity|].
    apply forallb_invalid in Hall. rewrite Hall. reflexivity.
Qed.

Lemma first_poll_decides_witness :
  Window.waitKey_static 1 [0%nat] 5000
    (snd (Window.__init__ (start key_host) "W" 0%nat 640 480))
  = Some (27, snd (Window.cv2_waitKey
                     (snd (Window.__init__ (start key_host) "W" 0%nat 640 480)))).
Proof.
  refine (proj1 (first_poll_decides 0 [0%nat] 5000
                   (snd (Window.__init__ (start key_host) "W" 0%nat 640 480))) _).
  vm_compute. discriminate.
Defined.

Lemma deliver_clock (st : Window.State) (i : highgui.HostInput) :
  highgui.clock (Window.host (Window.deliver st i)) = highgui.clock (Window.host st)
  /\ highgui.script (Window.host (Window.deliver st i))
     = highgui.script (Window.host st).
Proof.
  destruct i as [w event x y flags | w | w cols rows]; simpl.
  - destruct (highgui.windows (Window.host st) !! w) as [hw|]; [|done].
    destruct (highgui.hw_callback hw); [|done].
    destruct (callback_frame_of_callback st event x y flags s)
      as (_ & _ & _ & _ & _ & Hc & Hs).
    split; assumption.
  - done.
  - unfold highgui.resizeWindow.
    destruct (highgui.windows (Window.host st) !! w); done.
Qed.

Lemma fold_deliver_clock (inputs : list highgui.HostInput) :
  forall st : Window.State,
    highgui.clock (Window.host (fold_left Window.deliver inputs st))
    = highgui.clock (Window.host st)
    /\ highgui.script (Window.host (fold_left Window.deliver inputs st))
       = highgui.script (Window.host st).
Proof.
  induction inputs as [|i inputs IH]; intros st; simpl; [done|].
  destruct (IH (Window.deliver st i)) as [Hc Hs].
  destruct (deliver_clock st i) as [Hc1 Hs1].
  split; congruence.
Qed.

Lemma update_sizes_clock (windows : list nat) :
  forall st : Window.State,
    highgui.clock (Window.host (fold_left Window._update_size windows st))
    = highgui.clock (Window.host st)
    /\ highgui.script (Window.host (fold_left Window._update_size windows st))
       = highgui.script (Window.host st).
Proof.
  induction windows as [|w ws IH]; intros st; simpl; [done|].
  destruct (IH (Window._update_size st w)) as [Hc Hs].
  destruct (update_size_frame st w) as (_ & _ & _ & _ & _ & Hc1 & Hs1).
  split; congruence.
Qed.

(** A poll moves the clock on by the time it takes and uses up one entry
    of the script. *)
Lemma cv2_waitKey_clock (st : Window.State) :
  let p := fst (highgui.next_poll (Window.host st)) in
  (highgui.clock (Window.host (snd (Window.cv2_waitKey st)))
   == highgui.clock (Window.host st) + highgui.poll_elapsed p)%Q
  /\ highgui.script (Window.host (snd (Window.cv2_waitKey st)))
     = tail (highgui.script (Window.host st)).
Proof.
  cbv zeta. unfold Window.cv2_waitKey.
  destruct (highgui.next_poll (Window.host st)) as [p h] eqn:Hp. simpl.
  destruct (fold_deliver_clock (highgui.poll_inputs p) (Window.set_host st h))
    as [Hc Hs].
  rewrite Hc, Hs. simpl.
  unfold highgui.next_poll in Hp.
  destruct (highgui.script (Window.host st)); injection Hp as <- <-; simpl;
    split; try reflexivity; apply Qred_correct.
Qed.

Lemma millis_succ (n : nat) :
  (Z.of_nat (S n) # 1000 == (Z.of_nat n # 1000) + (1 # 1000))%Q.
Proof. unfold Qeq, Qplus. simpl. lia. Qed.

Lemma waitKey_loop_times_out (windows : list nat) (delay : Z) (end_time : Q) :
  0 < delay ->
  forall (n : nat) (st : Window.State),
    Forall (fun p => (1 # 1000 <= highgui.poll_elapsed p)%Q)
           (highgui.script (Window.host st)) ->
    (end_time <= highgui.clock (Window.host st) + (Z.of_nat (S n) # 1000))%Q ->
    exists res : Z * Window.State,
      Window.waitKey_loop (S n) windows delay end_time st = Some res.
Proof.
  intros Hdelay. induction n as [|n IH]; intros st Hscript Hbudget.
  - simpl. destruct (cv2_waitKey_clock st) as [Hclock _].
    assert (Hstep : (1 # 1000
                     <= highgui.poll_elapsed (fst (highgui.next_poll (Window.host st))))%Q).
    { unfold highgui.next_poll.
      destruct (highgui.script (Window.host st)) as [|p rest]; simpl.
      - apply Qle_refl.
      - apply Forall_cons in Hscript as [Hp _]. exact Hp. }
    destruct (Window.cv2_waitKey st) as [k st1]. simpl in Hclock.
    destruct (negb (k =? -1)); [eauto|].
    assert (Hq : Qle_bool end_time (highgui.clock (Window.host st1)) = true).
    { apply Qle_bool_iff. rewrite Hclock.
      eapply Qle_trans; [exact Hbudget|].
      apply Qplus_le_compat; [apply Qle_refl | exact Hstep]. }
    rewrite Hq. apply Z.ltb_lt in Hdelay. rewrite Hdelay. simpl. eauto.
  - cbn [Window.waitKey_loop].
    destruct (cv2_waitKey_clock st) as [Hclock Hs].
    assert (Hstep : (1 # 1000
                     <= highgui.poll_elapsed (fst (highgui.next_poll (Window.host st))))%Q).
    { unfold highgui.next_poll.
      destruct (highgui.script (Window.host st)) as [|p rest]; simpl.
      - apply Qle_refl.
      - apply Forall_cons in Hscript as [Hp _]. exact Hp. }
    destruct (Window.cv2_waitKey st) as [k st1]. simpl in Hclock, Hs.
    destruct (negb (k =? -1)); [eauto|].
    destruct (_ && _); [eauto|].
    destruct (forallb _ _); [eauto|].
    destruct (update_sizes_clock windows st1) as [Hc2 Hs2].
    apply IH.
    + rewrite Hs2, Hs.
      destruct (highgui.script (Window.host st)) as [|p rest]; simpl;
        [constructor|].
      apply Forall_cons in Hscript as [_ Hrest]. exact Hrest.
    + rewrite Hc2, Hclock.
      eapply Qle_trans; [exact Hbudget|].
      rewrite (millis_succ (S n)).
      set (c := highgui.clock (Window.host st)).
      set (e := highgui.poll_elapsed (fst (highgui.next_poll (Window.host st)))) in *.
      set (b := (Z.of_nat (S n) # 1000)).
      assert (Heq : (c + e + b == c + (b + e))%Q) by ring.
      rewrite Heq.
      apply Qplus_le_compat; [apply Qle_refl|].
      apply Qplus_le_compat; [apply Qle_refl | exact Hstep].
Qed.

(** A positive delay bounds the wait: when every poll of the host takes at
    least a millisecond, [waitKey_static] with a delay of [delay]
    milliseconds returns within [delay] polls, whatever the windows do. *)
Theorem positive_delay_bounds_wait (windows : list nat) (delay : Z)
    (st : Window.State) :
  0 < delay ->
  Forall (fun p => (1 # 1000 <= highgui.poll_elapsed p)%Q)
         (highgui.script (Window.host st)) ->
  exists (key : Z) (st' : Window.State),
    Window.waitKey_static (Z.to_nat delay) windows delay st = Some (key, st').
Proof.
  intros Hdelay Hscript. unfold Window.waitKey_static.
  destruct (Z.to_nat delay) as [|n] eqn:Hn; [lia|].
  destruct (waitKey_loop_times_out windows delay
              (highgui.clock (Window.host st) + Qmake delay 1000)%Q
              Hdelay n st Hscript) as [[key st'] Hres].
  - apply Qplus_le_compat; [apply Qle_refl|].
    rewrite <- Hn. rewrite Z2Nat.id by lia.
    destruct delay; try lia. apply Qle_refl.
  - eauto.
Qed.

Lemma positive_delay_bounds_wait_witness :
  exists (key : Z) (st' : Window.State),
    Window.waitKey_static (Z.to_nat 3) [0%nat] 3 (snd first_W) = Some (key, st').
Proof.
  refine (positive_delay_bounds_wait [0%nat] 3 (snd first_W) _ _).
  - lia.
  - vm_compute. constructor.
Defined.

End Polling.

(** * Teardown and [show] *)

Section Showing.

Lemma del_destroy_host (st : Window.State) (self : Window.t) :
  dom (highgui.windows (Window.host (Window.del_destroy st self)))
  ⊆ dom (highgui.windows (Window.host st)).
Proof.
  unfold Window.del_destroy.
  destruct (Window.is_valid (Window.host st) self); [|done].
  simpl. rewrite dom_delete_L. apply subseteq_difference_l. done.
Qed.

Lemma finalize_host (depth : nat) :
  forall (st : Window.State) (r : nat),
    dom (highgui.windows (Window.host (Window.finalize depth st r)))
    ⊆ dom (highgui.windows (Window.host st)).
Proof.
  induction depth as [|d IH]; intros st r; simpl; [done|].
  destruct (Window.heap st !! r) as [self|]; [|done].
  simpl. etrans; [apply del_destroy_host|].
  unfold Window.del_unregister.
  destruct (Window.registry st !! Window._windowName self) as [victim|]; [|done].
  repeat case_decide; try done.
  etrans; [apply IH|]. done.
Qed.

(** [__del__] only removes: it adds no entry to the registry, no object
    and no host window, leaves the outside references alone, and the
    object is gone afterwards.  For a window that has neither an entry nor
    a host window (closed by the user, entry already removed) it makes no
    call at all and only the object goes. *)
Theorem teardown_only_removes (st : Window.State) (r : nat) :
  (Window.registry (Window.__del__ st r) ⊆ Window.registry st
   /\ Window.heap (Window.__del__ st r) ⊆ Window.heap st
   /\ Window.roots (Window.__del__ st r) = Window.roots st
   /\ dom (highgui.windows (Window.host (Window.__del__ st r)))
      ⊆ dom (highgui.windows (Window.host st))
   /\ Window.heap (Window.__del__ st r) !! r = None)
  /\ (forall self : Window.t,
        Window.heap st !! r = Some self ->
        Window.registry st !! Window._windowName self = None ->
        highgui.windows (Window.host st) !! Window._windowName self = None ->
        Window.__del__ st r = Window.set_heap st (delete r (Window.heap st))).
Proof.
  split.
  - unfold Window.__del__.
    destruct (finalize_shrinks (S (size (Window.registry st))) st r)
      as (Hreg & Hheap & Hroots).
    repeat split; try assumption.
    + apply finalize_host.
    + apply finalize_frees.
  - intros self Hr Hreg Hgone.
    unfold Window.__del__. simpl. rewrite Hr.
    unfold Window.del_unregister. rewrite Hreg.
    unfold Window.del_destroy, Window.is_valid.
    rewrite (is_valid_name_missing _ _ Hgone). reflexivity.
Qed.

Lemma teardown_only_removes_witness :
  let gone := Window.set_registry closed_by_user ∅ in
  Window.__del__ gone 0%nat = Window.set_heap gone (delete 0%nat (Window.heap gone)).
Proof.
  exact (proj2 (teardown_only_removes (Window.set_registry closed_by_user ∅) 0%nat)
           (Window.mk "W" 480 640 (MouseAdapter.__init__ 0%nat) (Axes_render 640 480))
           eq_refl eq_refl eq_refl).
Defined.

(** [show] does not close or forget its window: when it returns after
    showing a window under a name that was not in use, the [Window] object
    is still registered under that name and still exists, and nothing but
    the registry refers to it (the local variable of [show] is gone). *)
Theorem show_leaves_window_registered (fuel : nat) (st st' : Window.State)
    (name : string) (axes : AxesRef) (cols rows : Z) :
  Window.registry st !! name = None ->
  highgui.windows (Window.host st) !! name = None ->
  show fuel st name axes cols rows = Some st' ->
  let r := fst (Window.__init__ st name axes cols rows) in
  Window.registry st' = <[name := r]> (Window.registry st)
  /\ (exists w : Window.t,
        Window.heap st' !! r = Some w /\ Window._windowName w = name)
  /\ r ∉ Window.roots st'.
Proof.
  intros Hreg Hgone Hshow. cbv zeta.
  pose proof (construction_under_new_name st name axes cols rows Hreg Hgone)
    as (_ & _ & Hheap & Hregistry & _).
  cbv zeta in Hheap, Hregistry.
  unfold show in Hshow.
  destruct (Window.__init__ st name axes cols rows) as [r st1].
  cbn [fst snd] in *.
  unfold Window.waitKey in Hshow.
  destruct (Window.waitKey_static fuel [r] 0 st1) as [[key st2]|] eqn:Hwait;
    [|discriminate].
  injection Hshow as <-.
  destruct (wait_loop_only_watches _ _ _ _ _ _ Hwait)
    as (Hreg2 & Hroots2 & _ & Hnames & _).
  destruct (Hnames r (Window.mk name rows cols (MouseAdapter.__init__ axes)
                        (Axes_render cols rows)))
    as (w & Hw & Hname).
  { rewrite Hheap. apply lookup_insert_eq. }
  simpl in Hname.
  unfold Window.release. cbv zeta. simpl. rewrite Hw.
  rewrite decide_True
    by (rewrite Hname, Hreg2, Hregistry; apply lookup_insert_eq).
  simpl. split; [congruence|]. split; [eauto|].
  intros Hin. apply elem_of_difference in Hin as [_ Hnot].
  apply Hnot, elem_of_singleton. reflexivity.
Qed.

Lemma show_leaves_window_registered_witness :
  exists st' : Window.State,
    show 1 (start key_host) "CvPlot" 0%nat 640 480 = Some st'
    /\ Window.registry st' = <[ "CvPlot"%string := 0%nat ]> ∅.
Proof.
  eexists. split; [vm_compute; reflexivity|].
  refine (proj1 (show_leaves_window_registered 1 (start key_host) _ "CvPlot"
                   0%nat 640 480 eq_refl eq_refl _)).
  vm_compute. reflexivity.
Defined.

(** A [show] over a window that only the registry refers to: it returns
    after a single poll and leaves neither entry nor host window. *)
Lemma show_over_unreferenced_window (fuel : nat) (st : Window.State)
    (name : string) (axes : AxesRef) (cols rows : Z) (r1 : nat)
    (first : Window.t) :
  Window.registry st !! name = Some r1 ->
  Window.heap st !! r1 = Some first ->
  Window._windowName first = name ->
  r1 ∉ Window.roots st ->
  exists st' : Window.State,
    show (S fuel) st name axes cols rows = Some st'
    /\ Window.registry st' !! name = None
    /\ highgui.windows (Window.host st') !! name = None.
Proof.
  intros Hreg Hfirst Hname Hloose.
  pose proof (construction_over_unreferenced_window st name axes cols rows r1
                first Hreg Hfirst Hname Hloose)
    as (Hregistry & Hwin & _ & Hnew & _).
  cbv zeta in Hregistry, Hwin, Hnew.
  unfold show.
  destruct (Window.__init__ st name axes cols rows) as [r2 st1].
  cbn [fst snd] in *.
  set (st2 := snd (Window.cv2_waitKey st1)).
  destruct (cv2_waitKey_keeps_names st1) as [Hreg2 Hnames].
  destruct (cv2_waitKey_poll_frame st1) as (_ & _ & _ & Hdom & _).
  fold st2 in Hreg2, Hnames, Hdom.
  destruct (Hnames r2 _ Hnew) as (w & Hw & Hwname). simpl in Hwname.
  assert (Hgone2 : highgui.windows (Window.host st2) !! name = None).
  { apply not_elem_of_dom. intros Hin. apply Hdom in Hin.
    apply not_elem_of_dom in Hwin. contradiction. }
  assert (Hinvalid : Forall (fun x => Window.valid_ref st2 x = false) [r2]).
  { constructor; [|constructor]. unfold Window.valid_ref. rewrite Hw.
    unfold Window.is_valid. rewrite Hwname. apply is_valid_name_missing, Hgone2. }
  assert (Hwait : exists key, Window.waitKey (S fuel) r2 0 st1 = Some (key, st2)).
  { unfold Window.waitKey.
    destruct (first_poll_decides fuel [r2] 0 st1) as [Hkey Hnokey].
    destruct (Z.eq_dec (fst (Window.cv2_waitKey st1)) (-1)) as [Heq|Hne].
    - exists (-1). apply Hnokey; assumption.
    - eexists. apply Hkey. exact Hne. }
  destruct Hwait as [key ->].
  eexists. split; [reflexivity|].
  assert (Hnone2 : Window.registry st2 !! name = None).
  { rewrite Hreg2, Hregistry. apply lookup_delete_eq. }
  unfold Window.release. cbv zeta. simpl. rewrite Hw.
  rewrite decide_False by (rewrite Hwname, Hnone2; discriminate).
  destruct (teardown_only_removes
              (Window.set_roots st2 (Window.roots st2 ∖ {[r2]})) r2) as [_ Hquiet].
  rewrite (Hquiet w) by (simpl; congruence).
  simpl. split; assumption.
Qed.

(** Showing twice under one name shows nothing the second time: after a
    first [show] under a name that was not in use has returned, a second
    [show] under that name, with whatever axes and size, returns after a
    single poll and leaves no entry and no host window under the name.
    [showPlot] and [showImage] always use the name "CvPlot", so the second
    of any two of them is lost in this way. *)
Theorem second_show_is_lost (fuel1 fuel2 : nat) (st st1 : Window.State)
    (name : string) (axes1 axes2 : AxesRef) (cols1 rows1 cols2 rows2 : Z) :
  Window.registry st !! name = None ->
  highgui.windows (Window.host st) !! name = None ->
  show fuel1 st name axes1 cols1 rows1 = Some st1 ->
  (exists st2 : Window.State,
     show (S fuel2) st1 name axes2 cols2 rows2 = Some st2
     /\ Window.registry st2 !! name = None
     /\ highgui.windows (Window.host st2) !! name = None)
  /\ (name = "CvPlot"%string ->
      cols1 = 640 -> rows1 = 480 ->
      showPlot fuel1 st axes1 = Some st1
      /\ exists st2 : Window.State,
           showImage (S fuel2) st1 axes2 = Some st2
           /\ Window.registry st2 !! "CvPlot"%string = None
           /\ highgui.windows (Window.host st2) !! "CvPlot"%string = None).
Proof.
  intros Hreg Hgone Hshow.
  destruct (show_leaves_window_registered _ _ _ _ _ _ _ Hreg Hgone Hshow)
    as (Hregistry & (w & Hw & Hname) & Hloose).
  assert (Hlost : forall axes cols rows,
             exists st2 : Window.State,
               show (S fuel2) st1 name axes cols rows = Some st2
               /\ Window.registry st2 !! name = None
               /\ highgui.windows (Window.host st2) !! name = None).
  { intros axes cols rows.
    eapply show_over_unreferenced_window; try eassumption.
    rewrite Hregistry. apply lookup_insert_eq. }
  split; [apply Hlost|].
  intros -> -> ->. split; [exact Hshow|].
  unfold showImage. apply Hlost.
Qed.

Lemma second_show_is_lost_witness :
  exists st1 st2 : Window.State,
    showPlot 1 (start key_host) 0%nat = Some st1
    /\ showImage 1 st1 1%nat = Some st2
    /\ Window.registry st2 !! "CvPlot"%string = None
    /\ highgui.windows (Window.host st2) !! "CvPlot"%string = None.
Proof.
  assert (Hfirst : exists st1, show 1 (start key_host) "CvPlot" 0%nat 640 480 = Some st1)
    by (eexists; vm_compute; reflexivity).
  destruct Hfirst as [st1 Hst1].
  destruct (proj2 (second_show_is_lost 1 0 (start key_host) st1 "CvPlot"
                     0%nat 1%nat 640 480 640 480 eq_refl eq_refl Hst1)
              eq_refl eq_refl eq_refl)
    as (Hplot & st2 & Himage & Hreg & Hwin).
  exists st1, st2. repeat split; assumption.
Defined.

End Showing.
